(** * Frutia QC crate log: a shallow embedding of [app.py]

    The Flask application keeps one table, [crates], and offers an HTML
    dashboard with filters, an insert form, a detail page, a CSV export and
    a small JSON API.  This development embeds the request handlers of
    [app.py] as functions over an explicit world (the table and the UTC
    clock) and proves the properties the specification states about them.

    What is embedded: the model [Crate] and its [to_dict], and the
    handlers [dashboard], [add_crate] (its POST branch), [crate_detail],
    [export_csv] (the rows it writes and the call that sends them) and
    [api_crates] (its GET and POST branches).  The templates, the redirect
    targets as URLs, the response headers and the creation of the database
    file are left out.

    Conventions of the embedding:
    - a Python [str] is a Rocq [string], one [ascii] per character (text
      over the code points below 256);
    - a Python [float] is an IEEE binary64 value, [spec_float] with
      precision 53 and maximal exponent 1024;
    - [None] is [None], a nullable column is an [option];
    - the table is the list of its rows in scan order; it holds the values
      as SQLite gives them back, which for a weight is not always the value
      the session was given;
    - a handler that may raise runs in the monad [M], state plus exception;
    - the library calls the handlers make ([float], [strptime],
      [isoformat], [str.replace], SQL [LIKE], [ORDER BY]) are embedded from
      their documented behaviour. *)

From Stdlib Require Import ZArith String Ascii List Bool Lia.
From Stdlib Require Import Sorted Permutation SpecFloat DecimalString.
From stdpp Require Import gmap strings list.

Open Scope Z_scope.

(* ===================================================================== *)
(** ** Characters and strings *)
(* ===================================================================== *)

Module PyStr.

Definition code (c : ascii) : Z := Z.of_nat (nat_of_ascii c).

Definition is_digit (c : ascii) : bool := (48 <=? code c) && (code c <=? 57).

Definition digit_val (c : ascii) : Z := code c - 48.

Definition is_upper (c : ascii) : bool := (65 <=? code c) && (code c <=? 90).

(** SQLite's [lower()] and the case folding of [LIKE] touch the 26 ASCII
    letters only. *)
Definition lower_char (c : ascii) : ascii :=
  if is_upper c then ascii_of_nat (nat_of_ascii c + 32) else c.

Fixpoint lower (s : string) : string :=
  match s with
  | EmptyString => EmptyString
  | String c s' => String (lower_char c) (lower s')
  end.

(** Truthiness of a [str]: the empty string is the only falsy one. *)
Definition truthy (s : string) : bool :=
  match s with
  | EmptyString => false
  | String _ _ => true
  end.

(** [prefix_rest p s] is [Some r] when [s = p ++ r]. *)
Fixpoint prefix_rest (p s : string) : option string :=
  match p with
  | EmptyString => Some s
  | String a p' =>
      match s with
      | EmptyString => None
      | String b s' => if Ascii.eqb a b then prefix_rest p' s' else None
      end
  end.

(** [str.replace(old, new)] for a non-empty [old]: occurrences are replaced
    from the left and do not overlap.  [fuel] bounds the number of steps by
    the length of the subject, which suffices since every step consumes at
    least one character. *)
Fixpoint replace_from (fuel : nat) (old new s : string) : string :=
  match fuel with
  | O => s
  | S fuel' =>
      match prefix_rest old s with
      | Some r => new +:+ replace_from fuel' old new r
      | None =>
          match s with
          | EmptyString => EmptyString
          | String c s' => String c (replace_from fuel' old new s')
          end
      end
  end.

Definition replace (old new s : string) : string :=
  replace_from (String.length s) old new s.

(** [s.find(sub) != -1], the plain substring test. *)
Fixpoint contains (sub s : string) : bool :=
  match prefix_rest sub s with
  | Some _ => true
  | None =>
      match s with
      | EmptyString => false
      | String _ s' => contains sub s'
      end
  end.

End PyStr.

(* ===================================================================== *)
(** ** Dates and timestamps ([datetime.date], [datetime.datetime]) *)
(* ===================================================================== *)

Module PyDate.
Import PyStr.

Record date := mkdate { year : Z; month : Z; day : Z }.

Record datetime := mkdatetime {
  dt_date : date;          (* [.date()] *)
  hour : Z;
  minute : Z;
  second : Z;
  microsecond : Z
}.

Definition is_leap (y : Z) : bool :=
  (y mod 4 =? 0) && (negb (y mod 100 =? 0) || (y mod 400 =? 0)).

Definition days_in_month (y m : Z) : Z :=
  if m =? 2 then (if is_leap y then 29 else 28)
  else if (m =? 4) || (m =? 6) || (m =? 9) || (m =? 11) then 30
  else 31.

(** The range check of the [date] constructor. *)
Definition valid_ymd (y m d : Z) : bool :=
  (1 <=? y) && (y <=? 9999) && (1 <=? m) && (m <=? 12)
  && (1 <=? d) && (d <=? days_in_month y m).

Definition valid_date (d : date) : bool := valid_ymd (year d) (month d) (day d).

(** Dates compare by year, then month, then day. *)
Definition date_compare (a b : date) : comparison :=
  match year a ?= year b with
  | Eq => match month a ?= month b with
          | Eq => day a ?= day b
          | c => c
          end
  | c => c
  end.

Definition digit_char (z : Z) : ascii := ascii_of_nat (48 + Z.to_nat (z mod 10)).

(** ["%02d"], ["%04d"] and ["%06d"] on the ranges the date types allow. *)
Definition zfill2 (z : Z) : string :=
  String (digit_char (z / 10)) (String (digit_char z) EmptyString).

Definition zfill4 (z : Z) : string :=
  String (digit_char (z / 1000)) (String (digit_char (z / 100)) (zfill2 z)).

Definition zfill6 (z : Z) : string :=
  String (digit_char (z / 100000)) (String (digit_char (z / 10000)) (zfill4 z)).

(** [date.isoformat()]: YYYY-MM-DD. *)
Definition date_isoformat (d : date) : string :=
  zfill4 (year d) +:+ "-" +:+ zfill2 (month d) +:+ "-" +:+ zfill2 (day d).

(** [datetime.isoformat()]: YYYY-MM-DDTHH:MM:SS, followed by .ffffff when
    the microsecond is not zero. *)
Definition datetime_isoformat (t : datetime) : string :=
  date_isoformat (dt_date t) +:+ "T" +:+ zfill2 (hour t) +:+ ":"
  +:+ zfill2 (minute t) +:+ ":" +:+ zfill2 (second t)
  +:+ (if microsecond t =? 0 then EmptyString else "." +:+ zfill6 (microsecond t)).

(** *** [datetime.strptime(s, "%Y-%m-%d").date()]

    [strptime] compiles the format to the regular expression
    [(\d\d\d\d)-(1[0-2]|0[1-9]|[1-9])-(3[01]|[12]\d|0[1-9]|[1-9]| [1-9])],
    matches it at the start of the string, rejects the string when text
    remains after the match, and hands the numbers to the [date]
    constructor, which checks their ranges. *)

Inductive strptime_error :=
  | NoFormatMatch          (* time data does not match format *)
  | UnconvertedData        (* unconverted data remains *)
  | OutOfRange.            (* year/day is out of range *)

Definition in_range (lo hi : Z) (c : ascii) : bool :=
  (lo <=? code c) && (code c <=? hi).

(** [\d\d\d\d] *)
Definition re_Y (s : string) : option (Z * string) :=
  match s with
  | String a (String b (String c (String d r))) =>
      if is_digit a && is_digit b && is_digit c && is_digit d
      then Some (1000 * digit_val a + 100 * digit_val b
                 + 10 * digit_val c + digit_val d, r)
      else None
  | _ => None
  end.

(** One alternative made of two character classes. *)
Definition alt2 (p q : ascii -> bool) (s : string) : list (Z * string) :=
  match s with
  | String a (String b r) =>
      if p a && q b then [(10 * digit_val a + digit_val b, r)] else []
  | _ => []
  end.

(** The alternative [[1-9]]. *)
Definition alt1 (s : string) : list (Z * string) :=
  match s with
  | String a r => if in_range 49 57 a then [(digit_val a, r)] else []
  | _ => []
  end.

(** The alternative [ [1-9]] (a space, then a digit). *)
Definition alt_sp (s : string) : list (Z * string) :=
  match s with
  | String a (String b r) =>
      if (code a =? 32) && in_range 49 57 b then [(digit_val b, r)] else []
  | _ => []
  end.

(** The ways [%m] and [%d] match at the head of [s], in the order the
    backtracking matcher tries them. *)
Definition re_m (s : string) : list (Z * string) :=
  alt2 (in_range 49 49) (in_range 48 50) s
  ++ alt2 (in_range 48 48) (in_range 49 57) s
  ++ alt1 s.

Definition re_d (s : string) : list (Z * string) :=
  alt2 (in_range 51 51) (in_range 48 49) s
  ++ alt2 (in_range 49 50) is_digit s
  ++ alt2 (in_range 48 48) (in_range 49 57) s
  ++ alt1 s
  ++ alt_sp s.

Definition lit_dash (s : string) : option string :=
  match s with
  | String c r => if code c =? 45 then Some r else None
  | EmptyString => None
  end.

(** The rest of the expression after a month candidate: [-] and [%d]. *)
Definition after_month (cand : Z * string) : option (Z * Z * string) :=
  match lit_dash (snd cand) with
  | Some s =>
      match re_d s with
      | (d, r) :: _ => Some (fst cand, d, r)
      | [] => None
      end
  | None => None
  end.

Fixpoint first_some {A B : Type} (f : A -> option B) (l : list A) : option B :=
  match l with
  | [] => None
  | x :: l' => match f x with Some y => Some y | None => first_some f l' end
  end.

(** [format_regex.match(s)]: the groups and the unmatched rest. *)
Definition re_match (s : string) : option (Z * Z * Z * string) :=
  match re_Y s with
  | Some (y, s1) =>
      match lit_dash s1 with
      | Some s2 =>
          match first_some after_month (re_m s2) with
          | Some (m, d, r) => Some (y, m, d, r)
          | None => None
          end
      | None => None
      end
  | None => None
  end.

Definition strptime_date (s : string) : strptime_error + date :=
  match re_match s with
  | None => inl NoFormatMatch
  | Some (y, m, d, r) =>
      if truthy r then inl UnconvertedData
      else if valid_ymd y m d then inr (mkdate y m d)
      else inl OutOfRange
  end.

End PyDate.

(* ===================================================================== *)
(** ** Floats ([float], the type of the [weight] column) *)
(* ===================================================================== *)

Module PyFloat.
Import PyStr.

Abbreviation float := spec_float.

Definition fadd : float -> float -> float := SFadd 53 1024.

(** The float nearest to an integer, ties to even, infinite past the range. *)
Definition of_Z (z : Z) : float := binary_normalize 53 1024 z 0 false.

(** Truthiness of a [float]: both zeros are falsy, everything else (NaN
    included) is truthy. *)
Definition truthy (x : float) : bool :=
  match x with
  | S754_zero _ => false
  | _ => true
  end.

(** [float(n)] for an [int]: [None] stands for [OverflowError]. *)
Definition float_of_int (z : Z) : option float :=
  match of_Z z with
  | S754_infinity _ => None
  | f => Some f
  end.

(** The float nearest to [m * 10^e10] for [m >= 0], with the sign [neg];
    overflow gives an infinity and underflow a zero, as [strtod] does. *)
Definition of_decimal (neg : bool) (m e10 : Z) : float :=
  match m with
  | Z0 => S754_zero neg
  | Zpos _ =>
      if 0 <=? e10
      then binary_normalize 53 1024 (cond_Zopp neg (m * 10 ^ e10)) 0 false
      else
        let '(q, e, l) := SFdiv_core_binary 53 1024 m 0 (10 ^ (- e10)) 0 in
        binary_round_aux 53 1024 neg q e l
  | Zneg _ => S754_nan
  end.

(** Characters [float] strips: the C whitespace and the two space
    characters between 128 and 255. *)
Definition is_space (c : ascii) : bool :=
  ((9 <=? code c) && (code c <=? 13)) || (code c =? 32)
  || (code c =? 133) || (code c =? 160).

Definition is_underscore (c : ascii) : bool := code c =? 95.

(** Underscores may only stand between two digits; they are dropped.
    [prev] is the character before the head of [s], if any. *)
Fixpoint drop_underscores (prev : option ascii) (s : string) : option string :=
  match s with
  | EmptyString =>
      match prev with
      | Some p => if is_underscore p then None else Some EmptyString
      | None => Some EmptyString
      end
  | String c s' =>
      if is_underscore c then
        match prev with
        | Some p => if is_digit p then drop_underscores (Some c) s' else None
        | None => None
        end
      else
        match prev with
        | Some p =>
            if is_underscore p && negb (is_digit c) then None
            else option_map (String c) (drop_underscores (Some c) s')
        | None => option_map (String c) (drop_underscores (Some c) s')
        end
  end.

Fixpoint lstrip (s : string) : string :=
  match s with
  | String c s' => if is_space c then lstrip s' else s
  | EmptyString => EmptyString
  end.

(** Drops trailing spaces; an all-space string becomes empty. *)
Fixpoint rstrip (s : string) : string :=
  match s with
  | EmptyString => EmptyString
  | String c s' =>
      match rstrip s' with
      | EmptyString => if is_space c then EmptyString else String c EmptyString
      | r => String c r
      end
  end.

Definition strip (s : string) : string := rstrip (lstrip s).

(** Reads a run of digits: the value accumulated onto [acc], the number of
    digits read added to [n], and the rest. *)
Fixpoint take_digits (acc n : Z) (s : string) : Z * Z * string :=
  match s with
  | String c s' =>
      if is_digit c then take_digits (10 * acc + digit_val c) (n + 1) s'
      else (acc, n, s)
  | EmptyString => (acc, n, s)
  end.

(** An optional sign: whether it is a minus, and the rest. *)
Definition take_sign (s : string) : bool * string :=
  match s with
  | String c s' =>
      if code c =? 45 then (true, s')
      else if code c =? 43 then (false, s')
      else (false, s)
  | EmptyString => (false, s)
  end.

Definition is_e (c : ascii) : bool := (code c =? 101) || (code c =? 69).

Definition is_dot (c : ascii) : bool := code c =? 46.

(** digits [. digits] [e [sign] digits], at least one digit before the
    exponent, nothing after: the mantissa as an integer and the power of
    ten it is scaled by. *)
Definition parse_decimal (s : string) : option (Z * Z) :=
  let '(m1, n1, r1) := take_digits 0 0 s in
  let '(m2, n2, r2) :=
    match r1 with
    | String c r => if is_dot c then take_digits m1 0 r else (m1, 0, r1)
    | EmptyString => (m1, 0, r1)
    end in
  if n1 + n2 =? 0 then None
  else
    match r2 with
    | EmptyString => Some (m2, - n2)
    | String c r =>
        if is_e c then
          let '(eneg, r') := take_sign r in
          let '(x, nx, r'') := take_digits 0 0 r' in
          if (nx =? 0) || PyStr.truthy r'' then None
          else Some (m2, (if eneg then - x else x) - n2)
        else None
    end.

(** [float(s)] for a [str]: [None] stands for [ValueError]. *)
Definition float_of_string (s : string) : option float :=
  match drop_underscores None s with
  | None => None
  | Some s1 =>
      let '(neg, body) := take_sign (strip s1) in
      let w := lower body in
      if String.eqb w "inf" || String.eqb w "infinity"
      then Some (S754_infinity neg)
      else if String.eqb w "nan" then Some S754_nan
      else
        match parse_decimal body with
        | Some (m, e10) => Some (of_decimal neg m e10)
        | None => None
        end
  end.

End PyFloat.

(* ===================================================================== *)
(** ** The query layer (SQLAlchemy on SQLite) *)
(* ===================================================================== *)

Module Sql.
Import PyStr.

Definition is_percent (c : ascii) : bool := code c =? 37.

Definition is_underscore (c : ascii) : bool := code c =? 95.

(** SQLite's matcher for [LIKE] without an [ESCAPE] clause: [%] stands for
    any run of characters, [_] for exactly one character, every other
    character for itself up to the case of ASCII letters. *)
Fixpoint like_chars (pat : string) : string -> bool :=
  match pat with
  | EmptyString => fun s => negb (truthy s)
  | String p pat' =>
      if is_percent p then
        fix any (s : string) : bool :=
          like_chars pat' s
          || match s with
             | EmptyString => false
             | String _ s' => any s'
             end
      else if is_underscore p then
        fun s =>
          match s with
          | EmptyString => false
          | String _ s' => like_chars pat' s'
          end
      else
        fun s =>
          match s with
          | EmptyString => false
          | String c s' =>
              Ascii.eqb (lower_char p) (lower_char c) && like_chars pat' s'
          end
  end.

(** The matcher reads its two texts as C strings: each ends at its first
    NUL character, whatever follows. *)
Fixpoint c_string (s : string) : string :=
  match s with
  | EmptyString => EmptyString
  | String c s' => if code c =? 0 then EmptyString else String c (c_string s')
  end.

(** [subject LIKE pattern] *)
Definition like (pat s : string) : bool := like_chars (c_string pat) (c_string s).

(** The length of a text in bytes, as SQLite holds it (UTF-8): one byte
    for a character below 128, two for the others. *)
Fixpoint utf8_length (s : string) : Z :=
  match s with
  | EmptyString => 0
  | String c s' => (if code c <? 128 then 1 else 2) + utf8_length s'
  end.

(** [SQLITE_MAX_LIKE_PATTERN_LENGTH] *)
Definition like_pattern_limit : Z := 50000.

(** A pattern of more bytes than the limit is refused when [LIKE] is
    evaluated (LIKE or GLOB pattern too complex); the NUL characters of
    the pattern count. *)
Definition pattern_too_complex (pat : string) : bool :=
  like_pattern_limit <? utf8_length pat.

(** [column.ilike(pattern)], compiled to [lower(column) LIKE lower(pattern)]. *)
Definition ilike (value pat : string) : bool := like (lower pat) (lower value).

(** The same test as the scan of a table evaluates it: [None] when the
    pattern is refused. *)
Definition ilike_checked (value pat : string) : option bool :=
  if pattern_too_complex (lower pat) then None else Some (ilike value pat).

(** [column == value] on a nullable text column: a NULL never compares equal. *)
Definition eq_nullable (value : option string) (v : string) : bool :=
  match value with
  | Some s => String.eqb s v
  | None => false
  end.

Section Query.
Context {R : Type}.

(** A query under construction: the [WHERE] criteria, all of which must
    hold, and the [ORDER BY] terms, most significant first. *)
Record Query := mkQuery {
  criteria : list (R -> bool);
  ordering : list (R -> R -> comparison)
}.

Definition order_by (os : list (R -> R -> comparison)) : Query :=
  mkQuery [] os.

Definition filter_ (q : Query) (c : R -> bool) : Query :=
  mkQuery (criteria q ++ [c]) (ordering q).

Definition satisfies (cs : list (R -> bool)) (r : R) : bool :=
  forallb (fun c => c r) cs.

(** Rows compare by the first term that tells them apart. *)
Fixpoint lex (os : list (R -> R -> comparison)) (a b : R) : comparison :=
  match os with
  | [] => Eq
  | o :: os' =>
      match o a b with
      | Eq => lex os' a b
      | c => c
      end
  end.

Definition leb_of (cmp : R -> R -> comparison) (a b : R) : bool :=
  match cmp a b with
  | Gt => false
  | _ => true
  end.

(** The sorter: insertion keeps rows that compare equal in scan order. *)
Fixpoint insert_sorted (cmp : R -> R -> comparison) (x : R) (l : list R) : list R :=
  match l with
  | [] => [x]
  | y :: l' => if leb_of cmp x y then x :: l else y :: insert_sorted cmp x l'
  end.

Fixpoint sort_by (cmp : R -> R -> comparison) (l : list R) : list R :=
  match l with
  | [] => []
  | x :: l' => insert_sorted cmp x (sort_by cmp l')
  end.

(** [query.all()]: scan the table, keep the rows that satisfy the
    criteria, sort them.  SQL leaves the order of rows that compare equal
    open; the sorter here keeps them in scan order. *)
Definition all (q : Query) (rows : list R) : list R :=
  sort_by (lex (ordering q)) (List.filter (satisfies (criteria q)) rows).

End Query.

Arguments Query R : clear implicits.

End Sql.

(* ===================================================================== *)
(** ** The application *)
(* ===================================================================== *)

Module App.
Import PyStr PyDate Sql.

(** *** The model: one row of [crates] *)

Record Crate := mkCrate {
  id : Z;                           (* primary key *)
  run_number : option string;
  puc : string;                     (* nullable=False *)
  farm_name : string;               (* nullable=False *)
  commodity : string;               (* nullable=False *)
  variety : option string;
  grade_class : option string;
  size : option string;
  weight : option PyFloat.float;
  date_received : date;             (* nullable=False *)
  inspector_notes : option string;
  created_at : option datetime      (* filled by the column default *)
}.

(** The keyword arguments of a [Crate(...)] call: the object before the
    session flushes it, when it has neither [id] nor [created_at]. *)
Record NewCrate := mkNewCrate {
  n_run_number : option string;
  n_puc : string;
  n_farm_name : string;
  n_commodity : string;
  n_variety : option string;
  n_grade_class : option string;
  n_size : option string;
  n_weight : option PyFloat.float;
  n_date_received : date;
  n_inspector_notes : option string
}.

(** *** Exceptions, the world, and the handler monad *)

Inductive exn :=
  | BadRequestKeyError (key : string)      (* [request.form[key]], a [KeyError] *)
  | ValueError_float (arg : string)        (* could not convert string to float *)
  | ValueError_strptime (arg : string) (why : strptime_error)
  | OverflowError                          (* int too large for a float or for SQLite *)
  | AttributeError                         (* [None.isoformat()], [bytes.read] *)
  | NotFound                               (* [get_or_404] *)
  | OperationalError.                      (* LIKE or GLOB pattern too complex *)

(** The table in scan order, and the process clock: [clock w n] is what the
    [n]-th call of [datetime.utcnow()] returns. *)
Record World := mkWorld {
  table : list Crate;
  clock : nat -> datetime;
  ticks : nat
}.

Definition M (A : Type) : Type := World -> (exn + A) * World.

Definition ret {A : Type} (a : A) : M A := fun w => (inr a, w).

Definition raise {A : Type} (e : exn) : M A := fun w => (inl e, w).

Definition bind {A B : Type} (m : M A) (k : A -> M B) : M B :=
  fun w =>
    match m w with
    | (inr a, w') => k a w'
    | (inl e, w') => (inl e, w')
    end.

Notation "'let*' x ':=' m 'in' k" := (bind m (fun x => k))
  (at level 10, x name, m at level 100, k at level 200).

Definition lift {A : Type} (r : exn + A) : M A := fun w => (r, w).

Fixpoint mapM {A B : Type} (f : A -> M B) (l : list A) : M (list B) :=
  match l with
  | [] => ret []
  | x :: l' =>
      let* y := f x in
      let* ys := mapM f l' in
      ret (y :: ys)
  end.

(** [datetime.utcnow()] *)
Definition utcnow : M datetime :=
  fun w => (inr (clock w (ticks w)), mkWorld (table w) (clock w) (S (ticks w))).

(** The rowid SQLite gives to a new row: one more than the largest in use. *)
Definition next_id (rows : list Crate) : Z :=
  fold_right Z.max 0 (map id rows) + 1.

(** What the [weight] column gives back for the value it was handed:
    SQLite stores a NaN as NULL, and a negative zero is read back as
    [0.0]; every other value is read back as it was. *)
Definition stored_weight (o : option PyFloat.float) : option PyFloat.float :=
  match o with
  | Some S754_nan => None
  | Some (S754_zero _) => Some (S754_zero false)
  | _ => o
  end.

(** [db.session.add(c); db.session.commit()]: the row gets its [id] and
    its [created_at] default and is appended to the table.  The commit
    expires the object, so what the handler reads from it afterwards is
    the row as the table holds it. *)
Definition session_add_commit (n : NewCrate) : M Crate :=
  let* now := utcnow in
  fun w =>
    let c := mkCrate (next_id (table w)) (n_run_number n) (n_puc n)
               (n_farm_name n) (n_commodity n) (n_variety n) (n_grade_class n)
               (n_size n) (stored_weight (n_weight n)) (n_date_received n)
               (n_inspector_notes n) (Some now) in
    (inr c, mkWorld (table w ++ [c]) (clock w) (ticks w)).

(** *** Values handed to the serializers *)

Inductive pyval :=
  | PNone
  | PInt (z : Z)
  | PFloat (x : PyFloat.float)
  | PStr (s : string).

Definition opt_str (o : option string) : pyval :=
  match o with Some s => PStr s | None => PNone end.

Definition opt_float (o : option PyFloat.float) : pyval :=
  match o with Some x => PFloat x | None => PNone end.

(** [Crate.to_dict]: the keys in the order the literal lists them.
    [date_received] is never NULL, so its [isoformat] is always taken;
    [created_at] is dereferenced without a guard. *)
Definition to_dict (c : Crate) : exn + list (string * pyval) :=
  match created_at c with
  | Some t =>
      inr [ ("id", PInt (id c));
            ("run_number", opt_str (run_number c));
            ("puc", PStr (puc c));
            ("farm_name", PStr (farm_name c));
            ("commodity", PStr (commodity c));
            ("variety", opt_str (variety c));
            ("grade_class", opt_str (grade_class c));
            ("size", opt_str (size c));
            ("weight", opt_float (weight c));
            ("date_received", PStr (date_isoformat (date_received c)));
            ("inspector_notes", opt_str (inspector_notes c));
            ("created_at", PStr (datetime_isoformat t)) ]
  | None => inl AttributeError
  end.

(** *** Reading request data *)

(** Truthiness of what [.get(key)] returns: [None] and [""] are falsy. *)
Definition opt_truthy (o : option string) : bool :=
  match o with Some s => truthy s | None => false end.

(** [x or None] *)
Definition or_none (o : option string) : option string :=
  match o with
  | Some s => if truthy s then Some s else None
  | None => None
  end.

(** [request.form[key]] *)
Definition getitem (data : gmap string string) (key : string) : M string :=
  match data !! key with
  | Some v => ret v
  | None => raise (BadRequestKeyError key)
  end.

(** [float(s)] on a string *)
Definition float_str (s : string) : M PyFloat.float :=
  match PyFloat.float_of_string s with
  | Some x => ret x
  | None => raise (ValueError_float s)
  end.

(** [datetime.strptime(s, "%Y-%m-%d").date()] *)
Definition strptime (s : string) : M date :=
  match strptime_date s with
  | inr d => ret d
  | inl why => raise (ValueError_strptime s why)
  end.

(** [datetime.utcnow().date()] *)
Definition utc_today : M date :=
  let* now := utcnow in ret (dt_date now).

(** *** [POST /add] *)

(** The [Crate(...)] call of [add_crate]; the arguments are evaluated in
    the order they are written. *)
Definition crate_of_form (data : gmap string string) : M NewCrate :=
  let run_number := or_none (data !! "run_number") in
  let* puc := getitem data "puc" in
  let* farm_name := getitem data "farm_name" in
  let* commodity := getitem data "commodity" in
  let variety := or_none (data !! "variety") in
  let grade_class := or_none (data !! "grade_class") in
  let size := or_none (data !! "size") in
  let* weight :=
    (if opt_truthy (data !! "weight")
     then let* s := getitem data "weight" in
          let* x := float_str s in ret (Some x)
     else ret None) in
  let* date_received :=
    (if opt_truthy (data !! "date_received")
     then let* s := getitem data "date_received" in strptime s
     else utc_today) in
  let inspector_notes := or_none (data !! "inspector_notes") in
  ret (mkNewCrate run_number puc farm_name commodity variety grade_class
         size weight date_received inspector_notes).

Inductive category := success | danger.

Inductive notice :=
  | CrateAdded                     (* "Crate added." *)
  | FailedToAdd (e : exn).         (* "Failed to add crate: {e}" *)

Inductive endpoint := ep_dashboard | ep_add_crate.

(** What the POST branch of [add_crate] answers: the flashed notice and
    the redirect. *)
Record FormResponse := mkFormResponse {
  flashed : notice * category;
  redirect : endpoint
}.

(** The [try] block and its [except Exception] handler. *)
Definition add_crate (data : gmap string string) (w : World)
  : FormResponse * World :=
  match (let* c := crate_of_form data in session_add_commit c) w with
  | (inr _, w') => (mkFormResponse (CrateAdded, success) ep_dashboard, w')
  | (inl e, w') => (mkFormResponse (FailedToAdd e, danger) ep_add_crate, w')
  end.

(** *** [/api/crates] *)

(** A JSON [weight]: a string or a number. *)
Inductive jweight :=
  | JStr (s : string)
  | JInt (z : Z)
  | JFloat (x : PyFloat.float).

(** The decoded JSON object; [None] is an absent key or a JSON null, which
    [payload.get] does not tell apart.  The record covers the bodies that
    are objects whose text fields are strings or null and whose weight is
    a string, an integer, a float or null; a body that is no object and
    fields of other JSON types have no counterpart here. *)
Record Payload := mkPayload {
  j_run_number : option string;
  j_puc : option string;
  j_farm_name : option string;
  j_commodity : option string;
  j_variety : option string;
  j_grade_class : option string;
  j_size : option string;
  j_weight : option jweight;
  j_date_received : option string;
  j_inspector_notes : option string
}.

Definition jweight_truthy (o : option jweight) : bool :=
  match o with
  | Some (JStr s) => truthy s
  | Some (JInt z) => negb (z =? 0)
  | Some (JFloat x) => PyFloat.truthy x
  | None => false
  end.

(** [float(payload["weight"])] *)
Definition float_json (v : jweight) : M PyFloat.float :=
  match v with
  | JStr s => float_str s
  | JInt z =>
      match PyFloat.float_of_int z with
      | Some x => ret x
      | None => raise OverflowError
      end
  | JFloat x => ret x
  end.

Inductive body :=
  | ErrorBody (msg : string)                        (* {"error": msg} *)
  | CrateBody (d : list (string * pyval))
  | ListBody (ds : list (list (string * pyval))).

Record ApiResponse := mkApiResponse { json : body; status : Z }.

(** The [Crate(...)] call of [api_crates], after the required fields
    passed the check. *)
Definition crate_of_payload (payload : Payload) (puc farm_name commodity : string)
  : M NewCrate :=
  let* weight :=
    (match j_weight payload with
     | Some v =>
         if jweight_truthy (Some v)
         then let* x := float_json v in ret (Some x)
         else ret None
     | None => ret None
     end) in
  let* date_received :=
    (match j_date_received payload with
     | Some s => if truthy s then strptime s else utc_today
     | None => utc_today
     end) in
  ret (mkNewCrate (j_run_number payload) puc farm_name commodity
         (j_variety payload) (j_grade_class payload) (j_size payload)
         weight date_received (j_inspector_notes payload)).

(** The POST branch of [api_crates].  [or_none v] is [None] exactly when
    [not v] holds, so the first branch is the one taken when all three
    required fields are truthy. *)
Definition api_crates_post (payload : Payload) : M ApiResponse :=
  match or_none (j_puc payload), or_none (j_farm_name payload),
        or_none (j_commodity payload) with
  | Some puc, Some farm_name, Some commodity =>
      let* n := crate_of_payload payload puc farm_name commodity in
      let* c := session_add_commit n in
      let* d := lift (to_dict c) in
      ret (mkApiResponse (CrateBody d) 201)
  | _, _, _ =>
      ret (mkApiResponse (ErrorBody "puc, farm_name and commodity are required") 400)
  end.

Definition desc {K : Type} (key : Crate -> K) (cmp : K -> K -> comparison)
  : Crate -> Crate -> comparison :=
  fun a b => cmp (key b) (key a).

(** The GET branch of [api_crates]. *)
Definition api_crates_get : M ApiResponse :=
  fun w =>
    let crates := all (order_by [desc id Z.compare]) (table w) in
    (let* ds := mapM (fun c => lift (to_dict c)) crates in
     ret (mkApiResponse (ListBody ds) 200)) w.

(** *** [/dashboard] *)

Inductive pynum :=
  | PyInt (z : Z)
  | PyFloat (x : PyFloat.float).

(** [a + b] on numbers; the integers that meet a float here are [0]. *)
Definition py_add (a b : pynum) : pynum :=
  match a, b with
  | PyInt x, PyInt y => PyInt (x + y)
  | PyInt x, PyFloat y => PyFloat (PyFloat.fadd (PyFloat.of_Z x) y)
  | PyFloat x, PyInt y => PyFloat (PyFloat.fadd x (PyFloat.of_Z y))
  | PyFloat x, PyFloat y => PyFloat (PyFloat.fadd x y)
  end.

(** [sum(items)]: from the integer [0], left to right. *)
Definition py_sum (items : list pynum) : pynum := fold_left py_add items (PyInt 0).

(** [c.weight or 0] *)
Definition weight_or_0 (c : Crate) : pynum :=
  match weight c with
  | Some x => if PyFloat.truthy x then PyFloat x else PyInt 0
  | None => PyInt 0
  end.

Record Totals := mkTotals { count : nat; total_weight : pynum }.

Record Filters := mkFilters {
  f_run : option string;
  f_puc : option string;
  f_commodity : option string;
  f_farm : option string
}.

(** What [dashboard] hands to its template. *)
Record Dashboard := mkDashboard {
  crates : list Crate;
  totals : Totals;
  filters : Filters
}.

(** [if v: q = q.filter(c(v))] *)
Definition filter_if (v : option string) (c : string -> Crate -> bool)
  (q : Query Crate) : Query Crate :=
  match v with
  | Some s => if truthy s then filter_ q (c s) else q
  | None => q
  end.

(** The page [dashboard] computes when its query runs; [dashboard_view]
    below adds the case in which SQLite refuses the query. *)
Definition dashboard (args : gmap string string) (w : World) : Dashboard :=
  let q := order_by [desc date_received date_compare; desc id Z.compare] in
  let run := args !! "run" in
  let puc_ := args !! "puc" in
  let commodity_ := args !! "commodity" in
  let farm := args !! "farm" in
  let q := filter_if run (fun v c => eq_nullable (run_number c) v) q in
  let q := filter_if puc_ (fun v c => ilike (puc c) ("%" +:+ v +:+ "%")) q in
  let q := filter_if commodity_ (fun v c => ilike (commodity c) ("%" +:+ v +:+ "%")) q in
  let q := filter_if farm (fun v c => ilike (farm_name c) ("%" +:+ v +:+ "%")) q in
  let crates := all q (table w) in
  let totals := mkTotals (length crates) (py_sum (map weight_or_0 crates)) in
  mkDashboard crates totals (mkFilters run puc_ commodity_ farm).

(** One test of the [WHERE] clause on a row, then the tests after it:
    a test that is not applied or that holds passes on to the next, one
    that fails ends the row, one that is refused ends the query. *)
Definition and_then (v : option string) (test : string -> option bool)
  (rest : option bool) : option bool :=
  match v with
  | Some s =>
      if truthy s
      then match test s with
           | Some true => rest
           | Some false => Some false
           | None => None
           end
      else rest
  | None => rest
  end.

(** The scan of one row: its tests in the order the filters were added.
    [None] when a [LIKE] pattern beyond the limit is reached. *)
Definition scan_row (args : gmap string string) (c : Crate) : option bool :=
  and_then (args !! "run") (fun v => Some (eq_nullable (run_number c) v))
    (and_then (args !! "puc")
       (fun v => ilike_checked (puc c) ("%" +:+ v +:+ "%"))
       (and_then (args !! "commodity")
          (fun v => ilike_checked (commodity c) ("%" +:+ v +:+ "%"))
          (and_then (args !! "farm")
             (fun v => ilike_checked (farm_name c) ("%" +:+ v +:+ "%"))
             (Some true)))).

Definition refused (args : gmap string string) (c : Crate) : bool :=
  match scan_row args c with
  | None => true
  | Some _ => false
  end.

(** [dashboard] as the client meets it: [q.all()] raises when the scan of
    some row reaches a pattern that SQLite refuses, and else the page is
    rendered. *)
Definition dashboard_view (args : gmap string string) (w : World)
  : exn + Dashboard :=
  if existsb (refused args) (table w)
  then inl OperationalError
  else inr (dashboard args w).

(** *** [/crate/<int:crate_id>] *)

(** The integers SQLite can hold, and so the ids a row can carry. *)
Definition fits_int64 (z : Z) : bool := (- 2 ^ 63 <=? z) && (z <? 2 ^ 63).

(** [Crate.query.get_or_404(crate_id)]: the row with that primary key.
    Without such a row the answer is the not-found condition when the id
    is one SQLite can hold; an id beyond that range cannot be bound to the
    query, which raises [OverflowError]. *)
Definition get_or_404 (crate_id : Z) : M Crate :=
  fun w =>
    match List.find (fun c => id c =? crate_id) (table w) with
    | Some c => (inr c, w)
    | None =>
        if fits_int64 crate_id then (inl NotFound, w) else (inl OverflowError, w)
    end.

Definition crate_detail (crate_id : Z) : M Crate := get_or_404 crate_id.

(** *** [/export/csv] *)

Definition csv_header : list string :=
  ["id"; "run_number"; "puc"; "farm_name"; "commodity"; "variety";
   "grade_class"; "size"; "weight"; "date_received"; "inspector_notes"].

Definition newline : string := String (ascii_of_nat 10) EmptyString.

Definition backslash_n : string :=
  String (ascii_of_nat 92) (String (ascii_of_nat 110) EmptyString).

(** [(c.inspector_notes or "").replace("\n", "\\n")] *)
Definition notes_cell (c : Crate) : string :=
  replace newline backslash_n
    (match or_none (inspector_notes c) with Some s => s | None => EmptyString end).

(** The list [export_csv] passes to [writerow] for one crate. *)
Definition csv_values (c : Crate) : list pyval :=
  [ PInt (id c); opt_str (run_number c); PStr (puc c); PStr (farm_name c);
    PStr (commodity c); opt_str (variety c); opt_str (grade_class c);
    opt_str (size c); opt_float (weight c);
    PStr (date_isoformat (date_received c)); PStr (notes_cell c) ].

(** [str(n)] for an [int] *)
Definition int_str (z : Z) : string := NilZero.string_of_int (Z.to_int z).

(** What [send_file] is handed as its first argument: a file object open
    for reading in binary mode, or, as here, a [bytes] value.  (A path is
    the third possibility; the handler has none.) *)
Inductive file_arg (A : Type) :=
  | FileObject (content : A)
  | BytesValue (content : A).

Arguments FileObject {A} content.
Arguments BytesValue {A} content.

(** The body of the response [send_file] builds, as the client reads it.
    A value that is not a path is taken for a file object and read when
    the body is sent; a [bytes] value has no [read]: [AttributeError]. *)
Definition send_file {A : Type} (a : file_arg A) : exn + A :=
  match a with
  | FileObject content => inr content
  | BytesValue _ => inl AttributeError
  end.

Section CsvWriter.
(** [repr] of a float, the shortest decimal that reads back to the same
    float; the export does not depend on how it is computed. *)
Variable float_repr : PyFloat.float -> string.

(** The text [csv.writer] puts in a cell, before quoting: [None] gives
    the empty string, a string itself, a number its [str]. *)
Definition csv_field (v : pyval) : string :=
  match v with
  | PNone => EmptyString
  | PInt z => int_str z
  | PFloat x => float_repr x
  | PStr s => s
  end.

Definition writerow (values : list pyval) : list string := map csv_field values.

(** The rows [export_csv] writes, the header first. *)
Definition export_csv (w : World) : list (list string) :=
  let crates := all (order_by [desc date_received date_compare]) (table w) in
  writerow (map PStr csv_header) :: map (fun c => writerow (csv_values c)) crates.

(** [export_csv] as the client meets it: the rows are written to the
    buffer, and [send_file] is handed [bytes(si.getvalue(), "utf-8")]. *)
Definition export_csv_view (w : World) : exn + list (list string) :=
  send_file (BytesValue (export_csv w)).

End CsvWriter.

End App.


(* ===================================================================== *)
(** ** The routes as the methods reach them *)
(* ===================================================================== *)

Module Routes.
Import PyStr PyDate Sql App.

Inductive method := GET | POST.

(** [index]: [redirect(url_for("dashboard"))] *)
Definition index : endpoint := ep_dashboard.

(** The GET branch of [add_crate]: the value of [today] it hands to the
    template, [datetime.utcnow().date().isoformat()]. *)
Definition add_crate_today : M string :=
  let* d := utc_today in ret (date_isoformat d).

(** What [add_crate] answers: the form with [today] filled in, or the
    notice and redirect of the POST branch. *)
Inductive AddResponse :=
  | RenderAdd (today : string)
  | AfterPost (r : FormResponse).

(** [add_crate], both methods. *)
Definition add_crate_view (m : method) (data : gmap string string)
  : M AddResponse :=
  match m with
  | POST => fun w => let '(r, w') := add_crate data w in (inr (AfterPost r), w')
  | GET => let* today := add_crate_today in ret (RenderAdd today)
  end.

(** [api_crates], both methods. *)
Definition api_crates (m : method) (payload : Payload) : M ApiResponse :=
  match m with
  | GET => api_crates_get
  | POST => api_crates_post payload
  end.

End Routes.
(* ===================================================================== *)
(** ** The vocabulary of the specification *)
(* ===================================================================== *)

(** The definitions below say, in the words of the specification, what the
    handlers are expected to compute; the properties compare them with the
    handlers. *)

Module Spec.
Import PyStr PyDate Sql App.

(** *** Orderings *)

(** What a three-way comparison must satisfy for the sorter to order by it. *)
Record ordering_ok {R : Type} (cmp : R -> R -> comparison) : Prop := {
  ok_flip : forall a b, cmp b a = CompOpp (cmp a b);
  ok_lt : forall a b c, cmp a b = Lt -> cmp b c = Lt -> cmp a c = Lt;
  ok_eq : forall a b c, cmp a b = Eq -> cmp a c = cmp b c
}.

(** [a] is an earlier day than [b]. *)
Definition date_lt (a b : date) : Prop :=
  year a < year b
  \/ (year a = year b
      /\ (month a < month b \/ (month a = month b /\ day a < day b))).

(** [a] may stand before [b] in the dashboard: it was received later, or
    on the same day and its id is not smaller. *)
Definition newest_first (a b : Crate) : Prop :=
  date_lt (date_received b) (date_received a)
  \/ (date_received a = date_received b /\ id b <= id a).

(** [a] may stand before [b] in the export: it was not received earlier. *)
Definition not_received_earlier (a b : Crate) : Prop :=
  date_lt (date_received b) (date_received a)
  \/ date_received a = date_received b.


(** *** Filters *)

(** The text has neither of the two [LIKE] wildcards. *)
Fixpoint wildcard_free (s : string) : bool :=
  match s with
  | EmptyString => true
  | String c s' => negb (is_percent c) && negb (Sql.is_underscore c) && wildcard_free s'
  end.

(** The text has no NUL character. *)
Fixpoint nul_free (s : string) : bool :=
  match s with
  | EmptyString => true
  | String c s' => negb (code c =? 0) && nul_free s'
  end.

(** The number of bytes of a text in UTF-8. *)
Fixpoint utf8_bytes (s : string) : Z :=
  match s with
  | EmptyString => 0
  | String c s' => (if code c <=? 127 then 1 else 2) + utf8_bytes s'
  end.

Section Substring.
(** When two characters count as the same letter. *)
Variable same : ascii -> ascii -> bool.

(** [s] starts with [v], letter by letter. *)
Fixpoint starts_with (v s : string) : bool :=
  match v with
  | EmptyString => true
  | String a v' =>
      match s with
      | EmptyString => false
      | String b s' => same a b && starts_with v' s'
      end
  end.

(** [v] occurs somewhere in [s]. *)
Fixpoint occurs_in (v s : string) : bool :=
  starts_with v s
  || match s with
     | EmptyString => false
     | String _ s' => occurs_in v s'
     end.

End Substring.

(** One character, or the capital and the small form of one of the 26
    letters A to Z. *)
Definition same_ascii_letter (a b : ascii) : bool :=
  (code a =? code b)
  || ((65 <=? code a) && (code a <=? 90) && (code b =? code a + 32))
  || ((65 <=? code b) && (code b <=? 90) && (code a =? code b + 32)).

(** The small form of a letter, among the characters below 256: the
    letters A to Z and the accented capitals from 192 to 222, the
    multiplication sign at 215 aside, have theirs 32 places on. *)
Definition small_letter (c : ascii) : ascii :=
  if ((65 <=? code c) && (code c <=? 90))
     || ((192 <=? code c) && (code c <=? 222) && negb (code c =? 215))
  then ascii_of_nat (nat_of_ascii c + 32)
  else c.

(** One letter, whatever its case. *)
Definition same_letter (a b : ascii) : bool :=
  Ascii.eqb (small_letter a) (small_letter b).

(** [v] occurs in [s], the case of the letters A to Z aside. *)
Definition ci_substring (v s : string) : bool := occurs_in same_ascii_letter v s.

(** [v] occurs in [s], the case of every letter aside. *)
Definition ci_substring_any (v s : string) : bool := occurs_in same_letter v s.

(** The value of a filter that was supplied; an empty parameter counts as
    not supplied. *)
Definition supplied (args : gmap string string) (key : string) : option string :=
  or_none (args !! key).

Definition holds (v : option string) (test : string -> bool) : bool :=
  match v with
  | Some s => test s
  | None => true
  end.

(** The record satisfies every supplied filter: [run] by equality, the
    other three by the substring test [sub]. *)
Definition matches_by (sub : string -> string -> bool)
  (args : gmap string string) (c : Crate) : bool :=
  holds (supplied args "run") (fun v => bool_decide (run_number c = Some v))
  && holds (supplied args "puc") (fun v => sub v (puc c))
  && holds (supplied args "commodity") (fun v => sub v (commodity c))
  && holds (supplied args "farm") (fun v => sub v (farm_name c)).

(** The filters as the specification words them: substring, whatever the
    case of the letters. *)
Definition matches_any_case : gmap string string -> Crate -> bool :=
  matches_by ci_substring_any.

(** The filters as the query applies them to plain text: substring, the
    case of the letters A to Z aside. *)
Definition matches : gmap string string -> Crate -> bool :=
  matches_by ci_substring.

(** The operation as the specification words it: the request is answered
    with a page that lists exactly the records that satisfy the filters. *)
Definition lists_exactly (test : gmap string string -> Crate -> bool)
  (args : gmap string string) (w : World) : Prop :=
  exists page, dashboard_view args w = inr page
               /\ Permutation (crates page) (List.filter (test args) (table w)).

(** A text without wildcard and without NUL. *)
Definition plain_text (s : string) : bool := wildcard_free s && nul_free s.

(** None of the three text filters carries a wildcard or a NUL. *)
Definition plain_filters (args : gmap string string) : bool :=
  holds (args !! "puc") plain_text
  && holds (args !! "commodity") plain_text
  && holds (args !! "farm") plain_text.

(** Each of the three text filters is at most 49,998 bytes long. *)
Definition short_filters (args : gmap string string) : bool :=
  holds (args !! "puc") (fun v => utf8_bytes v <=? 49998)
  && holds (args !! "commodity") (fun v => utf8_bytes v <=? 49998)
  && holds (args !! "farm") (fun v => utf8_bytes v <=? 49998).

(** No record of the table has a NUL in its puc, commodity or farm name. *)
Definition nul_free_rows (rows : list Crate) : Prop :=
  Forall (fun c => nul_free (puc c) = true /\ nul_free (commodity c) = true
                   /\ nul_free (farm_name c) = true) rows.

(** *** Totals *)

(** The weight of a record, an absent one counted as zero. *)
Definition weight_or_zero (c : Crate) : pynum :=
  match weight c with
  | Some x => PyFloat x
  | None => PyInt 0
  end.

Definition is_zero (a : pynum) : bool :=
  match a with
  | PyInt z => z =? 0
  | PyFloat x => negb (PyFloat.truthy x)
  end.

(** Two results are the same number: they are identical, or both are a
    zero ([0], [0.0] and [-0.0] are one number). *)
Inductive same_number : pynum -> pynum -> Prop :=
  | same_refl (a : pynum) : same_number a a
  | same_zero (a b : pynum) :
      is_zero a = true -> is_zero b = true -> same_number a b.

(** Two running sums agree: both are a zero, or they are one float. *)
Definition agree (a b : pynum) : Prop :=
  (is_zero a = true /\ is_zero b = true) \/ (exists x, a = PyFloat x /\ b = PyFloat x).

(** The weight of a record as a float, an absent one counted as zero. *)
Definition weight_float (c : Crate) : PyFloat.float :=
  match weight c with
  | Some x => x
  | None => S754_zero false
  end.

(** The sum of a list of floats: binary64 additions, rounded to nearest,
    from zero and in the order of the list. *)
Definition float_sum (xs : list PyFloat.float) : PyFloat.float :=
  fold_left (SFadd 53 1024) xs (S754_zero false).

(** *** The CSV export *)

Definition cell_of (o : option string) : string :=
  match o with
  | Some s => s
  | None => EmptyString
  end.

(** Every line feed becomes a backslash followed by the letter n. *)
Fixpoint escape_newlines (s : string) : string :=
  match s with
  | EmptyString => EmptyString
  | String c s' =>
      if Ascii.eqb c (ascii_of_nat 10)
      then String (ascii_of_nat 92) (String (ascii_of_nat 110) (escape_newlines s'))
      else String c (escape_newlines s')
  end.

(** The cells of one record, in the column order of the specification. *)
Definition expected_row (float_repr : PyFloat.float -> string) (c : Crate)
  : list string :=
  [ int_str (id c);
    cell_of (run_number c);
    puc c;
    farm_name c;
    commodity c;
    cell_of (variety c);
    cell_of (grade_class c);
    cell_of (size c);
    cell_of (option_map float_repr (weight c));
    date_isoformat (date_received c);
    escape_newlines (cell_of (inspector_notes c)) ].

Definition expected_header : list string :=
  ["id"; "run_number"; "puc"; "farm_name"; "commodity"; "variety";
   "grade_class"; "size"; "weight"; "date_received"; "inspector_notes"].

(** The text is of the form DDDD-DD-DD. *)
Definition iso_date_shape (s : string) : bool :=
  match s with
  | String y1 (String y2 (String y3 (String y4 (String d1
      (String m1 (String m2 (String d2 (String a1 (String a2 EmptyString))))))))) =>
      is_digit y1 && is_digit y2 && is_digit y3 && is_digit y4
      && (code d1 =? 45) && is_digit m1 && is_digit m2
      && (code d2 =? 45) && is_digit a1 && is_digit a2
  | _ => false
  end.

(** *** ISO 8601 *)








(** *** The JSON serialization *)

(** The fields of the data model, in the order of its table. *)
Definition model_fields : list string :=
  ["id"; "run_number"; "puc"; "farm_name"; "commodity"; "variety";
   "grade_class"; "size"; "weight"; "date_received"; "inspector_notes";
   "created_at"].

(** The value serialized for a field of a record whose creation time is [t]. *)
Definition field_value (c : Crate) (t : datetime) (field : string) : pyval :=
  if String.eqb field "id" then PInt (id c)
  else if String.eqb field "run_number" then opt_str (run_number c)
  else if String.eqb field "puc" then PStr (puc c)
  else if String.eqb field "farm_name" then PStr (farm_name c)
  else if String.eqb field "commodity" then PStr (commodity c)
  else if String.eqb field "variety" then opt_str (variety c)
  else if String.eqb field "grade_class" then opt_str (grade_class c)
  else if String.eqb field "size" then opt_str (size c)
  else if String.eqb field "weight" then opt_float (weight c)
  else if String.eqb field "date_received" then PStr (date_isoformat (date_received c))
  else if String.eqb field "inspector_notes" then opt_str (inspector_notes c)
  else PStr (datetime_isoformat t).



(** Every row of the table carries its creation time, as every row the
    application inserts does. *)
Definition stamped (rows : list Crate) : Prop :=
  Forall (fun c => is_Some (created_at c)) rows.

(** *** Inserts *)

(** The row a new crate becomes once the table holds it, with its id and
    creation time. *)
Definition stored (n : NewCrate) (i : Z) (t : datetime) : Crate :=
  mkCrate i (n_run_number n) (n_puc n) (n_farm_name n) (n_commodity n)
    (n_variety n) (n_grade_class n) (n_size n) (stored_weight (n_weight n))
    (n_date_received n) (n_inspector_notes n) (Some t).

(** The record has, field by field, what the new crate was given. *)
Definition same_fields (n : NewCrate) (c : Crate) : Prop :=
  run_number c = n_run_number n /\ puc c = n_puc n
  /\ farm_name c = n_farm_name n /\ commodity c = n_commodity n
  /\ variety c = n_variety n /\ grade_class c = n_grade_class n
  /\ size c = n_size n /\ weight c = n_weight n
  /\ date_received c = n_date_received n
  /\ inspector_notes c = n_inspector_notes n.

(** The weight is one the table hands back as it was given: none, or a
    float that is neither a NaN nor the negative zero. *)
Definition keeps_weight (o : option PyFloat.float) : bool :=
  match o with
  | Some S754_nan => false
  | Some (S754_zero s) => negb s
  | _ => true
  end.

(** What is read back for the weight that was given: a NaN comes back as
    no weight, a zero as the positive zero, every other weight as it was. *)
Inductive weight_read_back : option PyFloat.float -> option PyFloat.float -> Prop :=
  | read_back_none : weight_read_back None None
  | read_back_nan : weight_read_back (Some S754_nan) None
  | read_back_zero (s : bool) :
      weight_read_back (Some (S754_zero s)) (Some (S754_zero false))
  | read_back_infinity (s : bool) :
      weight_read_back (Some (S754_infinity s)) (Some (S754_infinity s))
  | read_back_finite (s : bool) (m : positive) (e : Z) :
      weight_read_back (Some (S754_finite s m e)) (Some (S754_finite s m e)).

(** The record has, field by field, what the new crate was given, the
    weight as it is read back. *)
Definition fields_read_back (n : NewCrate) (c : Crate) : Prop :=
  run_number c = n_run_number n /\ puc c = n_puc n
  /\ farm_name c = n_farm_name n /\ commodity c = n_commodity n
  /\ variety c = n_variety n /\ grade_class c = n_grade_class n
  /\ size c = n_size n /\ weight_read_back (n_weight n) (weight c)
  /\ date_received c = n_date_received n
  /\ inspector_notes c = n_inspector_notes n.

(** A form the insert operation accepts: the three required fields are
    present, a non-empty weight reads as a number and a non-empty date as
    a date. *)
Definition valid_form (data : gmap string string) : bool :=
  bool_decide (is_Some (data !! "puc"))
  && bool_decide (is_Some (data !! "farm_name"))
  && bool_decide (is_Some (data !! "commodity"))
  && holds (or_none (data !! "weight"))
       (fun s => bool_decide (is_Some (PyFloat.float_of_string s)))
  && holds (or_none (data !! "date_received"))
       (fun s => match strptime_date s with inr _ => true | inl _ => false end).

(** The number a JSON weight stands for, if it is one. *)
Definition weight_number (v : jweight) : option PyFloat.float :=
  match v with
  | JStr s => PyFloat.float_of_string s
  | JInt z => PyFloat.float_of_int z
  | JFloat x => Some x
  end.

(** The weight a JSON object supplies: a falsy one ([""], [0], [0.0])
    counts as absent. *)
Definition supplied_weight (p : Payload) : option jweight :=
  match j_weight p with
  | Some v => if jweight_truthy (Some v) then Some v else None
  | None => None
  end.

(** A JSON object the insert operation accepts. *)
Definition valid_payload (p : Payload) : bool :=
  opt_truthy (j_puc p) && opt_truthy (j_farm_name p) && opt_truthy (j_commodity p)
  && match supplied_weight p with
     | Some v => bool_decide (is_Some (weight_number v))
     | None => true
     end
  && holds (or_none (j_date_received p))
       (fun s => match strptime_date s with inr _ => true | inl _ => false end).

(** The ways an insert can fail validation. *)
Inductive invalid_form (data : gmap string string) : Prop :=
  | form_missing (key : string) :
      In key ["puc"; "farm_name"; "commodity"] -> data !! key = None ->
      invalid_form data
  | form_bad_weight (s : string) :
      data !! "weight" = Some s -> truthy s = true ->
      PyFloat.float_of_string s = None -> invalid_form data
  | form_bad_date (s : string) (why : strptime_error) :
      data !! "date_received" = Some s -> truthy s = true ->
      strptime_date s = inl why -> invalid_form data.

(** The response reports a failure to the client: the form answers with a
    notice that carries the error, the API with an error object and a
    client-error status. *)
Definition form_reports (r : FormResponse) : Prop :=
  exists e, flashed r = (FailedToAdd e, danger).

Definition api_reports (r : exn + ApiResponse) : Prop :=
  exists msg, r = inr (mkApiResponse (ErrorBody msg) 400).

(** The message of the API when a required field is missing. *)
Definition required_message : string := "puc, farm_name and commodity are required".

(** *** Worlds used in the examples *)

Definition noon : datetime := mkdatetime (mkdate 2024 5 17) 12 0 0 0.

Definition empty_world : World := mkWorld [] (fun _ => noon) 0.

Definition crate_on (i : Z) (d : date) : Crate :=
  mkCrate i None "P1" "Farm" "Apple" None None None None d None (Some noon).

(** Dates 2024-01-01, 2024-01-02, 2024-01-02 with ids 1, 2, 3. *)
Definition three_crates : World :=
  mkWorld [ crate_on 1 (mkdate 2024 1 1);
            crate_on 2 (mkdate 2024 1 2);
            crate_on 3 (mkdate 2024 1 2) ] (fun _ => noon) 0.

(** A record whose note has two lines. *)
Definition noted_world : World :=
  mkWorld [ mkCrate 1 None "P1" "Farm" "Apple" None None None None
              (mkdate 2024 1 2)
              (Some ("line1" +:+ String (ascii_of_nat 10) "line2")) (Some noon) ]
          (fun _ => noon) 0.

(** Commodities Apple, APPLES and pear. *)
Definition fruit_world : World :=
  mkWorld [ mkCrate 1 None "P1" "Farm" "Apple" None None None None
              (mkdate 2024 1 1) None (Some noon);
            mkCrate 2 None "P2" "Farm" "APPLES" None None None None
              (mkdate 2024 1 2) None (Some noon);
            mkCrate 3 None "P3" "Farm" "pear" None None None None
              (mkdate 2024 1 3) None (Some noon) ]
          (fun _ => noon) 0.

(** The letter E with an acute accent, capital and small. *)
Definition capital_e_acute : ascii := ascii_of_nat 201.

Definition small_e_acute : ascii := ascii_of_nat 233.

(** One record, of a commodity whose name starts with the accented
    capital. *)
Definition accent_world : World :=
  mkWorld [ mkCrate 1 None "P1" "Farm" (String capital_e_acute "clair")
              None None None None (mkdate 2024 1 1) None (Some noon) ]
          (fun _ => noon) 0.

Definition nul : ascii := ascii_of_nat 0.

(** One record whose puc is ab, a NUL, cd. *)
Definition nul_world : World :=
  mkWorld [ mkCrate 1 None ("ab" +:+ String nul "cd") "Farm" "Apple"
              None None None None (mkdate 2024 1 1) None (Some noon) ]
          (fun _ => noon) 0.

(** The text of [n] letters a, and one of 49,999 letters. *)
Fixpoint letters_a (n : nat) : string :=
  match n with
  | O => EmptyString
  | S n' => String "a" (letters_a n')
  end.

Definition long_text : string := letters_a (Z.to_nat 49999).

(** The floats 12.5, 3.25 and 15.75. *)
Definition f12_5 : PyFloat.float := S754_finite false 7036874417766400 (-49).

Definition f3_25 : PyFloat.float := S754_finite false 7318349394477056 (-51).

Definition f15_75 : PyFloat.float := S754_finite false 8866461766385664 (-49).

(** Records 1 to 4 with the weights 12.5, none, 3.25 and 0.0. *)
Definition weighed (i : Z) (x : option PyFloat.float) : Crate :=
  mkCrate i None "P1" "Farm" "Apple" None None None x (mkdate 2024 1 1) None
    (Some noon).

Definition weighed_world : World :=
  mkWorld [ weighed 1 (Some f12_5); weighed 2 None; weighed 3 (Some f3_25);
            weighed 4 (Some (S754_zero false)) ]
          (fun _ => noon) 0.

Definition required_only : gmap string string :=
  <["puc" := "A"]> (<["farm_name" := "B"]> (<["commodity" := "C"]> ∅)).

(** The required fields and a weight that reads as not-a-number. *)
Definition nan_weight_form : gmap string string :=
  <["weight" := "nan"]> required_only.

Definition required_payload : Payload :=
  mkPayload None (Some "A") (Some "B") (Some "C") None None None None None None.

(** The required fields with an empty [puc], as a form and as JSON. *)
Definition empty_puc_form : gmap string string :=
  <["puc" := EmptyString]> required_only.

Definition empty_puc_payload : Payload :=
  mkPayload None (Some EmptyString) (Some "B") (Some "C") None None None None None None.

(** The required fields and a weight that is not a number. *)
Definition bad_weight_form : gmap string string :=
  <["weight" := "abc"]> required_only.

Definition bad_weight_payload : Payload :=
  mkPayload None (Some "A") (Some "B") (Some "C") None None None
    (Some (JStr "abc")) None None.

(** The required fields and a date in another format. *)
Definition bad_date_payload : Payload :=
  mkPayload None (Some "A") (Some "B") (Some "C") None None None None
    (Some "17/05/2024") None.

(** The required fields and every optional text field empty. *)
Definition empty_optionals_form : gmap string string :=
  <["run_number" := EmptyString]> (<["variety" := EmptyString]>
    (<["grade_class" := EmptyString]> (<["size" := EmptyString]>
      (<["inspector_notes" := EmptyString]> required_only)))).

Definition empty_optionals_payload : Payload :=
  mkPayload (Some EmptyString) (Some "A") (Some "B") (Some "C")
    (Some EmptyString) (Some EmptyString) (Some EmptyString) None None
    (Some EmptyString).

End Spec.

(* ===================================================================== *)
(** ** Invariants of the table and further vocabulary *)
(* ===================================================================== *)

Module Invariants.
Import PyStr PyDate Sql App Spec.

(** No two rows share an id, and every id is a positive integer. *)
Definition ids_ok (rows : list Crate) : Prop :=
  List.NoDup (map id rows) /\ Forall (fun c => 1 <= id c) rows.

(** The three required fields of every row are non-empty. *)
Definition required_ok (rows : list Crate) : Prop :=
  Forall (fun c => truthy (puc c) = true /\ truthy (farm_name c) = true
                   /\ truthy (commodity c) = true) rows.

(** Every row is dated with a day of the calendar. *)
Definition dates_ok (rows : list Crate) : Prop :=
  Forall (fun c => valid_date (date_received c) = true) rows.

(** The clock only shows days of the calendar. *)
Definition clock_ok (w : World) : Prop :=
  forall n, valid_date (dt_date (clock w n)) = true.

(** The record satisfies every supplied filter as the query tests it:
    [run] by equality, the other three by [LIKE] between two [%]. *)
Definition like_matches (args : gmap string string) (c : Crate) : bool :=
  holds (supplied args "run") (fun v => eq_nullable (run_number c) v)
  && holds (supplied args "puc") (fun v => ilike (puc c) ("%" +:+ v +:+ "%"))
  && holds (supplied args "commodity")
       (fun v => ilike (commodity c) ("%" +:+ v +:+ "%"))
  && holds (supplied args "farm")
       (fun v => ilike (farm_name c) ("%" +:+ v +:+ "%")).

(** Two texts are the same, the case of the letters A to Z aside. *)
Fixpoint same_ascii_text (s t : string) : bool :=
  match s, t with
  | EmptyString, EmptyString => true
  | String a s', String b t' => same_ascii_letter a b && same_ascii_text s' t'
  | _, _ => false
  end.


(** The text holds a line feed. *)
Fixpoint has_line_feed (s : string) : bool :=
  match s with
  | EmptyString => false
  | String c s' => Ascii.eqb c (ascii_of_nat 10) || has_line_feed s'
  end.


(** A table whose second row lacks its creation time. *)
Definition one_unstamped : World :=
  mkWorld [ crate_on 1 (mkdate 2024 1 1);
            mkCrate 2 None "P1" "Farm" "Apple" None None None None
              (mkdate 2024 1 2) None None ]
          (fun _ => noon) 0.

(** The required fields and a weight of zero, as JSON and as a form. *)
Definition zero_weight_payload : Payload :=
  mkPayload None (Some "A") (Some "B") (Some "C") None None None
    (Some (JInt 0)) None None.

Definition zero_weight_form : gmap string string :=
  <["weight" := "0"]> required_only.

(** Forms that lack one required field, or carry a bad weight or date. *)
Definition no_puc_form : gmap string string :=
  <["farm_name" := "B"]> (<["commodity" := "C"]> ∅).

Definition no_farm_form : gmap string string :=
  <["puc" := "A"]> (<["commodity" := "C"]> ∅).

Definition no_commodity_form : gmap string string :=
  <["puc" := "A"]> (<["farm_name" := "B"]> ∅).

Definition bad_date_form : gmap string string :=
  <["date_received" := "17/05/2024"]> required_only.

(** Two records that differ in their notes only: a line feed in the one,
    a backslash and the letter n in the other. *)
Definition note_with (i : Z) (notes : string) : Crate :=
  mkCrate i None "P1" "Farm" "Apple" None None None None (mkdate 2024 1 2)
    (Some notes) (Some noon).

(** The required fields and an integer weight beyond the range of floats. *)
Definition huge_weight_payload : Payload :=
  mkPayload None (Some "A") (Some "B") (Some "C") None None None
    (Some (JInt (10 ^ 400))) None None.

End Invariants.

(* ===================================================================== *)
(** * Properties *)
(* ===================================================================== *)

(** ** Strings *)

Module StrFacts.
Import PyStr Sql Spec.

(** Unfolds [+:+] on an empty or non-empty left operand, everywhere. *)
Ltac app_step :=
  repeat match goal with
    | |- context [String.append EmptyString ?t] =>
        change (String.append EmptyString t) with t
    | |- context [String.append (String ?c ?s) ?t] =>
        change (String.append (String c s) t) with (String c (String.append s t))
    | H : context [String.append EmptyString ?t] |- _ =>
        change (String.append EmptyString t) with t in H
    | H : context [String.append (String ?c ?s) ?t] |- _ =>
        change (String.append (String c s) t)
          with (String c (String.append s t)) in H
    end.

Lemma lower_char_idem (c : ascii) : lower_char (lower_char c) = lower_char c.
Proof. destruct c as [[] [] [] [] [] [] [] []]; reflexivity. Qed.

Lemma lower_char_percent (c : ascii) : is_percent (lower_char c) = is_percent c.
Proof. destruct c as [[] [] [] [] [] [] [] []]; reflexivity. Qed.

Lemma lower_char_underscore (c : ascii) :
  Sql.is_underscore (lower_char c) = Sql.is_underscore c.
Proof. destruct c as [[] [] [] [] [] [] [] []]; reflexivity. Qed.

Lemma lower_app (s t : string) : lower (s +:+ t) = lower s +:+ lower t.
Proof. induction s as [|c s IH]; app_step; simpl; [reflexivity | now rewrite IH]. Qed.

Lemma lower_idem (s : string) : lower (lower s) = lower s.
Proof.
  induction s as [|c s IH]; simpl; [reflexivity|].
  now rewrite lower_char_idem, IH.
Qed.

(** [prefix_rest] decides whether a string starts with another. *)
Lemma prefix_rest_Some (p s r : string) :
  prefix_rest p s = Some r <-> s = p +:+ r.
Proof.
  revert s; induction p as [|a p IH]; intros s; app_step; simpl.
  - split; intros H; [now inversion H | now subst].
  - destruct s as [|b s]; [split; discriminate|].
    destruct (Ascii.eqb_spec a b) as [->|Hne].
    + rewrite IH. split; intros H; [now subst | now inversion H].
    + split; [discriminate | intros H; injection H; congruence].
Qed.

(** [contains] is the substring relation. *)
Lemma contains_spec (sub s : string) :
  contains sub s = true <-> exists pre post, s = pre +:+ sub +:+ post.
Proof.
  induction s as [|c s IH].
  - simpl. destruct (prefix_rest sub EmptyString) as [r|] eqn:E.
    + apply prefix_rest_Some in E. split; [|reflexivity].
      intros _. exists EmptyString, r. exact E.
    + split; [discriminate|]. intros (pre & post & H).
      destruct pre; app_step; [|discriminate].
      apply prefix_rest_Some in H. congruence.
  - simpl. destruct (prefix_rest sub (String c s)) as [r|] eqn:E.
    + apply prefix_rest_Some in E. split; [|reflexivity].
      intros _. exists EmptyString, r. exact E.
    + rewrite IH. split.
      * intros (pre & post & ->). now exists (String c pre), post.
      * intros (pre & post & H). destruct pre as [|a pre]; app_step.
        -- apply prefix_rest_Some in H. congruence.
        -- inversion H; subst. now exists pre, post.
Qed.

(** *** [LIKE] *)

Lemma wildcard_free_lower (s : string) : wildcard_free (lower s) = wildcard_free s.
Proof.
  induction s as [|c s IH]; simpl; [reflexivity|].
  now rewrite lower_char_percent, lower_char_underscore, IH.
Qed.

Lemma like_percent (p : ascii) (pat s : string) :
  is_percent p = true ->
  like_chars (String p pat) s
  = like_chars pat s || match s with
                         | EmptyString => false
                         | String _ s' => like_chars (String p pat) s'
                         end.
Proof. intros H. simpl. rewrite H. destruct s; reflexivity. Qed.

Lemma like_literal (p : ascii) (pat s : string) :
  is_percent p = false -> Sql.is_underscore p = false ->
  like_chars (String p pat) s
  = match s with
    | EmptyString => false
    | String c s' => Ascii.eqb (lower_char p) (lower_char c) && like_chars pat s'
    end.
Proof. intros H1 H2. simpl. rewrite H1, H2. reflexivity. Qed.

(** A lone [%] matches everything. *)
Lemma like_any (p : ascii) (s : string) :
  is_percent p = true -> like_chars (String p EmptyString) s = true.
Proof.
  intros H. induction s as [|c s IH]; rewrite like_percent by exact H.
  - reflexivity.
  - rewrite IH. apply orb_true_r.
Qed.

(** A pattern that starts with literal text, on folded strings, matches
    when the subject starts with that text and the rest matches. *)
Lemma like_literal_prefix (v pat s : string) :
  wildcard_free v = true ->
  like_chars (lower v +:+ pat) (lower s)
  = match prefix_rest (lower v) (lower s) with
    | Some r => like_chars pat r
    | None => false
    end.
Proof.
  revert s; induction v as [|a v IH]; intros s Hv; [reflexivity|].
  simpl in Hv. apply andb_prop in Hv as [Hv Hv3].
  apply andb_prop in Hv as [Hv1 Hv2].
  apply negb_true_iff in Hv1, Hv2.
  app_step. cbn [lower]. app_step.
  rewrite like_literal
    by (now rewrite ?lower_char_percent, ?lower_char_underscore).
  destruct s as [|b s]; [reflexivity|].
  cbn [lower prefix_rest]. rewrite !lower_char_idem.
  destruct (Ascii.eqb (lower_char a) (lower_char b)); [|reflexivity].
  simpl. now apply IH.
Qed.

(** Between two [%], literal text is found the way [contains] finds it. *)
Lemma like_contains (p : ascii) (v s : string) :
  is_percent p = true -> wildcard_free v = true ->
  like_chars (String p (lower v +:+ String p EmptyString)) (lower s)
  = contains (lower v) (lower s).
Proof.
  intros Hp Hv. induction s as [|c s IH].
  - rewrite like_percent by exact Hp.
    change (lower EmptyString) with EmptyString.
    pose proof (like_literal_prefix v (String p EmptyString) EmptyString Hv) as H.
    change (lower EmptyString) with EmptyString in H. rewrite H.
    cbn [contains].
    destruct (prefix_rest (lower v) EmptyString);
      [rewrite like_any by exact Hp|]; reflexivity.
  - rewrite like_percent by exact Hp.
    cbn [lower] in *. rewrite IH.
    pose proof (like_literal_prefix v (String p EmptyString) (String c s) Hv) as H.
    cbn [lower] in H. rewrite H.
    cbn [contains].
    destruct (prefix_rest (lower v) (String (lower_char c) (lower s)));
      [rewrite like_any by exact Hp|]; reflexivity.
Qed.

(** *** Texts as C strings *)

Lemma lower_char_nul (c : ascii) : (code (lower_char c) =? 0) = (code c =? 0).
Proof. destruct c as [[] [] [] [] [] [] [] []]; reflexivity. Qed.

Lemma nul_free_lower (s : string) : nul_free (lower s) = nul_free s.
Proof.
  induction s as [|c s IH]; simpl; [reflexivity|].
  now rewrite lower_char_nul, IH.
Qed.

Lemma nul_free_app (s t : string) :
  nul_free (s +:+ t) = nul_free s && nul_free t.
Proof.
  induction s as [|c s IH]; app_step; simpl; [reflexivity|].
  now rewrite IH, andb_assoc.
Qed.

(** A text without NUL is read whole. *)
Lemma c_string_nul_free (s : string) : nul_free s = true -> c_string s = s.
Proof.
  induction s as [|c s IH]; simpl; [reflexivity|].
  intros H. apply andb_prop in H as [H1 H2]. apply negb_true_iff in H1.
  rewrite H1. now rewrite IH.
Qed.

Lemma like_nul_free (pat s : string) :
  nul_free pat = true -> nul_free s = true -> like pat s = like_chars pat s.
Proof. intros Hp Hs. unfold like. now rewrite !c_string_nul_free. Qed.

(** *** The substring tests of the specification *)

(** A test that holds of the 256 times 256 pairs of characters holds of
    every pair. *)
Lemma all_ascii_pairs (f : ascii -> ascii -> bool) :
  forallb (fun n => forallb (fun m => f (ascii_of_nat n) (ascii_of_nat m))
                      (seq 0 256)) (seq 0 256) = true ->
  forall a b, f a b = true.
Proof.
  intros H a b. rewrite forallb_forall in H.
  specialize (H (nat_of_ascii a)). rewrite forallb_forall in H.
  specialize (H ltac:(apply in_seq; pose proof (nat_ascii_bounded a); lia)
                (nat_of_ascii b)
                ltac:(apply in_seq; pose proof (nat_ascii_bounded b); lia)).
  now rewrite !ascii_nat_embedding in H.
Qed.

Lemma same_ascii_letter_lower (a b : ascii) :
  same_ascii_letter a b = Ascii.eqb (lower_char a) (lower_char b).
Proof.
  apply eqb_prop.
  apply (all_ascii_pairs
           (fun a b => Bool.eqb (same_ascii_letter a b)
                         (Ascii.eqb (lower_char a) (lower_char b)))).
  vm_compute. reflexivity.
Qed.

(** On folded texts [prefix_rest] is the prefix test of the
    specification. *)
Lemma prefix_rest_starts_with (v s : string) :
  starts_with same_ascii_letter v s
  = match prefix_rest (lower v) (lower s) with
    | Some _ => true
    | None => false
    end.
Proof.
  revert s; induction v as [|a v IH]; intros s; [reflexivity|].
  destruct s as [|b s]; [reflexivity|].
  cbn [starts_with lower prefix_rest].
  rewrite same_ascii_letter_lower.
  destruct (Ascii.eqb (lower_char a) (lower_char b)); [|reflexivity].
  apply IH.
Qed.

Lemma contains_ci_substring (v s : string) :
  contains (lower v) (lower s) = ci_substring v s.
Proof.
  unfold ci_substring. induction s as [|c s IH].
  - cbn [occurs_in contains lower]. rewrite prefix_rest_starts_with.
    cbn [lower]. destruct (prefix_rest (lower v) EmptyString); reflexivity.
  - cbn [occurs_in contains lower]. rewrite prefix_rest_starts_with.
    cbn [lower].
    destruct (prefix_rest (lower v) (String (lower_char c) (lower s)));
      [reflexivity | exact IH].
Qed.

(** [column.ilike("%v%")] is the substring test up to the case of the
    letters A to Z when [v] has no wildcard and neither text has a NUL. *)
Lemma ilike_contains (value v : string) :
  plain_text v = true -> nul_free value = true ->
  ilike value ("%" +:+ v +:+ "%") = ci_substring v value.
Proof.
  intros Hv Hn. unfold plain_text in Hv. apply andb_prop in Hv as [Hw Hv].
  unfold ilike. rewrite like_nul_free.
  - rewrite !lower_app. change (lower "%") with "%"%string.
    rewrite <- contains_ci_substring. now apply like_contains.
  - rewrite nul_free_lower, !nul_free_app, Hv. reflexivity.
  - now rewrite nul_free_lower.
Qed.

(** The length in bytes, on both sides. *)
Lemma utf8_length_bytes (s : string) : utf8_length s = utf8_bytes s.
Proof.
  induction s as [|c s IH]; simpl; [reflexivity|]. rewrite IH.
  destruct (Z.ltb_spec (code c) 128), (Z.leb_spec (code c) 127); lia.
Qed.

Lemma utf8_length_app (s t : string) :
  utf8_length (s +:+ t) = utf8_length s + utf8_length t.
Proof.
  induction s as [|c s IH]; app_step; simpl; [reflexivity|]. rewrite IH. lia.
Qed.

Lemma lower_char_wide (c : ascii) :
  (code (lower_char c) <? 128) = (code c <? 128).
Proof. destruct c as [[] [] [] [] [] [] [] []]; reflexivity. Qed.

Lemma utf8_length_lower (s : string) : utf8_length (lower s) = utf8_length s.
Proof.
  induction s as [|c s IH]; simpl; [reflexivity|].
  now rewrite lower_char_wide, IH.
Qed.

(** A filter of at most 49,998 bytes makes a pattern within the limit. *)
Lemma short_pattern (v : string) :
  (utf8_bytes v <=? 49998) = true ->
  pattern_too_complex (lower ("%" +:+ v +:+ "%")) = false.
Proof.
  intros H. apply Z.leb_le in H. unfold pattern_too_complex, like_pattern_limit.
  rewrite utf8_length_lower, !utf8_length_app.
  change (utf8_length "%") with 1. rewrite (utf8_length_bytes v).
  apply Z.ltb_ge. lia.
Qed.

End StrFacts.

(** ** Sorting *)

Module SortFacts.
Import Sql Spec.

Section Sorting.
Context {R : Type} (cmp : R -> R -> comparison).

Let le (a b : R) : Prop := leb_of cmp a b = true.

Lemma insert_sorted_perm (x : R) (l : list R) :
  Permutation (insert_sorted cmp x l) (x :: l).
Proof.
  induction l as [|y l IH]; simpl; [reflexivity|].
  destruct (leb_of cmp x y); [reflexivity|].
  rewrite IH. apply perm_swap.
Qed.

Lemma sort_by_perm (l : list R) : Permutation (sort_by cmp l) l.
Proof.
  induction l as [|x l IH]; simpl; [reflexivity|].
  rewrite insert_sorted_perm. now constructor.
Qed.

Hypothesis le_total : forall a b, leb_of cmp a b = false -> leb_of cmp b a = true.
Hypothesis le_trans : forall a b c, le a b -> le b c -> le a c.

Lemma insert_sorted_sorted (x : R) (l : list R) :
  StronglySorted le l -> StronglySorted le (insert_sorted cmp x l).
Proof.
  induction 1 as [|y l Hs IH Hy]; simpl.
  - repeat constructor.
  - destruct (leb_of cmp x y) eqn:E.
    + constructor; [now constructor|].
      constructor; [exact E|].
      eapply List.Forall_impl; [|exact Hy].
      intros z Hz. now apply le_trans with y.
    + constructor; [exact IH|].
      eapply Permutation_Forall.
      * symmetry. apply insert_sorted_perm.
      * constructor; [now apply le_total | exact Hy].
Qed.

Lemma sort_by_sorted (l : list R) : StronglySorted le (sort_by cmp l).
Proof.
  induction l as [|x l IH]; simpl; [constructor|].
  now apply insert_sorted_sorted.
Qed.

End Sorting.

Lemma StronglySorted_weaken {R : Type} (P Q : R -> R -> Prop) (l : list R) :
  (forall a b, P a b -> Q a b) -> StronglySorted P l -> StronglySorted Q l.
Proof.
  intros HPQ. induction 1 as [|x l Hs IH Hx]; constructor; [exact IH|].
  eapply List.Forall_impl; [|exact Hx]. auto.
Qed.

(** *** Comparisons that order *)

Section OrderingOk.
Context {R : Type}.

Lemma ok_eq_r (cmp : R -> R -> comparison) (a b c : R) :
  ordering_ok cmp -> cmp b c = Eq -> cmp a b = cmp a c.
Proof.
  intros Hok H.
  rewrite (ok_flip cmp Hok b a), (ok_flip cmp Hok c a). f_equal.
  now apply (ok_eq cmp Hok).
Qed.

Lemma leb_of_total (cmp : R -> R -> comparison) (a b : R) :
  ordering_ok cmp -> leb_of cmp a b = false -> leb_of cmp b a = true.
Proof.
  intros Hok. unfold leb_of. rewrite (ok_flip cmp Hok a b).
  destruct (cmp a b); simpl; congruence.
Qed.

Lemma leb_of_trans (cmp : R -> R -> comparison) (a b c : R) :
  ordering_ok cmp ->
  leb_of cmp a b = true -> leb_of cmp b c = true -> leb_of cmp a c = true.
Proof.
  intros Hok. unfold leb_of.
  destruct (cmp a b) eqn:Eab; try discriminate; intros _;
    destruct (cmp b c) eqn:Ebc; try discriminate; intros _.
  - now rewrite (ok_eq cmp Hok a b c Eab), Ebc.
  - now rewrite (ok_eq cmp Hok a b c Eab), Ebc.
  - now rewrite <- (ok_eq_r cmp a b c Hok Ebc), Eab.
  - now rewrite (ok_lt cmp Hok a b c Eab Ebc).
Qed.

(** Ordering by several terms orders, when each term does. *)
Lemma lex_ok (os : list (R -> R -> comparison)) :
  Forall ordering_ok os -> ordering_ok (lex os).
Proof.
  induction 1 as [|o os Ho Hos IH]; simpl.
  - split; intros; reflexivity || congruence.
  - split.
    + intros a b. rewrite (ok_flip o Ho a b).
      destruct (o a b); simpl; try reflexivity. apply (ok_flip _ IH).
    + intros a b c.
      destruct (o a b) eqn:Eab; try discriminate;
        destruct (o b c) eqn:Ebc; try discriminate; intros H1 H2.
      * rewrite (ok_eq o Ho a b c Eab), Ebc. now apply (ok_lt _ IH a b c).
      * now rewrite (ok_eq o Ho a b c Eab), Ebc.
      * now rewrite <- (ok_eq_r o a b c Ho Ebc), Eab.
      * now rewrite (ok_lt o Ho a b c Eab Ebc).
    + intros a b c. destruct (o a b) eqn:Eab; try discriminate. intros H1.
      rewrite (ok_eq o Ho a b c Eab).
      destruct (o b c); try reflexivity. now apply (ok_eq _ IH).
Qed.

End OrderingOk.

(** Ordering by a key, in either direction, orders when the key's
    comparison does. *)
Lemma on_key_flip_ok {R K : Type} (key : R -> K) (cmp : K -> K -> comparison) :
  ordering_ok cmp -> ordering_ok (fun a b => cmp (key b) (key a)).
Proof.
  intros Hok. split.
  - intros a b. apply (ok_flip cmp Hok).
  - intros a b c Hab Hbc. now apply (ok_lt cmp Hok (key c) (key b) (key a)).
  - intros a b c Hab.
    apply (ok_eq_r cmp (key c) (key a) (key b) Hok).
    rewrite (ok_flip cmp Hok), Hab. reflexivity.
Qed.

Lemma on_key_ok {R K : Type} (key : R -> K) (cmp : K -> K -> comparison) :
  ordering_ok cmp -> ordering_ok (fun a b => cmp (key a) (key b)).
Proof.
  intros Hok. split.
  - intros a b. apply (ok_flip cmp Hok).
  - intros a b c. apply (ok_lt cmp Hok).
  - intros a b c. apply (ok_eq cmp Hok).
Qed.

Lemma Zcompare_ok : ordering_ok Z.compare.
Proof.
  split.
  - intros a b. apply Z.compare_antisym.
  - intros a b c. rewrite !Z.compare_lt_iff. lia.
  - intros a b c H. apply Z.compare_eq in H. now subst.
Qed.

(** What [query.all()] returns is ordered by the query's terms and holds
    the rows that satisfy its criteria, each as often as the table does. *)
Lemma all_sorted {R : Type} (q : Query R) (rows : list R) :
  Forall ordering_ok (ordering q) ->
  StronglySorted (fun a b => leb_of (lex (ordering q)) a b = true) (all q rows).
Proof.
  intros Hok. unfold all. apply sort_by_sorted.
  - intros a b. apply leb_of_total. now apply lex_ok.
  - intros a b c. apply leb_of_trans. now apply lex_ok.
Qed.

Lemma all_perm {R : Type} (q : Query R) (rows : list R) :
  Permutation (all q rows) (List.filter (satisfies (criteria q)) rows).
Proof. unfold all. apply sort_by_perm. Qed.

End SortFacts.

(** ** Dates *)

Module DateFacts.
Import PyDate Sql Spec StrFacts SortFacts.

Lemma date_compare_lex (a b : date) :
  date_compare a b
  = lex [ (fun a b => year a ?= year b);
          (fun a b => month a ?= month b);
          (fun a b => day a ?= day b) ] a b.
Proof.
  unfold date_compare. simpl.
  destruct (year a ?= year b), (month a ?= month b), (day a ?= day b);
    reflexivity.
Qed.

Lemma date_compare_ok : ordering_ok date_compare.
Proof.
  assert (H : ordering_ok
                (lex [ (fun a b : date => year a ?= year b);
                       (fun a b : date => month a ?= month b);
                       (fun a b : date => day a ?= day b) ])).
  { apply lex_ok. repeat constructor; apply (on_key_ok _ Z.compare Zcompare_ok). }
  destruct H as [Hflip Hlt Heq].
  split; intros; rewrite ?date_compare_lex in *; eauto.
Qed.

Lemma date_compare_Lt (a b : date) : date_compare a b = Lt -> date_lt a b.
Proof.
  unfold date_compare, date_lt.
  destruct (Z.compare_spec (year a) (year b));
    destruct (Z.compare_spec (month a) (month b));
    destruct (Z.compare_spec (day a) (day b));
    intros; try discriminate; lia.
Qed.

Lemma date_compare_Eq (a b : date) : date_compare a b = Eq -> a = b.
Proof.
  unfold date_compare. destruct a as [y m d], b as [y' m' d']; simpl.
  destruct (Z.compare_spec y y'); destruct (Z.compare_spec m m');
    destruct (Z.compare_spec d d'); intros; try discriminate.
  now subst.
Qed.

(** Every text [isoformat] produces has the shape DDDD-DD-DD. *)
Lemma digit_char_is_digit (z : Z) : PyStr.is_digit (digit_char z) = true.
Proof.
  unfold digit_char, PyStr.is_digit, PyStr.code.
  assert (H : 0 <= z mod 10 < 10) by (apply Z.mod_pos_bound; lia).
  rewrite nat_ascii_embedding by lia.
  apply andb_true_intro; split; apply Z.leb_le; lia.
Qed.

Lemma date_isoformat_shape (d : date) : iso_date_shape (date_isoformat d) = true.
Proof.
  unfold date_isoformat, zfill4, zfill2.
  repeat (change (String.append (String ?c ?s) ?t)
            with (String c (String.append s t))
          || change (String.append EmptyString ?t) with t).
  cbv [iso_date_shape].
  rewrite !digit_char_is_digit. reflexivity.
Qed.

Lemma digit_val_digit_char (z : Z) : PyStr.digit_val (digit_char z) = z mod 10.
Proof.
  unfold digit_char, PyStr.digit_val, PyStr.code.
  assert (H : 0 <= z mod 10 < 10) by (apply Z.mod_pos_bound; lia).
  rewrite nat_ascii_embedding by lia. lia.
Qed.

Lemma re_Y_zfill4 (y : Z) (rest : string) :
  0 <= y <= 9999 -> re_Y (zfill4 y +:+ rest) = Some (y, rest).
Proof.
  intros Hy. unfold zfill4, zfill2. app_step. unfold re_Y.
  rewrite !digit_char_is_digit. cbn [andb]. rewrite !digit_val_digit_char.
  do 2 f_equal. Z.div_mod_to_equations. lia.
Qed.

Lemma month_day_parse (m d : Z) :
  1 <= m <= 12 -> 1 <= d <= 31 ->
  first_some after_month (re_m (zfill2 m +:+ String "-"%char (zfill2 d)))
  = Some (m, d, EmptyString).
Proof.
  intros Hm Hd.
  assert (Em : m = 1 \/ m = 2 \/ m = 3 \/ m = 4 \/ m = 5 \/ m = 6 \/ m = 7
               \/ m = 8 \/ m = 9 \/ m = 10 \/ m = 11 \/ m = 12) by lia.
  assert (Ed : d = 1 \/ d = 2 \/ d = 3 \/ d = 4 \/ d = 5 \/ d = 6 \/ d = 7
               \/ d = 8 \/ d = 9 \/ d = 10 \/ d = 11 \/ d = 12 \/ d = 13
               \/ d = 14 \/ d = 15 \/ d = 16 \/ d = 17 \/ d = 18 \/ d = 19
               \/ d = 20 \/ d = 21 \/ d = 22 \/ d = 23 \/ d = 24 \/ d = 25
               \/ d = 26 \/ d = 27 \/ d = 28 \/ d = 29 \/ d = 30 \/ d = 31) by lia.
  clear Hm Hd.
  repeat (destruct Em as [->|Em]); try subst m;
    repeat (destruct Ed as [->|Ed]); try subst d; reflexivity.
Qed.

(** Reading back what [isoformat] wrote gives the date. *)
Lemma strptime_isoformat (d : date) :
  valid_date d = true -> strptime_date (date_isoformat d) = inr d.
Proof.
  destruct d as [y m dd]. unfold valid_date, date_isoformat. cbn [year month day].
  intros Hv. pose proof Hv as Hv'. unfold valid_ymd in Hv'.
  repeat (apply andb_prop in Hv' as [Hv' ?]).
  repeat match goal with H : (_ <=? _) = true |- _ => apply Z.leb_le in H end.
  assert (Hdd : dd <= 31).
  { unfold days_in_month in *.
    destruct (m =? 2); [destruct (is_leap y); lia|].
    destruct ((m =? 4) || (m =? 6) || (m =? 9) || (m =? 11)); lia. }
  unfold strptime_date, re_match.
  rewrite re_Y_zfill4 by lia.
  app_step. cbn [lit_dash].
  change (PyStr.code "-" =? 45) with true. cbv iota.
  rewrite month_day_parse by lia.
  cbn [PyStr.truthy]. now rewrite Hv.
Qed.

(** *** ISO 8601 texts *)










End DateFacts.

(** ** The dashboard *)

Module DashboardFacts.
Import PyStr PyDate Sql App Spec StrFacts SortFacts DateFacts.

Lemma filter_if_ordering (v : option string) (f : string -> Crate -> bool)
  (q : Query Crate) : ordering (filter_if v f q) = ordering q.
Proof. destruct v as [s|]; simpl; [destruct (truthy s)|]; reflexivity. Qed.

Lemma satisfies_app {R : Type} (cs ds : list (R -> bool)) (r : R) :
  satisfies (cs ++ ds) r = satisfies cs r && satisfies ds r.
Proof. unfold satisfies. apply forallb_app. Qed.

Lemma filter_if_criteria (v : option string) (f : string -> Crate -> bool)
  (q : Query Crate) (c : Crate) :
  satisfies (criteria (filter_if v f q)) c
  = satisfies (criteria q) c && holds (or_none v) (fun s => f s c).
Proof.
  destruct v as [s|]; simpl; [destruct (truthy s); simpl|].
  - rewrite satisfies_app. simpl. now rewrite andb_true_r.
  - now rewrite andb_true_r.
  - now rewrite andb_true_r.
Qed.

(** The query [dashboard] runs. *)
Lemma dashboard_crates (args : gmap string string) (w : World) :
  crates (dashboard args w)
  = all
      (filter_if (args !! "farm")
         (fun v c => ilike (farm_name c) ("%" +:+ v +:+ "%"))
         (filter_if (args !! "commodity")
            (fun v c => ilike (commodity c) ("%" +:+ v +:+ "%"))
            (filter_if (args !! "puc")
               (fun v c => ilike (puc c) ("%" +:+ v +:+ "%"))
               (filter_if (args !! "run")
                  (fun v c => eq_nullable (run_number c) v)
                  (order_by [desc date_received date_compare; desc id Z.compare])))))
      (table w).
Proof. reflexivity. Qed.

Lemma dashboard_totals (args : gmap string string) (w : World) :
  totals (dashboard args w)
  = mkTotals (length (crates (dashboard args w)))
      (py_sum (map weight_or_0 (crates (dashboard args w)))).
Proof. reflexivity. Qed.

Lemma desc_ok {K : Type} (key : Crate -> K) (cmp : K -> K -> comparison) :
  ordering_ok cmp -> ordering_ok (desc key cmp).
Proof. apply on_key_flip_ok. Qed.

Lemma leb_newest_first (a b : Crate) :
  leb_of (lex [desc date_received date_compare; desc id Z.compare]) a b = true ->
  newest_first a b.
Proof.
  unfold leb_of, desc, newest_first. simpl.
  destruct (date_compare (date_received b) (date_received a)) eqn:E.
  - apply date_compare_Eq in E. right. split; [congruence|].
    destruct (Z.compare_spec (id b) (id a)); try discriminate; lia.
  - apply date_compare_Lt in E. now left.
  - discriminate.
Qed.

Lemma eq_nullable_decide (o : option string) (v : string) :
  eq_nullable o v = bool_decide (o = Some v).
Proof.
  destruct o as [s|]; simpl.
  - destruct (String.eqb_spec s v) as [->|Hne].
    + now rewrite bool_decide_eq_true_2.
    + rewrite bool_decide_eq_false_2; [reflexivity | congruence].
  - first [ reflexivity
          | symmetry; apply bool_decide_eq_false_2; discriminate ].
Qed.

Lemma holds_or_none_ext (v : option string) (f g : string -> bool) (p : string -> bool) :
  holds v p = true -> (forall s, p s = true -> f s = g s) ->
  holds (or_none v) f = holds (or_none v) g.
Proof.
  destruct v as [s|]; simpl; [|reflexivity].
  intros Hp H. destruct (truthy s); simpl; auto.
Qed.

(** On filters without wildcards and texts without NUL, the criteria of
    the query are the filter of the specification. *)
Lemma dashboard_criteria (args : gmap string string) (c : Crate) :
  plain_filters args = true ->
  nul_free (puc c) = true -> nul_free (commodity c) = true ->
  nul_free (farm_name c) = true ->
  satisfies
    (criteria
       (filter_if (args !! "farm")
          (fun v c => ilike (farm_name c) ("%" +:+ v +:+ "%"))
          (filter_if (args !! "commodity")
             (fun v c => ilike (commodity c) ("%" +:+ v +:+ "%"))
             (filter_if (args !! "puc")
                (fun v c => ilike (puc c) ("%" +:+ v +:+ "%"))
                (filter_if (args !! "run")
                   (fun v c => eq_nullable (run_number c) v)
                   (order_by [desc date_received date_compare; desc id Z.compare]))))))
    c
  = matches args c.
Proof.
  unfold plain_filters. intros H Np Nc Nf.
  apply andb_prop in H as [H Hfarm]. apply andb_prop in H as [Hpuc Hcom].
  rewrite !filter_if_criteria. unfold matches, matches_by, supplied. simpl.
  f_equal; [f_equal; [f_equal|]|].
  - destruct (or_none (args !! "run")); simpl; [|reflexivity].
    apply eq_nullable_decide.
  - apply (holds_or_none_ext _ _ _ plain_text Hpuc).
    intros s Hs. now apply ilike_contains.
  - apply (holds_or_none_ext _ _ _ plain_text Hcom).
    intros s Hs. now apply ilike_contains.
  - apply (holds_or_none_ext _ _ _ plain_text Hfarm).
    intros s Hs. now apply ilike_contains.
Qed.

(** With filters within the limit, no row of the scan is refused. *)
Lemma and_then_short (v : option string) (value : string) (rest : option bool) :
  holds v (fun s => utf8_bytes s <=? 49998) = true ->
  rest <> None ->
  and_then v (fun s => ilike_checked value ("%" +:+ s +:+ "%")) rest <> None.
Proof.
  intros Hv Hrest. destruct v as [s|]; simpl in *; [|exact Hrest].
  destruct (truthy s); [|exact Hrest].
  unfold ilike_checked. rewrite short_pattern by exact Hv.
  destruct (ilike value ("%" +:+ s +:+ "%")); [exact Hrest | discriminate].
Qed.

Lemma short_not_refused (args : gmap string string) (c : Crate) :
  short_filters args = true -> refused args c = false.
Proof.
  unfold short_filters. intros H.
  apply andb_prop in H as [H Hfarm]. apply andb_prop in H as [Hpuc Hcom].
  assert (Hs : scan_row args c <> None).
  { unfold scan_row.
    assert (Hrun : forall rest, rest <> None ->
              and_then (args !! "run")
                (fun v => Some (eq_nullable (run_number c) v)) rest <> None).
    { intros rest Hrest. destruct (args !! "run") as [s|]; simpl; [|exact Hrest].
      destruct (truthy s); [|exact Hrest].
      destruct (eq_nullable (run_number c) s); [exact Hrest | discriminate]. }
    apply Hrun. apply and_then_short; [exact Hpuc|].
    apply and_then_short; [exact Hcom|].
    apply and_then_short; [exact Hfarm|]. discriminate. }
  unfold refused. destruct (scan_row args c); [reflexivity | congruence].
Qed.

Lemma dashboard_view_short (args : gmap string string) (w : World) :
  short_filters args = true -> dashboard_view args w = inr (dashboard args w).
Proof.
  intros H. unfold dashboard_view.
  replace (existsb (refused args) (table w)) with false; [reflexivity|].
  symmetry. induction (table w) as [|c l IH]; simpl; [reflexivity|].
  now rewrite short_not_refused, IH.
Qed.

(** One test of the scan: it fails and ends the row, or it holds and the
    rest of the scan decides. *)
Lemma and_then_Some (v : option string) (test : string -> option bool)
  (f : string -> bool) (rest : option bool) (b : bool) :
  (forall s r, test s = Some r -> r = f s) ->
  and_then v test rest = Some b ->
  (holds (or_none v) f = false /\ b = false)
  \/ (holds (or_none v) f = true /\ rest = Some b).
Proof.
  intros Htest. destruct v as [s|]; simpl; [|now right].
  destruct (truthy s); simpl; [|now right].
  destruct (test s) as [[|]|] eqn:E; [| |discriminate].
  - apply Htest in E. rewrite <- E. now right.
  - apply Htest in E. rewrite <- E. intros H. inversion H. now left.
Qed.

Lemma ilike_checked_Some (value pat : string) (r : bool) :
  ilike_checked value pat = Some r -> r = ilike value pat.
Proof.
  unfold ilike_checked. destruct (pattern_too_complex (lower pat));
    [discriminate | congruence].
Qed.

(** A row that the scan does not refuse is kept exactly when it meets the
    criteria of the query. *)
Lemma scan_row_criteria (args : gmap string string) (c : Crate) (b : bool) :
  scan_row args c = Some b ->
  satisfies
    (criteria
       (filter_if (args !! "farm")
          (fun v c => ilike (farm_name c) ("%" +:+ v +:+ "%"))
          (filter_if (args !! "commodity")
             (fun v c => ilike (commodity c) ("%" +:+ v +:+ "%"))
             (filter_if (args !! "puc")
                (fun v c => ilike (puc c) ("%" +:+ v +:+ "%"))
                (filter_if (args !! "run")
                   (fun v c => eq_nullable (run_number c) v)
                   (order_by [desc date_received date_compare; desc id Z.compare]))))))
    c
  = b.
Proof.
  rewrite !filter_if_criteria. unfold scan_row. cbn [order_by criteria satisfies forallb andb].
  intros H.
  apply (and_then_Some _ _ (fun v => eq_nullable (run_number c) v)) in H;
    [|intros s r E; congruence].
  destruct H as [[-> ->]|[-> H]]; [reflexivity|].
  apply (and_then_Some _ _ (fun v => ilike (puc c) ("%" +:+ v +:+ "%"))) in H;
    [|intros s r E; now apply ilike_checked_Some].
  destruct H as [[-> ->]|[-> H]]; [reflexivity|].
  apply (and_then_Some _ _ (fun v => ilike (commodity c) ("%" +:+ v +:+ "%"))) in H;
    [|intros s r E; now apply ilike_checked_Some].
  destruct H as [[-> ->]|[-> H]]; [reflexivity|].
  apply (and_then_Some _ _ (fun v => ilike (farm_name c) ("%" +:+ v +:+ "%"))) in H;
    [|intros s r E; now apply ilike_checked_Some].
  destruct H as [[-> ->]|[-> H]]; [reflexivity|].
  now inversion H.
Qed.

(** An empty parameter and a missing one build the same query. *)
Lemma filter_if_empty (key k : string) (args : gmap string string)
  (f : string -> Crate -> bool) (q : Query Crate) :
  filter_if (<[key := EmptyString]> args !! k) f q
  = filter_if (delete key args !! k) f q.
Proof.
  destruct (decide (key = k)) as [->|Hne].
  - now rewrite lookup_insert_eq, lookup_delete_eq.
  - now rewrite lookup_insert_ne, lookup_delete_ne.
Qed.

(** *** Summation *)

Lemma is_zero_float (x : PyFloat.float) :
  is_zero (PyFloat x) = true -> exists s, x = S754_zero s.
Proof. destruct x as [s| | |]; try discriminate. intros _. now exists s. Qed.

Lemma is_zero_cases (a : pynum) :
  is_zero a = true -> a = PyInt 0 \/ exists s, a = PyFloat (S754_zero s).
Proof.
  destruct a as [z|x]; intros H.
  - left. simpl in H. apply Z.eqb_eq in H. now subst.
  - right. apply is_zero_float in H as [s ->]. now exists s.
Qed.

(** Zero plus zero is a zero. *)
Lemma add_zero_zero (a i : pynum) :
  is_zero a = true -> is_zero i = true -> is_zero (py_add a i) = true.
Proof.
  intros Ha Hi.
  apply is_zero_cases in Ha as [->|[s ->]];
    apply is_zero_cases in Hi as [->|[s' ->]];
    try reflexivity; try (destruct s; reflexivity);
    try (destruct s'; reflexivity).
  destruct s, s'; reflexivity.
Qed.

(** A zero plus a float that is not a zero is that float. *)
Lemma add_zero_l (a : pynum) (x : PyFloat.float) :
  is_zero a = true -> PyFloat.truthy x = true -> py_add a (PyFloat x) = PyFloat x.
Proof.
  intros Ha Hx.
  apply is_zero_cases in Ha as [->|[s ->]];
    destruct x as [s'| | |]; try discriminate; reflexivity.
Qed.

(** A float that is not a zero plus a zero is that float. *)
Lemma add_zero_r (y : PyFloat.float) (i : pynum) :
  PyFloat.truthy y = true -> is_zero i = true -> py_add (PyFloat y) i = PyFloat y.
Proof.
  intros Hy Hi.
  apply is_zero_cases in Hi as [->|[s ->]];
    destruct y as [s'| | |]; try discriminate; reflexivity.
Qed.

Lemma agree_add_zero (a b i j : pynum) :
  agree a b -> is_zero i = true -> is_zero j = true ->
  agree (py_add a i) (py_add b j).
Proof.
  intros [[Ha Hb] | (y & -> & ->)] Hi Hj.
  - left. split; now apply add_zero_zero.
  - destruct (PyFloat.truthy y) eqn:Hy.
    + right. exists y. split; now apply add_zero_r.
    + left. split; apply add_zero_zero; trivial; simpl; now rewrite Hy.
Qed.

Lemma agree_add_float (a b : pynum) (x : PyFloat.float) :
  agree a b -> PyFloat.truthy x = true ->
  agree (py_add a (PyFloat x)) (py_add b (PyFloat x)).
Proof.
  intros [[Ha Hb] | (y & -> & ->)] Hx; right.
  - exists x. split; now apply add_zero_l.
  - eexists. split; reflexivity.
Qed.

Lemma py_sum_same (cs : list Crate) (a b : pynum) :
  agree a b ->
  same_number (fold_left py_add (map weight_or_0 cs) a)
              (fold_left py_add (map weight_or_zero cs) b).
Proof.
  revert a b. induction cs as [|c cs IH]; intros a b Hab; simpl.
  - destruct Hab as [[Ha Hb] | (x & -> & ->)];
      [now apply same_zero | apply same_refl].
  - apply IH. unfold weight_or_0, weight_or_zero.
    destruct (weight c) as [x|].
    + destruct (PyFloat.truthy x) eqn:Hx.
      * now apply agree_add_float.
      * apply agree_add_zero; trivial. simpl. now rewrite Hx.
    + now apply agree_add_zero.
Qed.

(** Sums of floats: [py_add] on floats is the binary64 addition. *)
Lemma py_sum_floats (xs : list PyFloat.float) (x : PyFloat.float) :
  fold_left py_add (map PyFloat xs) (PyFloat x)
  = PyFloat (fold_left (SFadd 53 1024) xs x).
Proof.
  revert x. induction xs as [|y xs IH]; intros x; simpl; [reflexivity|].
  apply IH.
Qed.

(** The sum [dashboard] computes is the sum of the weights as floats. *)
Lemma py_sum_float_sum (cs : list Crate) :
  same_number (py_sum (map weight_or_0 cs))
              (PyFloat (float_sum (map weight_float cs))).
Proof.
  unfold py_sum, float_sum. rewrite <- py_sum_floats, map_map.
  assert (H : forall a b, agree a b ->
            same_number (fold_left py_add (map weight_or_0 cs) a)
              (fold_left py_add (map (fun c => PyFloat (weight_float c)) cs) b)).
  { induction cs as [|c cs IH]; intros a b Hab; simpl.
    - destruct Hab as [[Ha Hb] | (x & -> & ->)];
        [now apply same_zero | apply same_refl].
    - apply IH. unfold weight_or_0, weight_float.
      destruct (weight c) as [x|].
      + destruct (PyFloat.truthy x) eqn:Hx.
        * now apply agree_add_float.
        * apply agree_add_zero; trivial. simpl. now rewrite Hx.
      + now apply agree_add_zero. }
  apply H. left. split; reflexivity.
Qed.

End DashboardFacts.

(** ** The export and the API listing *)

Module ReadFacts.
Import PyStr PyDate Sql App Spec StrFacts SortFacts DateFacts DashboardFacts.

Lemma filter_no_criteria {R : Type} (rows : list R) :
  List.filter (satisfies []) rows = rows.
Proof.
  induction rows as [|r rows IH]; simpl; [reflexivity | now rewrite IH].
Qed.

Lemma replace_newlines_from (fuel : nat) (s : string) :
  (String.length s <= fuel)%nat ->
  replace_from fuel newline backslash_n s = escape_newlines s.
Proof.
  revert s; induction fuel as [|fuel IH]; intros s Hlen.
  - destruct s; [reflexivity | simpl in Hlen; lia].
  - destruct s as [|c s]; [reflexivity|].
    simpl in Hlen. cbn [replace_from newline prefix_rest escape_newlines].
    rewrite Ascii.eqb_sym.
    destruct (Ascii.eqb c (ascii_of_nat 10)).
    + unfold backslash_n at 1. app_step. rewrite IH by lia. reflexivity.
    + rewrite IH by lia. reflexivity.
Qed.

Lemma replace_newlines (s : string) :
  replace newline backslash_n s = escape_newlines s.
Proof. apply replace_newlines_from. lia. Qed.

Lemma notes_cell_escaped (c : Crate) :
  notes_cell c = escape_newlines (cell_of (inspector_notes c)).
Proof.
  unfold notes_cell. rewrite replace_newlines.
  destruct (inspector_notes c) as [[|a s]|]; reflexivity.
Qed.

Lemma writerow_expected (float_repr : PyFloat.float -> string) (c : Crate) :
  writerow float_repr (csv_values c) = expected_row float_repr c.
Proof.
  unfold writerow, csv_values, expected_row. cbn [map csv_field].
  rewrite notes_cell_escaped.
  destruct (run_number c), (variety c), (grade_class c), (size c), (weight c);
    reflexivity.
Qed.

Lemma leb_not_received_earlier (a b : Crate) :
  leb_of (lex [desc date_received date_compare]) a b = true ->
  not_received_earlier a b.
Proof.
  unfold leb_of, desc, not_received_earlier. simpl.
  destruct (date_compare (date_received b) (date_received a)) eqn:E.
  - apply date_compare_Eq in E. right. congruence.
  - apply date_compare_Lt in E. now left.
  - discriminate.
Qed.


(** Serializing stamped rows succeeds, key by key as the model has them. *)
Lemma to_dict_stamped (c : Crate) (t : datetime) :
  created_at c = Some t ->
  to_dict c = inr (map (fun f => (f, field_value c t f)) model_fields).
Proof. unfold to_dict. intros ->. reflexivity. Qed.

Lemma mapM_to_dict (l : list Crate) (w : World) :
  stamped l ->
  exists ds,
    mapM (fun c => lift (to_dict c)) l w = (inr ds, w)
    /\ Forall2
         (fun c d => exists t, created_at c = Some t
                               /\ d = map (fun f => (f, field_value c t f)) model_fields)
         l ds.
Proof.
  induction 1 as [|c l [t Ht] Hl (ds & Hds & Hall)].
  - exists []. split; [reflexivity | constructor].
  - eexists. split.
    + cbn [mapM]. unfold bind at 1. unfold lift at 1.
      rewrite (to_dict_stamped c t Ht). unfold bind at 1. rewrite Hds.
      reflexivity.
    + constructor; [|exact Hall]. now exists t.
Qed.

End ReadFacts.

(** ** Inserts *)

Module InsertFacts.
Import PyStr PyDate Sql App Spec.

(** The commit appends one row, with a fresh id and the next clock reading. *)
Lemma session_add_commit_eq (n : NewCrate) (w : World) :
  session_add_commit n w
  = (inr (stored n (next_id (table w)) (clock w (ticks w))),
     mkWorld (table w ++ [stored n (next_id (table w)) (clock w (ticks w))])
       (clock w) (S (ticks w))).
Proof. reflexivity. Qed.

Lemma next_id_above (rows : list Crate) (c : Crate) :
  In c rows -> id c < next_id rows.
Proof.
  unfold next_id. induction rows as [|r rows IH]; simpl; [contradiction|].
  intros [->|H]; [lia|]. specialize (IH H). lia.
Qed.

Lemma find_fresh (rows : list Crate) (c : Crate) :
  (forall r, In r rows -> id r <> id c) ->
  List.find (fun r => id r =? id c) (rows ++ [c]) = Some c.
Proof.
  induction rows as [|r rows IH]; intros H; simpl.
  - now rewrite Z.eqb_refl.
  - destruct (Z.eqb_spec (id r) (id c)) as [E|_].
    + exfalso. apply (H r); [now left | exact E].
    + apply IH. intros r' Hr'. apply H. now right.
Qed.

Lemma find_absent (rows : list Crate) (i : Z) :
  (forall r, In r rows -> id r <> i) ->
  List.find (fun r => id r =? i) rows = None.
Proof.
  induction rows as [|r rows IH]; intros H; simpl; [reflexivity|].
  destruct (Z.eqb_spec (id r) i) as [E|_].
  - exfalso. apply (H r); [now left | exact E].
  - apply IH. intros r' Hr'. apply H. now right.
Qed.

(** The row the table holds for a new crate. *)
Lemma stored_weight_read_back (o : option PyFloat.float) :
  weight_read_back o (stored_weight o).
Proof. destruct o as [[s| s| |s m e]|]; constructor. Qed.

Lemma stored_weight_keeps (o : option PyFloat.float) :
  keeps_weight o = true -> stored_weight o = o.
Proof. destruct o as [[[|]| s| |s m e]|]; simpl; congruence. Qed.

Lemma stored_fields_read_back (n : NewCrate) (i : Z) (t : datetime) :
  fields_read_back n (stored n i t).
Proof.
  unfold fields_read_back. simpl.
  repeat split. apply stored_weight_read_back.
Qed.

Lemma stored_same_fields (n : NewCrate) (i : Z) (t : datetime) :
  keeps_weight (n_weight n) = true -> same_fields n (stored n i t).
Proof.
  intros H. unfold same_fields. simpl. rewrite (stored_weight_keeps _ H).
  repeat split.
Qed.

(** Fetching the id the commit assigned gives the committed row. *)
Lemma fetch_committed (n : NewCrate) (w : World) :
  let c := stored n (next_id (table w)) (clock w (ticks w)) in
  forall w', table w' = table w ++ [c] ->
  crate_detail (id c) w' = (inr c, w').
Proof.
  intros c w' Hw'. unfold crate_detail, get_or_404. rewrite Hw'.
  rewrite find_fresh; [reflexivity|].
  intros r Hr. apply next_id_above in Hr. unfold c. simpl. lia.
Qed.

(** *** The form *)

Ltac unfold_form :=
  unfold crate_of_form, bind, getitem, float_str, strptime, utc_today,
    utcnow, ret, raise, opt_truthy.

Lemma or_none_keep (s : string) : truthy s = true -> or_none (Some s) = Some s.
Proof. intros H. simpl. now rewrite H. Qed.

Lemma or_none_drop (s : string) : truthy s = false -> or_none (Some s) = None.
Proof. intros H. simpl. now rewrite H. Qed.

(** What a form that builds a crate must have held, and which crate. *)
Lemma crate_of_form_inr (data : gmap string string) (w w' : World) (n : NewCrate) :
  crate_of_form data w = (inr n, w') ->
  data !! "puc" = Some (n_puc n)
  /\ data !! "farm_name" = Some (n_farm_name n)
  /\ data !! "commodity" = Some (n_commodity n)
  /\ n_run_number n = or_none (data !! "run_number")
  /\ n_variety n = or_none (data !! "variety")
  /\ n_grade_class n = or_none (data !! "grade_class")
  /\ n_size n = or_none (data !! "size")
  /\ n_inspector_notes n = or_none (data !! "inspector_notes")
  /\ n_weight n = or_none (data !! "weight") ≫= PyFloat.float_of_string
  /\ match or_none (data !! "date_received") with
     | Some s => strptime_date s = inr (n_date_received n) /\ w' = w
     | None => n_date_received n = dt_date (clock w (ticks w))
               /\ w' = mkWorld (table w) (clock w) (S (ticks w))
     end.
Proof.
  unfold_form.
  destruct (data !! "puc") as [p|]; [|discriminate].
  destruct (data !! "farm_name") as [f|]; [|discriminate].
  destruct (data !! "commodity") as [c|]; [|discriminate].
  destruct (data !! "weight") as [sw|];
    [destruct (truthy sw) eqn:Hsw; [destruct (PyFloat.float_of_string sw) eqn:Ew|]|];
    try discriminate;
    (destruct (data !! "date_received") as [sd|];
     [destruct (truthy sd) eqn:Hsd; [destruct (strptime_date sd) eqn:Ed|]|];
     try discriminate; intros H; inversion H; subst; clear H;
     cbn [n_puc n_farm_name n_commodity n_run_number n_variety n_grade_class
          n_size n_inspector_notes n_weight n_date_received];
     rewrite ?(or_none_keep _ Hsw), ?(or_none_drop _ Hsw),
       ?(or_none_keep _ Hsd), ?(or_none_drop _ Hsd);
     cbn [mbind option_bind or_none]; rewrite ?Ew;
     repeat split; first [reflexivity | assumption]).
Qed.

(** A form that fails to build a crate leaves the world as it was and is
    not a valid form. *)
Lemma crate_of_form_inl (data : gmap string string) (w w' : World) (e : exn) :
  crate_of_form data w = (inl e, w') -> w' = w /\ valid_form data = false.
Proof.
  unfold_form. unfold valid_form.
  destruct (data !! "puc") as [p|];
    [|intros H; inversion H; split; reflexivity].
  destruct (data !! "farm_name") as [f|];
    [|intros H; inversion H; split; reflexivity].
  destruct (data !! "commodity") as [c|];
    [|intros H; inversion H; split; reflexivity].
  destruct (data !! "weight") as [sw|];
    [destruct (truthy sw) eqn:Hsw; [destruct (PyFloat.float_of_string sw) eqn:Ew|]|].
  all: cbn [or_none holds]; rewrite ?Hsw; cbn [holds]; rewrite ?Ew.
  all: (destruct (data !! "date_received") as [sd|];
        [destruct (truthy sd) eqn:Hsd; [destruct (strptime_date sd) eqn:Ed|]|]).
  all: cbn [or_none holds]; rewrite ?Hsd; cbn [holds]; rewrite ?Ed.
  all: intros H; inversion H; subst; clear H.
  all: split; [reflexivity|].
  all: simpl; rewrite ?andb_false_r; try reflexivity.
Qed.

(** A form that builds a crate is a valid form. *)
Lemma crate_of_form_inr_valid (data : gmap string string) (w w' : World)
  (n : NewCrate) :
  crate_of_form data w = (inr n, w') -> valid_form data = true.
Proof.
  unfold_form. unfold valid_form.
  destruct (data !! "puc") as [p|]; [|discriminate].
  destruct (data !! "farm_name") as [f|]; [|discriminate].
  destruct (data !! "commodity") as [c|]; [|discriminate].
  destruct (data !! "weight") as [sw|];
    [destruct (truthy sw) eqn:Hsw; [destruct (PyFloat.float_of_string sw) eqn:Ew|]|].
  all: cbn [or_none holds]; rewrite ?Hsw; cbn [holds]; rewrite ?Ew.
  all: (destruct (data !! "date_received") as [sd|];
        [destruct (truthy sd) eqn:Hsd; [destruct (strptime_date sd) eqn:Ed|]|]).
  all: cbn [or_none holds]; rewrite ?Hsd; cbn [holds]; rewrite ?Ed.
  all: intros H; inversion H; subst; clear H.
  all: reflexivity.
Qed.

Lemma crate_of_form_valid (data : gmap string string) (w : World) :
  valid_form data = true -> exists n w', crate_of_form data w = (inr n, w').
Proof.
  intros Hv. destruct (crate_of_form data w) as [[e|n] w'] eqn:E.
  - apply crate_of_form_inl in E as [_ E]. congruence.
  - now exists n, w'.
Qed.

Lemma invalid_form_not_valid (data : gmap string string) :
  invalid_form data -> valid_form data = false.
Proof.
  unfold valid_form, or_none.
  intros [key Hkey Hnone | s Hs Ht Hf | s why Hs Ht Hd].
  - simpl in Hkey. destruct Hkey as [<-|[<-|[<-|[]]]]; rewrite Hnone; simpl;
      now rewrite ?andb_false_r.
  - rewrite Hs, Ht. simpl. rewrite Hf. simpl. now rewrite ?andb_false_r.
  - rewrite Hs, Ht. simpl. rewrite Hd. now rewrite ?andb_false_r.
Qed.

(** The form handler on a form that builds a crate. *)
Lemma add_crate_inr (data : gmap string string) (w w1 : World) (n : NewCrate) :
  crate_of_form data w = (inr n, w1) ->
  add_crate data w
  = (mkFormResponse (CrateAdded, success) ep_dashboard,
     mkWorld (table w1 ++ [stored n (next_id (table w1)) (clock w1 (ticks w1))])
       (clock w1) (S (ticks w1))).
Proof.
  intros H. unfold add_crate, bind. rewrite H. now rewrite session_add_commit_eq.
Qed.

(** The form handler on a form that does not. *)
Lemma add_crate_inl (data : gmap string string) (w w1 : World) (e : exn) :
  crate_of_form data w = (inl e, w1) ->
  add_crate data w = (mkFormResponse (FailedToAdd e, danger) ep_add_crate, w).
Proof.
  intros H. unfold add_crate, bind. rewrite H.
  apply crate_of_form_inl in H as [-> _]. reflexivity.
Qed.

(** Building a crate never touches the table. *)
Lemma crate_of_form_table (data : gmap string string) (w w' : World) (n : NewCrate) :
  crate_of_form data w = (inr n, w') ->
  table w' = table w /\ clock w' = clock w.
Proof.
  intros H. apply crate_of_form_inr in H.
  destruct H as (_ & _ & _ & _ & _ & _ & _ & _ & _ & H).
  destruct (or_none (data !! "date_received")); destruct H as [_ ->]; now split.
Qed.

End InsertFacts.

(** *** The JSON API *)

Module ApiFacts.
Import PyStr PyDate Sql App Spec InsertFacts.

Ltac unfold_payload :=
  unfold crate_of_payload, bind, float_json, float_str, strptime, utc_today,
    utcnow, ret, raise.

(** What a payload that builds a crate must have held, and which crate. *)
Lemma crate_of_payload_inr (p : Payload) (puc_ farm_ com_ : string)
  (w w' : World) (n : NewCrate) :
  crate_of_payload p puc_ farm_ com_ w = (inr n, w') ->
  n_puc n = puc_ /\ n_farm_name n = farm_ /\ n_commodity n = com_
  /\ n_run_number n = j_run_number p
  /\ n_variety n = j_variety p
  /\ n_grade_class n = j_grade_class p
  /\ n_size n = j_size p
  /\ n_inspector_notes n = j_inspector_notes p
  /\ n_weight n = supplied_weight p ≫= weight_number
  /\ match or_none (j_date_received p) with
     | Some s => strptime_date s = inr (n_date_received n) /\ w' = w
     | None => n_date_received n = dt_date (clock w (ticks w))
               /\ w' = mkWorld (table w) (clock w) (S (ticks w))
     end.
Proof.
  unfold_payload. unfold supplied_weight.
  destruct (j_weight p) as [[sw|z|x]|]; cbn [jweight_truthy weight_number];
    [ destruct (truthy sw) eqn:Hsw; [destruct (PyFloat.float_of_string sw) eqn:Ew|]
    | destruct (z =? 0) eqn:Hz; cbn [negb];
      [|destruct (PyFloat.float_of_int z) eqn:Ew]
    | destruct (PyFloat.truthy x) eqn:Hx
    | ].
  all: (destruct (j_date_received p) as [sd|];
        [destruct (truthy sd) eqn:Hsd; [destruct (strptime_date sd) eqn:Ed|]|]).
  all: cbn [or_none]; rewrite ?Hsd.
  all: intros H; inversion H; subst; clear H.
  all: cbn [n_puc n_farm_name n_commodity n_run_number n_variety n_grade_class
            n_size n_inspector_notes n_weight n_date_received
            mbind option_bind weight_number];
       rewrite ?Ew; repeat split; first [reflexivity | assumption].
Qed.

(** A payload that fails to build a crate leaves the world as it was; its
    weight or its date does not read. *)
Lemma crate_of_payload_inl (p : Payload) (puc_ farm_ com_ : string)
  (w w' : World) (e : exn) :
  crate_of_payload p puc_ farm_ com_ w = (inl e, w') ->
  w' = w
  /\ (match supplied_weight p with
      | Some v => bool_decide (is_Some (weight_number v))
      | None => true
      end
      && holds (or_none (j_date_received p))
           (fun s => match strptime_date s with inr _ => true | inl _ => false end)
      = false).
Proof.
  unfold_payload. unfold supplied_weight.
  destruct (j_weight p) as [[sw|z|x]|]; cbn [jweight_truthy weight_number];
    [ destruct (truthy sw) eqn:Hsw; [destruct (PyFloat.float_of_string sw) eqn:Ew|]
    | destruct (z =? 0) eqn:Hz; cbn [negb];
      [|destruct (PyFloat.float_of_int z) eqn:Ew]
    | destruct (PyFloat.truthy x) eqn:Hx
    | ].
  all: cbn [weight_number]; rewrite ?Ew.
  all: (destruct (j_date_received p) as [sd|];
        [destruct (truthy sd) eqn:Hsd; [destruct (strptime_date sd) eqn:Ed|]|]).
  all: cbn [or_none holds]; rewrite ?Hsd; cbn [holds]; rewrite ?Ed.
  all: intros H; inversion H; subst; clear H.
  all: split; [reflexivity|].
  all: simpl; rewrite ?andb_false_r; try reflexivity.
Qed.

Lemma or_none_truthy (o : option string) :
  opt_truthy o = match or_none o with Some _ => true | None => false end.
Proof. destruct o as [s|]; simpl; [destruct (truthy s)|]; reflexivity. Qed.

Lemma or_none_Some (o : option string) (s : string) :
  or_none o = Some s -> o = Some s /\ truthy s = true.
Proof.
  destruct o as [s'|]; simpl; [|discriminate].
  destruct (truthy s') eqn:E; [|discriminate]. intros H; inversion H; subst.
  now split.
Qed.

(** A required field that is missing, null or empty: the error answer,
    and nothing else happens. *)
Lemma api_post_required (p : Payload) (w : World) :
  opt_truthy (j_puc p) && opt_truthy (j_farm_name p) && opt_truthy (j_commodity p)
  = false ->
  api_crates_post p w = (inr (mkApiResponse (ErrorBody required_message) 400), w).
Proof.
  rewrite !or_none_truthy. unfold api_crates_post.
  destruct (or_none (j_puc p)), (or_none (j_farm_name p)),
    (or_none (j_commodity p)); simpl; intros H; try discriminate; reflexivity.
Qed.

(** The three answers of the POST branch. *)
Lemma api_post_cases (p : Payload) (w : World) :
  (api_crates_post p w = (inr (mkApiResponse (ErrorBody required_message) 400), w)
   /\ opt_truthy (j_puc p) && opt_truthy (j_farm_name p) && opt_truthy (j_commodity p)
      = false)
  \/ (exists e, api_crates_post p w = (inl e, w) /\ valid_payload p = false)
  \/ (exists n w1 c,
        j_puc p = Some (n_puc n) /\ j_farm_name p = Some (n_farm_name n)
        /\ j_commodity p = Some (n_commodity n)
        /\ truthy (n_puc n) = true /\ truthy (n_farm_name n) = true
        /\ truthy (n_commodity n) = true
        /\ crate_of_payload p (n_puc n) (n_farm_name n) (n_commodity n) w = (inr n, w1)
        /\ c = stored n (next_id (table w1)) (clock w1 (ticks w1))
        /\ api_crates_post p w
           = (inr (mkApiResponse
                     (CrateBody (map (fun f => (f, field_value c (clock w1 (ticks w1)) f))
                                   model_fields)) 201),
              mkWorld (table w1 ++ [c]) (clock w1) (S (ticks w1)))).
Proof.
  destruct (opt_truthy (j_puc p) && opt_truthy (j_farm_name p)
            && opt_truthy (j_commodity p)) eqn:Hreq.
  2:{ left. split; [now apply api_post_required | reflexivity]. }
  right. unfold valid_payload. rewrite Hreq.
  rewrite !or_none_truthy in Hreq. unfold api_crates_post.
  destruct (or_none (j_puc p)) as [a|] eqn:Ea; [|discriminate].
  destruct (or_none (j_farm_name p)) as [b|] eqn:Eb; [|discriminate].
  destruct (or_none (j_commodity p)) as [c|] eqn:Ec; [|discriminate].
  apply or_none_Some in Ea as [Ea Ha], Eb as [Eb Hb], Ec as [Ec Hc].
  unfold bind at 1.
  destruct (crate_of_payload p a b c w) as [[e|n] w1] eqn:E.
  - left. apply crate_of_payload_inl in E as [-> E]. exists e. split; [reflexivity|].
    simpl. exact E.
  - right. pose proof (crate_of_payload_inr _ _ _ _ _ _ _ E) as (<- & <- & <- & _).
    exists n, w1, (stored n (next_id (table w1)) (clock w1 (ticks w1))).
    repeat split; trivial.
    unfold bind at 1. rewrite E. unfold bind at 1.
    rewrite session_add_commit_eq. reflexivity.
Qed.

End ApiFacts.

(* ===================================================================== *)
(** * The claims of the specification *)
(* ===================================================================== *)

Import PyStr PyDate Sql App Spec.
Import StrFacts SortFacts DateFacts DashboardFacts ReadFacts InsertFacts ApiFacts.

(** ** List and filter *)

(** C3, as amended.  When no record has a NUL in its puc, commodity or
    farm name, and the puc, commodity and farm filters carry no [%], no
    [_] and no NUL and are at most 49,998 bytes long, the dashboard
    answers with a page that lists exactly the records that satisfy every
    supplied filter, [run] by equality and [puc], [commodity], [farm] by
    substring up to the case of the letters A to Z, each record as often
    as the table holds it; a filter that is absent imposes nothing, and
    when no record satisfies the filters the list is empty. *)
Theorem dashboard_filters_plain (args : gmap string string) (w : World) :
  plain_filters args = true ->
  short_filters args = true ->
  nul_free_rows (table w) ->
  lists_exactly matches args w
  /\ dashboard_view args w = inr (dashboard args w)
  /\ (forall c, In c (crates (dashboard args w))
                <-> In c (table w) /\ matches args c = true)
  /\ (List.filter (matches args) (table w) = [] -> crates (dashboard args w) = []).
Proof.
  intros Hplain Hshort Hnul.
  assert (HP : Permutation (crates (dashboard args w))
                 (List.filter (matches args) (table w))).
  { rewrite dashboard_crates. rewrite all_perm.
    unfold nul_free_rows in Hnul. rewrite List.Forall_forall in Hnul.
    induction (table w) as [|c l IH]; [reflexivity|].
    cbn [List.filter].
    rewrite dashboard_criteria; try exact Hplain;
      try (now apply (Hnul c); left).
    assert (IH' : Permutation
                    (List.filter
                       (satisfies
                          (criteria
                             (filter_if (args !! "farm")
                                (fun v c => ilike (farm_name c) ("%" +:+ v +:+ "%"))
                                (filter_if (args !! "commodity")
                                   (fun v c => ilike (commodity c) ("%" +:+ v +:+ "%"))
                                   (filter_if (args !! "puc")
                                      (fun v c => ilike (puc c) ("%" +:+ v +:+ "%"))
                                      (filter_if (args !! "run")
                                         (fun v c => eq_nullable (run_number c) v)
                                         (order_by [desc date_received date_compare;
                                                    desc id Z.compare]))))))) l)
                    (List.filter (matches args) l)).
    { apply IH. intros x Hx. apply Hnul. now right. }
    destruct (matches args c); [now constructor | exact IH']. }
  pose proof (dashboard_view_short args w Hshort) as Hview.
  split; [exists (dashboard args w); now split|].
  split; [exact Hview|]. split.
  - intros c. rewrite <- List.filter_In. split; apply Permutation_in;
      [exact HP | symmetry; exact HP].
  - intros Hnil. rewrite Hnil in HP. now apply Permutation_nil.
Qed.

(** The filter ["apple"] on commodities Apple, APPLES and pear. *)
Lemma dashboard_filters_plain_witness :
  plain_filters (<["commodity" := "apple"]> ∅) = true
  /\ short_filters (<["commodity" := "apple"]> ∅) = true
  /\ nul_free_rows (table fruit_world)
  /\ lists_exactly matches (<["commodity" := "apple"]> ∅) fruit_world
  /\ map commodity (crates (dashboard (<["commodity" := "apple"]> ∅) fruit_world))
     = ["APPLES"; "Apple"].
Proof.
  assert (Hn : nul_free_rows (table fruit_world)).
  { repeat constructor. }
  split; [reflexivity|]. split; [reflexivity|]. split; [exact Hn|].
  destruct (dashboard_filters_plain (<["commodity" := "apple"]> ∅) fruit_world)
    as [H _]; [reflexivity | reflexivity | exact Hn |].
  split; [exact H | reflexivity].
Defined.

(** C3, as stated, fails in five ways.  The filter [puc=P_] lists the
    three records whose puc is [P1], none of which contains the text [P_].
    The filter [commodity] of a small e with an acute accent does not list
    the commodity that starts with the capital of that letter.  The filter
    [puc] of a NUL and zzz lists all three records, none of which
    contains it.  The filter [puc=cd] does not list the puc ab, NUL, cd.
    And a puc filter of 49,999 letters is answered with an error where no
    record matches. *)
Lemma dashboard_filters_counterexample :
  (map puc (crates (dashboard (<["puc" := "P_"]> ∅) three_crates))
   = ["P1"; "P1"; "P1"]
   /\ ~ lists_exactly matches_any_case (<["puc" := "P_"]> ∅) three_crates)
  /\ (crates (dashboard (<["commodity" := String small_e_acute ""]> ∅) accent_world)
      = []
      /\ map id (List.filter
                   (matches_any_case (<["commodity" := String small_e_acute ""]> ∅))
                   (table accent_world)) = [1]
      /\ ~ lists_exactly matches_any_case
            (<["commodity" := String small_e_acute ""]> ∅) accent_world)
  /\ (map id (crates (dashboard (<["puc" := String nul "zzz"]> ∅) three_crates))
      = [3; 2; 1]
      /\ ~ lists_exactly matches_any_case (<["puc" := String nul "zzz"]> ∅)
            three_crates)
  /\ (crates (dashboard (<["puc" := "cd"]> ∅) nul_world) = []
      /\ map id (List.filter (matches_any_case (<["puc" := "cd"]> ∅))
                   (table nul_world)) = [1]
      /\ ~ lists_exactly matches_any_case (<["puc" := "cd"]> ∅) nul_world)
  /\ (dashboard_view (<["puc" := long_text]> ∅) three_crates = inl OperationalError
      /\ List.filter (matches_any_case (<["puc" := long_text]> ∅))
           (table three_crates) = []
      /\ ~ lists_exactly matches_any_case (<["puc" := long_text]> ∅) three_crates).
Proof.
  assert (Hlong : dashboard_view (<["puc" := long_text]> ∅) three_crates
                  = inl OperationalError) by (vm_compute; reflexivity).
  repeat split; try (vm_compute; reflexivity); try exact Hlong.
  - intros (page & Hv & HP). vm_compute in Hv. inversion Hv; subst; clear Hv.
    apply Permutation_length in HP. vm_compute in HP. discriminate.
  - intros (page & Hv & HP). vm_compute in Hv. inversion Hv; subst; clear Hv.
    apply Permutation_length in HP. vm_compute in HP. discriminate.
  - intros (page & Hv & HP). vm_compute in Hv. inversion Hv; subst; clear Hv.
    apply Permutation_length in HP. vm_compute in HP. discriminate.
  - intros (page & Hv & HP). vm_compute in Hv. inversion Hv; subst; clear Hv.
    apply Permutation_length in HP. vm_compute in HP. discriminate.
  - intros (page & Hv & HP). rewrite Hlong in Hv. discriminate.
Qed.

(** C4.  The list of the dashboard is ordered by [date_received]
    descending, ties by [id] descending; records dated 2024-01-01,
    2024-01-02, 2024-01-02 with ids 1, 2, 3 come out as 3, 2, 1. *)
Theorem dashboard_newest_first (args : gmap string string) (w : World) :
  StronglySorted newest_first (crates (dashboard args w))
  /\ map id (crates (dashboard ∅ three_crates)) = [3; 2; 1].
Proof.
  split; [|reflexivity].
  rewrite dashboard_crates.
  eapply StronglySorted_weaken; [exact leb_newest_first|].
  match goal with
  | |- StronglySorted _ (all ?q ?rows) => pose proof (all_sorted q rows) as H
  end.
  rewrite !filter_if_ordering in H. apply H. simpl.
  constructor; [apply desc_ok; exact date_compare_ok|].
  constructor; [apply desc_ok; exact Zcompare_ok|].
  constructor.
Qed.

(** C5.  The totals of the dashboard are those of the list it returns:
    [count] is its length, and [total_weight] is the sum of the weights
    of the listed records, added as floats from zero in the order of the
    list, an absent weight counted as zero; the two are the same number,
    the integer 0 and the float zeros being one number.  On the weights
    12.5, none, 3.25 and 0.0 the totals are 4 and 15.75. *)
Theorem dashboard_totals_of_list (args : gmap string string) (w : World) :
  count (totals (dashboard args w)) = length (crates (dashboard args w))
  /\ same_number (total_weight (totals (dashboard args w)))
       (PyFloat (float_sum (map weight_float (crates (dashboard args w)))))
  /\ totals (dashboard ∅ weighed_world) = mkTotals 4 (PyFloat f15_75).
Proof.
  rewrite dashboard_totals. split; [reflexivity|]. split; [|reflexivity].
  simpl. apply py_sum_float_sum.
Qed.

(** C10.  A filter parameter sent as the empty string is a filter
    parameter not sent: the list, its order and the totals are the same. *)
Theorem dashboard_empty_parameter (key : string) (args : gmap string string)
  (w : World) :
  crates (dashboard (<[key := EmptyString]> args) w)
  = crates (dashboard (delete key args) w)
  /\ totals (dashboard (<[key := EmptyString]> args) w)
     = totals (dashboard (delete key args) w).
Proof.
  assert (H : crates (dashboard (<[key := EmptyString]> args) w)
              = crates (dashboard (delete key args) w)).
  { rewrite !dashboard_crates. now rewrite !filter_if_empty. }
  split; [exact H|]. rewrite !dashboard_totals. now rewrite H.
Qed.

(** ** Export *)

(** The rows the export writes: the header row and then one row per
    record of the table, whatever filters the dashboard was given; the
    rows go by [date_received] descending; the columns are id, run_number,
    puc, farm_name, commodity, variety, grade_class, size, weight,
    date_received, inspector_notes; a date is written YYYY-MM-DD, an absent
    optional field as an empty cell, and every line feed of the notes as a
    backslash and the letter n; a note of two lines, line1 and line2,
    fills the cell with line1, backslash, n, line2. *)
Lemma export_csv_rows (float_repr : PyFloat.float -> string) (w : World) :
  exists sorted : list Crate,
    Permutation sorted (table w)
    /\ StronglySorted not_received_earlier sorted
    /\ export_csv float_repr w
       = expected_header :: map (expected_row float_repr) sorted
    /\ length (export_csv float_repr w) = S (length (table w))
    /\ Forall (fun c =>
                 iso_date_shape (date_isoformat (date_received c)) = true
                 /\ (valid_date (date_received c) = true ->
                     strptime_date (date_isoformat (date_received c))
                     = inr (date_received c)))
         sorted
    /\ export_csv float_repr noted_world
       = [ expected_header;
           ["1"; ""; "P1"; "Farm"; "Apple"; ""; ""; ""; ""; "2024-01-02";
            "line1\nline2"] ].
Proof.
  exists (all (order_by [desc date_received date_compare]) (table w)).
  assert (HP : Permutation (all (order_by [desc date_received date_compare])
                              (table w)) (table w)).
  { rewrite all_perm. simpl. now rewrite filter_no_criteria. }
  split; [exact HP|]. split; [|split; [|split; [|split]]].
  - eapply StronglySorted_weaken; [exact leb_not_received_earlier|].
    apply (all_sorted (order_by [desc date_received date_compare])). simpl.
    constructor; [apply desc_ok; exact date_compare_ok | constructor].
  - unfold export_csv. f_equal. apply map_ext. intros c. apply writerow_expected.
  - unfold export_csv. simpl. rewrite length_map.
    f_equal. now apply Permutation_length.
  - apply Forall_forall. intros c _.
    split; [apply date_isoformat_shape | apply strptime_isoformat].
  - reflexivity.
Qed.

(** C6.  The export delivers no CSV, whatever the table holds.  The
    handler writes the rows the specification describes, the header and
    one row per record, and then hands them to [send_file] as a [bytes]
    value, which [send_file] takes for a file object and cannot read: the
    body of the response raises [AttributeError].  Handed as a file
    object, the same rows would be the body. *)
Theorem export_csv_not_delivered (float_repr : PyFloat.float -> string)
  (w : World) :
  export_csv_view float_repr w = inl AttributeError
  /\ (forall body, export_csv_view float_repr w <> inr body)
  /\ send_file (FileObject (export_csv float_repr w))
     = inr (export_csv float_repr w)
  /\ (exists sorted : list Crate,
        Permutation sorted (table w)
        /\ StronglySorted not_received_earlier sorted
        /\ export_csv float_repr w
           = expected_header :: map (expected_row float_repr) sorted)
  /\ export_csv_view float_repr noted_world = inl AttributeError.
Proof.
  split; [reflexivity|]. split; [discriminate|]. split; [reflexivity|].
  split; [|reflexivity].
  destruct (export_csv_rows float_repr w) as (sorted & HP & HS & Hrows & _).
  now exists sorted.
Qed.

(** ** The JSON listing *)





(** Every insert stamps its row, so the tables the application builds are
    stamped. *)
Lemma stamped_after_commit (n : NewCrate) (w w' : World) (c : Crate) :
  stamped (table w) -> session_add_commit n w = (inr c, w') -> stamped (table w').
Proof.
  intros Hst H. rewrite session_add_commit_eq in H. inversion H; subst; clear H.
  simpl. apply Forall_app. split; [exact Hst|].
  repeat constructor. now eexists.
Qed.

Lemma stamped_after_add_crate (data : gmap string string) (w : World) :
  stamped (table w) -> stamped (table (snd (add_crate data w))).
Proof.
  intros Hst. destruct (crate_of_form data w) as [[e|n] w1] eqn:E.
  - now rewrite (add_crate_inl _ _ _ _ E).
  - rewrite (add_crate_inr _ _ _ _ E). simpl.
    apply crate_of_form_table in E as [-> _].
    apply Forall_app. split; [exact Hst|]. repeat constructor. now eexists.
Qed.

Lemma stamped_after_api_post (p : Payload) (w : World) :
  stamped (table w) -> stamped (table (snd (api_crates_post p w))).
Proof.
  intros Hst.
  destruct (api_post_cases p w)
    as [[-> _] | [(e & -> & _) | (n & w1 & c & _ & _ & _ & _ & _ & _ & E & -> & ->)]];
    try exact Hst.
  simpl. apply crate_of_payload_inr in E.
  destruct E as (_ & _ & _ & _ & _ & _ & _ & _ & _ & E).
  assert (Ht : table w1 = table w).
  { destruct (or_none (j_date_received p)); destruct E as [_ ->]; reflexivity. }
  rewrite Ht. apply Forall_app. split; [exact Hst|].
  repeat constructor. now eexists.
Qed.

(** ** Insert and fetch *)

(** C9, as amended.  A valid insert, by the form or by the API, builds a
    record from the input field by field and appends it, and fetching
    the id it was given returns the record as the table holds it: equal
    to the inserted one in every field, except that a weight that is a
    NaN is read back as no weight and a negative zero as zero.  Fetching
    an id no record has signals not-found when the id is below 2^63, and
    raises an overflow error from there on. *)
Theorem insert_then_fetch (w : World) :
  (forall data : gmap string string,
     valid_form data = true ->
     exists (n : NewCrate) (w1 : World) (c : Crate) (w' : World),
       crate_of_form data w = (inr n, w1)
       /\ add_crate data w = (mkFormResponse (CrateAdded, success) ep_dashboard, w')
       /\ table w' = table w ++ [c]
       /\ crate_detail (id c) w' = (inr c, w')
       /\ fields_read_back n c
       /\ (keeps_weight (n_weight n) = true -> same_fields n c)
       /\ data !! "puc" = Some (n_puc n)
       /\ data !! "farm_name" = Some (n_farm_name n)
       /\ data !! "commodity" = Some (n_commodity n)
       /\ n_run_number n = or_none (data !! "run_number")
       /\ n_variety n = or_none (data !! "variety")
       /\ n_grade_class n = or_none (data !! "grade_class")
       /\ n_size n = or_none (data !! "size")
       /\ n_inspector_notes n = or_none (data !! "inspector_notes")
       /\ n_weight n = or_none (data !! "weight") ≫= PyFloat.float_of_string
       /\ match or_none (data !! "date_received") with
          | Some s => strptime_date s = inr (n_date_received n)
          | None => n_date_received n = dt_date (clock w (ticks w))
          end)
  /\ (forall p : Payload,
        valid_payload p = true ->
        exists (n : NewCrate) (w1 : World) (c : Crate) (w' : World)
               (d : list (string * pyval)),
          crate_of_payload p (n_puc n) (n_farm_name n) (n_commodity n) w = (inr n, w1)
          /\ api_crates_post p w = (inr (mkApiResponse (CrateBody d) 201), w')
          /\ to_dict c = inr d
          /\ table w' = table w ++ [c]
          /\ crate_detail (id c) w' = (inr c, w')
          /\ fields_read_back n c
          /\ (keeps_weight (n_weight n) = true -> same_fields n c)
          /\ j_puc p = Some (n_puc n)
          /\ j_farm_name p = Some (n_farm_name n)
          /\ j_commodity p = Some (n_commodity n)
          /\ n_run_number n = j_run_number p
          /\ n_variety n = j_variety p
          /\ n_grade_class n = j_grade_class p
          /\ n_size n = j_size p
          /\ n_inspector_notes n = j_inspector_notes p
          /\ n_weight n = supplied_weight p ≫= weight_number
          /\ match or_none (j_date_received p) with
             | Some s => strptime_date s = inr (n_date_received n)
             | None => n_date_received n = dt_date (clock w (ticks w))
             end)
  /\ (forall i : Z,
        (forall c, In c (table w) -> id c <> i) ->
        (- 2 ^ 63 <= i < 2 ^ 63 -> crate_detail i w = (inl NotFound, w))
        /\ (2 ^ 63 <= i -> crate_detail i w = (inl OverflowError, w))).
Proof.
  split; [|split].
  - intros data Hv.
    destruct (crate_of_form_valid data w Hv) as (n & w1 & E).
    pose proof (crate_of_form_table _ _ _ _ E) as [Ht Hc].
    pose proof (crate_of_form_inr _ _ _ _ E)
      as (H1 & H2 & H3 & H4 & H5 & H6 & H7 & H8 & H9 & H10).
    exists n, w1, (stored n (next_id (table w1)) (clock w1 (ticks w1))).
    eexists. split; [exact E|].
    split; [apply (add_crate_inr _ _ _ _ E)|].
    split; [simpl; now rewrite Ht|].
    split; [apply (fetch_committed n w1); reflexivity|].
    split; [apply stored_fields_read_back|].
    split; [apply stored_same_fields|].
    repeat (split; [assumption|]).
    destruct (or_none (data !! "date_received")); destruct H10 as [H10 _];
      exact H10.
  - intros p Hv.
    destruct (api_post_cases p w)
      as [[_ Hreq] | [(e & _ & Hbad) | (n & w1 & c & H)]].
    + unfold valid_payload in Hv. rewrite Hreq in Hv. discriminate.
    + congruence.
    + destruct H as (Hp & Hf & Hc & _ & _ & _ & E & -> & Hpost).
      pose proof (crate_of_payload_inr _ _ _ _ _ _ _ E)
        as (_ & _ & _ & H4 & H5 & H6 & H7 & H8 & H9 & H10).
      assert (Ht : table w1 = table w).
      { destruct (or_none (j_date_received p)); destruct H10 as [_ ->];
          reflexivity. }
      exists n, w1, (stored n (next_id (table w1)) (clock w1 (ticks w1))).
      eexists. eexists. split; [exact E|]. split; [exact Hpost|].
      split; [reflexivity|].
      split; [simpl; now rewrite Ht|].
      split; [apply (fetch_committed n w1); reflexivity|].
      split; [apply stored_fields_read_back|].
      split; [apply stored_same_fields|].
      repeat (split; [assumption|]).
      destruct (or_none (j_date_received p)); destruct H10 as [H10 _];
        exact H10.
  - intros i Hi. unfold crate_detail, get_or_404.
    rewrite find_absent by exact Hi. unfold fits_int64. split; intros Hr.
    + replace ((- 2 ^ 63 <=? i) && (i <? 2 ^ 63)) with true; [reflexivity|].
      symmetry. apply andb_true_intro. split; [apply Z.leb_le | apply Z.ltb_lt]; lia.
    + replace (i <? 2 ^ 63) with false; [now rewrite andb_false_r|].
      symmetry. apply Z.ltb_ge. lia.
Qed.

(** The required fields alone, by the form and by the API, on the empty
    table; and the ids 7 and 2^63 on the table with ids 1, 2, 3. *)
Lemma insert_then_fetch_witness :
  (valid_form required_only = true
   /\ exists (n : NewCrate) (c : Crate) (w' : World),
        add_crate required_only empty_world
        = (mkFormResponse (CrateAdded, success) ep_dashboard, w')
        /\ crate_detail (id c) w' = (inr c, w')
        /\ same_fields n c)
  /\ (valid_payload required_payload = true
      /\ exists (n : NewCrate) (c : Crate) (w' : World) (d : list (string * pyval)),
           api_crates_post required_payload empty_world
           = (inr (mkApiResponse (CrateBody d) 201), w')
           /\ crate_detail (id c) w' = (inr c, w')
           /\ same_fields n c)
  /\ ((forall c, In c (table three_crates) -> id c <> 7)
      /\ crate_detail 7 three_crates = (inl NotFound, three_crates))
  /\ ((forall c, In c (table three_crates) -> id c <> 2 ^ 63)
      /\ crate_detail (2 ^ 63) three_crates = (inl OverflowError, three_crates)).
Proof.
  destruct (insert_then_fetch empty_world) as (Hform & Hapi & _).
  destruct (insert_then_fetch three_crates) as (_ & _ & Hnot).
  split; [|split; [|split]].
  - split; [reflexivity|].
    destruct (Hform required_only eq_refl)
      as (n & w1 & c & w' & E & H1 & _ & H3 & _ & H5 & _).
    exists n, c, w'. split; [exact H1|]. split; [exact H3|].
    apply H5. unfold crate_of_form in E. vm_compute in E.
    inversion E. reflexivity.
  - split; [reflexivity|].
    destruct (Hapi required_payload eq_refl)
      as (n & w1 & c & w' & d & E & H1 & _ & _ & H4 & _ & H6 & _ & _ & _ & _
          & _ & _ & _ & _ & Hw & _).
    exists n, c, w', d. split; [exact H1|]. split; [exact H4|].
    apply H6. rewrite Hw. reflexivity.
  - assert (H : forall c, In c (table three_crates) -> id c <> 7).
    { intros c [<-|[<-|[<-|[]]]]; discriminate. }
    split; [exact H | apply (Hnot 7 H); lia].
  - assert (H : forall c, In c (table three_crates) -> id c <> 2 ^ 63).
    { intros c [<-|[<-|[<-|[]]]]; discriminate. }
    split; [exact H | apply (Hnot (2 ^ 63) H); lia].
Defined.

(** C9, as stated, fails in two ways.  The form with the required fields
    and the weight [nan] is valid and is inserted, and the record fetched
    under its id has no weight, where the inserted one has the weight
    NaN.  And no record has the id 2^63, yet fetching it raises an
    overflow error, not the not-found condition. *)
Lemma insert_then_fetch_counterexample :
  valid_form nan_weight_form = true
  /\ (exists (n : NewCrate) (w1 : World) (c : Crate) (w' : World),
        crate_of_form nan_weight_form empty_world = (inr n, w1)
        /\ add_crate nan_weight_form empty_world
           = (mkFormResponse (CrateAdded, success) ep_dashboard, w')
        /\ table w' = [c]
        /\ crate_detail (id c) w' = (inr c, w')
        /\ n_weight n = Some S754_nan
        /\ weight c = None
        /\ ~ same_fields n c)
  /\ (forall c, In c (table three_crates) -> id c <> 2 ^ 63)
  /\ crate_detail (2 ^ 63) three_crates = (inl OverflowError, three_crates)
  /\ crate_detail (2 ^ 63) three_crates <> (inl NotFound, three_crates).
Proof.
  split; [reflexivity|]. split; [|split; [|split]].
  - eexists. eexists. eexists. eexists.
    split; [vm_compute; reflexivity|].
    split; [vm_compute; reflexivity|].
    split; [reflexivity|].
    split; [vm_compute; reflexivity|].
    split; [reflexivity|]. split; [reflexivity|].
    intros (_ & _ & _ & _ & _ & _ & _ & H & _). discriminate.
  - intros c [<-|[<-|[<-|[]]]]; discriminate.
  - reflexivity.
  - discriminate.
Qed.

(** ** What holds of the three claims below *)

(** The form reports a failed validation in its notice and inserts
    nothing. *)
Lemma add_crate_invalid (data : gmap string string) (w : World) :
  invalid_form data ->
  form_reports (fst (add_crate data w)) /\ snd (add_crate data w) = w.
Proof.
  intros Hinv. apply invalid_form_not_valid in Hinv.
  destruct (crate_of_form data w) as [[e|n] w1] eqn:E.
  - rewrite (add_crate_inl _ _ _ _ E). split; [now exists e | reflexivity].
  - apply crate_of_form_inr_valid in E. congruence.
Qed.

(** However the API answers, it inserts a record only with status 201. *)
Lemma api_post_all_or_nothing (p : Payload) (w : World) :
  (exists c d, api_crates_post p w
               = (inr (mkApiResponse (CrateBody d) 201),
                  mkWorld (table w ++ [c]) (clock (snd (api_crates_post p w)))
                    (ticks (snd (api_crates_post p w)))))
  \/ snd (api_crates_post p w) = w.
Proof.
  destruct (api_post_cases p w)
    as [[-> _] | [(e & -> & _) | (n & w1 & c & _ & _ & _ & _ & _ & _ & E & -> & ->)]];
    [now right | now right | left].
  apply crate_of_payload_inr in E.
  destruct E as (_ & _ & _ & _ & _ & _ & _ & _ & _ & E).
  assert (Ht : table w1 = table w).
  { destruct (or_none (j_date_received p)); destruct E as [_ ->]; reflexivity. }
  rewrite Ht. eexists. eexists. reflexivity.
Qed.

(** The records the API inserts have the three required fields non-empty. *)
Lemma api_post_required_non_empty (p : Payload) (w w' : World) (r : exn + ApiResponse) :
  api_crates_post p w = (r, w') -> w' <> w ->
  exists c, table w' = table w ++ [c]
            /\ truthy (puc c) = true /\ truthy (farm_name c) = true
            /\ truthy (commodity c) = true.
Proof.
  intros H Hne.
  destruct (api_post_cases p w)
    as [[E _] | [(e & E & _) | (n & w1 & c & _ & _ & _ & Hp & Hf & Hc & E & -> & Hpost)]];
    try (rewrite E in H; inversion H; congruence).
  rewrite Hpost in H. inversion H; subst; clear H.
  apply crate_of_payload_inr in E.
  destruct E as (_ & _ & _ & _ & _ & _ & _ & _ & _ & E).
  assert (Ht : table w1 = table w).
  { destruct (or_none (j_date_received p)); destruct E as [_ ->]; reflexivity. }
  eexists. simpl. rewrite Ht. split; [reflexivity|]. simpl. auto.
Qed.

(** A form without [date_received], or with an empty one, is dated by the
    clock; so is a JSON object. *)
Lemma add_crate_default_date (data : gmap string string) (w : World) (n : NewCrate)
  (w1 : World) :
  crate_of_form data w = (inr n, w1) ->
  or_none (data !! "date_received") = None ->
  n_date_received n = dt_date (clock w (ticks w)).
Proof.
  intros E Hd. apply crate_of_form_inr in E.
  destruct E as (_ & _ & _ & _ & _ & _ & _ & _ & _ & E).
  rewrite Hd in E. now destruct E.
Qed.

Lemma api_post_default_date (p : Payload) (a b c : string) (w w1 : World)
  (n : NewCrate) :
  crate_of_payload p a b c w = (inr n, w1) ->
  or_none (j_date_received p) = None ->
  n_date_received n = dt_date (clock w (ticks w)).
Proof.
  intros E Hd. apply crate_of_payload_inr in E.
  destruct E as (_ & _ & _ & _ & _ & _ & _ & _ & _ & E).
  rewrite Hd in E. now destruct E.
Qed.

(** The form never stores an empty optional text. *)
Lemma add_crate_normalizes (data : gmap string string) (w w1 : World) (n : NewCrate) :
  crate_of_form data w = (inr n, w1) ->
  n_run_number n <> Some EmptyString /\ n_variety n <> Some EmptyString
  /\ n_grade_class n <> Some EmptyString /\ n_size n <> Some EmptyString
  /\ n_inspector_notes n <> Some EmptyString.
Proof.
  intros E. apply crate_of_form_inr in E.
  destruct E as (_ & _ & _ & -> & -> & -> & -> & -> & _).
  assert (H : forall o, or_none o <> Some EmptyString).
  { intros [[|a s]|]; simpl; congruence. }
  repeat split; apply H.
Qed.

(** ** Three places where the handlers part from the specification *)

(** C1 (the code departs from the claim).  The form accepts an empty
    [puc]: it answers with the success notice and the table gains a record
    whose puc is the empty string.  The API refuses the same input. *)
Theorem add_crate_stores_empty_puc (w : World) :
  (exists c : Crate,
     add_crate empty_puc_form w
     = (mkFormResponse (CrateAdded, success) ep_dashboard,
        mkWorld (table w ++ [c]) (clock w) (S (S (ticks w))))
     /\ puc c = EmptyString)
  /\ api_crates_post empty_puc_payload w
     = (inr (mkApiResponse (ErrorBody required_message) 400), w).
Proof.
  split; [|reflexivity].
  eexists. split; reflexivity.
Qed.

(** C2 (the code departs from the claim).  On the API a weight that is not
    a number, or a date that is not YYYY-MM-DD, leaves the table as it was,
    but no error answer is built: the [ValueError] of [float] or of
    [strptime] leaves the handler.  The form, given the same weight,
    reports it in its notice. *)
Theorem api_post_bad_weight_raises (w : World) :
  api_crates_post bad_weight_payload w = (inl (ValueError_float "abc"), w)
  /\ ~ api_reports (fst (api_crates_post bad_weight_payload w))
  /\ api_crates_post bad_date_payload w
     = (inl (ValueError_strptime "17/05/2024" NoFormatMatch), w)
  /\ ~ api_reports (fst (api_crates_post bad_date_payload w))
  /\ add_crate bad_weight_form w
     = (mkFormResponse (FailedToAdd (ValueError_float "abc"), danger) ep_add_crate, w).
Proof.
  split; [reflexivity|]. split; [intros [msg H]; discriminate H|].
  split; [reflexivity|]. split; [intros [msg H]; discriminate H|].
  reflexivity.
Qed.

(** C7 (the code departs from the claim).  The API stores an optional text
    field sent as the empty string as the empty string; the form, given
    the same fields, stores them as absent.  On both paths the record gets
    the date of the clock and the next id. *)
Theorem api_post_keeps_empty_optionals (w : World) :
  (exists (c : Crate) (d : list (string * pyval)),
     api_crates_post empty_optionals_payload w
     = (inr (mkApiResponse (CrateBody d) 201),
        mkWorld (table w ++ [c]) (clock w) (S (S (ticks w))))
     /\ run_number c = Some EmptyString
     /\ variety c = Some EmptyString
     /\ grade_class c = Some EmptyString
     /\ size c = Some EmptyString
     /\ inspector_notes c = Some EmptyString
     /\ date_received c = dt_date (clock w (ticks w))
     /\ id c = next_id (table w))
  /\ (exists c : Crate,
        add_crate empty_optionals_form w
        = (mkFormResponse (CrateAdded, success) ep_dashboard,
           mkWorld (table w ++ [c]) (clock w) (S (S (ticks w))))
        /\ run_number c = None
        /\ variety c = None
        /\ grade_class c = None
        /\ size c = None
        /\ inspector_notes c = None
        /\ date_received c = dt_date (clock w (ticks w))
        /\ id c = next_id (table w)).
Proof.
  split.
  - eexists. eexists. split; [reflexivity|]. repeat split.
  - eexists. split; [reflexivity|]. repeat split.
Qed.

(* ===================================================================== *)
(** * Further properties of the handlers *)
(* ===================================================================== *)

Module MoreFacts.
Import Invariants Routes.

(** ** The dashboard on arbitrary filters *)

(** The list of the dashboard is the table, filtered as the query tests
    the filters, then sorted. *)
Lemma dashboard_sorted_filter (args : gmap string string) (w : World) :
  crates (dashboard args w)
  = sort_by (lex [desc date_received date_compare; desc id Z.compare])
      (List.filter (like_matches args) (table w)).
Proof.
  rewrite dashboard_crates. unfold all. rewrite !filter_if_ordering.
  f_equal. apply List.filter_ext. intros c.
  rewrite !filter_if_criteria. reflexivity.
Qed.

Lemma dashboard_like_perm (args : gmap string string) (w : World) :
  Permutation (crates (dashboard args w))
    (List.filter (like_matches args) (table w)).
Proof. rewrite dashboard_sorted_filter. apply sort_by_perm. Qed.

(** Filters that test every record alike give the same page. *)
Lemma dashboard_ext (args1 args2 : gmap string string) (w : World) :
  (forall c, like_matches args1 c = like_matches args2 c) ->
  crates (dashboard args1 w) = crates (dashboard args2 w)
  /\ totals (dashboard args1 w) = totals (dashboard args2 w).
Proof.
  intros H.
  assert (E : crates (dashboard args1 w) = crates (dashboard args2 w)).
  { rewrite !dashboard_sorted_filter. f_equal. now apply List.filter_ext. }
  split; [exact E|]. rewrite !dashboard_totals. now rewrite E.
Qed.

Lemma supplied_insert (key k v : string) (args : gmap string string) :
  supplied (<[key := v]> args) k
  = if decide (key = k) then or_none (Some v) else supplied args k.
Proof.
  unfold supplied. destruct (decide (key = k)) as [->|Hne].
  - now rewrite lookup_insert_eq.
  - now rewrite lookup_insert_ne.
Qed.

Lemma supplied_delete (key k : string) (args : gmap string string) :
  supplied (delete key args) k
  = if decide (key = k) then None else supplied args k.
Proof.
  unfold supplied. destruct (decide (key = k)) as [->|Hne].
  - now rewrite lookup_delete_eq.
  - now rewrite lookup_delete_ne.
Qed.

Lemma filter_incl_length {A : Type} (f g : A -> bool) (l : list A) :
  (forall a, f a = true -> g a = true) ->
  (length (List.filter f l) <= length (List.filter g l))%nat.
Proof.
  intros H. induction l as [|a l IH]; simpl; [lia|].
  destruct (f a) eqn:Ef.
  - rewrite (H a Ef). simpl. lia.
  - destruct (g a); simpl; lia.
Qed.

(** *** Wildcards and case *)







Lemma truthy_lower (s : string) : truthy (lower s) = truthy s.
Proof. destruct s; reflexivity. Qed.

(** The case of the filter text does not matter to [ilike]. *)
Lemma ilike_lower_pattern (value v : string) :
  ilike value ("%" +:+ lower v +:+ "%") = ilike value ("%" +:+ v +:+ "%").
Proof. unfold ilike. now rewrite !lower_app, lower_idem. Qed.

End MoreFacts.

(** ** Order and storage *)

Module OrderFacts.
Import Invariants Routes MoreFacts.

Lemma filter_perm {A : Type} (f : A -> bool) (l1 l2 : list A) :
  Permutation l1 l2 -> Permutation (List.filter f l1) (List.filter f l2).
Proof.
  induction 1 as [|x l1 l2 H IH|x y l|l1 l2 l3 H1 IH1 H2 IH2]; simpl.
  - reflexivity.
  - destruct (f x); [now constructor | exact IH].
  - destruct (f x), (f y); try reflexivity. apply perm_swap.
  - now transitivity (List.filter f l2).
Qed.

(** Two sorted lists with the same elements are one list, when the order
    tells any two of the elements apart. *)
Lemma sorted_perm_unique {R : Type} (le : R -> R -> Prop) (l1 l2 : list R) :
  (forall a b, In a l1 -> In b l1 -> le a b -> le b a -> a = b) ->
  StronglySorted le l1 -> StronglySorted le l2 -> Permutation l1 l2 ->
  l1 = l2.
Proof.
  revert l2. induction l1 as [|x l1 IH]; intros l2 Hanti H1 H2 HP.
  - apply Permutation_nil in HP. now subst.
  - destruct l2 as [|y l2].
    { symmetry in HP. now apply Permutation_nil in HP. }
    apply StronglySorted_inv in H1 as [H1 Hx].
    apply StronglySorted_inv in H2 as [H2 Hy].
    assert (Exy : x = y).
    { pose proof (Permutation_in x HP (or_introl eq_refl)) as [E|Hin];
        [now symmetry|].
      pose proof (Permutation_in y (Permutation_sym HP) (or_introl eq_refl))
        as [E|Hin']; [exact E|].
      apply Hanti; [now left | now right | |].
      - rewrite List.Forall_forall in Hx. now apply Hx.
      - rewrite List.Forall_forall in Hy. now apply Hy. }
    subst y. f_equal. apply IH; trivial.
    + intros a b Ha Hb. apply Hanti; now right.
    + now apply Permutation_cons_inv in HP.
Qed.

Lemma leb_of_both_Eq {R : Type} (cmp : R -> R -> comparison) (a b : R) :
  ordering_ok cmp ->
  leb_of cmp a b = true -> leb_of cmp b a = true -> cmp a b = Eq.
Proof.
  intros Hok. unfold leb_of. rewrite (ok_flip cmp Hok a b).
  destruct (cmp a b); simpl; congruence.
Qed.

(** Rows of a table with distinct ids are told apart by their ids. *)
Lemma same_id_same_row (rows : list Crate) (a b : Crate) :
  List.NoDup (map id rows) -> In a rows -> In b rows -> id a = id b -> a = b.
Proof.
  induction rows as [|r rows IH]; simpl; intros Hnd Ha Hb E; [contradiction|].
  apply NoDup_cons_iff in Hnd as [Hr Hnd].
  destruct Ha as [->|Ha], Hb as [->|Hb]; trivial.
  - exfalso. apply Hr. rewrite E. now apply in_map.
  - exfalso. apply Hr. rewrite <- E. now apply in_map.
  - now apply IH.
Qed.

(** Sorting rows of distinct ids by a list of terms that ends in the id
    gives one result for every order of the input. *)
Lemma sort_by_id_last (os : list (Crate -> Crate -> comparison))
  (l1 l2 rows : list Crate) :
  Forall ordering_ok os ->
  List.NoDup (map id rows) -> (forall c, In c l1 -> In c rows) ->
  Permutation l1 l2 ->
  sort_by (lex (os ++ [desc id Z.compare])) l1
  = sort_by (lex (os ++ [desc id Z.compare])) l2.
Proof.
  intros Hos Hnd Hin HP.
  assert (Hok : ordering_ok (lex (os ++ [desc id Z.compare]))).
  { apply lex_ok. apply Forall_app. split; [exact Hos|].
    constructor; [apply desc_ok; exact Zcompare_ok | constructor]. }
  apply (sorted_perm_unique
           (fun a b => leb_of (lex (os ++ [desc id Z.compare])) a b = true)).
  - intros a b Ha Hb Hab Hba.
    pose proof (leb_of_both_Eq _ a b Hok Hab Hba) as E.
    apply (same_id_same_row rows); trivial.
    + apply Hin. eapply Permutation_in; [apply sort_by_perm | exact Ha].
    + apply Hin. eapply Permutation_in; [apply sort_by_perm | exact Hb].
    + clear - E. induction os as [|o os IH]; simpl in E.
      * unfold desc in E.
        destruct (Z.compare_spec (id b) (id a)); try discriminate. congruence.
      * destruct (o a b); try discriminate. now apply IH.
  - apply sort_by_sorted.
    + intros a b. now apply leb_of_total.
    + intros a b c. now apply leb_of_trans.
  - apply sort_by_sorted.
    + intros a b. now apply leb_of_total.
    + intros a b c. now apply leb_of_trans.
  - rewrite !sort_by_perm. exact HP.
Qed.

(** Serializing a list of rows does not look at the world. *)
Lemma mapM_to_dict_world (l : list Crate) :
  exists r, forall w, mapM (fun c => lift (to_dict c)) l w = (r, w).
Proof.
  induction l as [|c l [r IH]].
  - eexists. intros w. reflexivity.
  - destruct (to_dict c) as [e|d] eqn:E.
    + exists (inl e). intros w. cbn [mapM]. unfold bind, lift. now rewrite E.
    + destruct r as [e|ds].
      * exists (inl e). intros w. cbn [mapM]. unfold bind at 1. unfold lift at 1.
        rewrite E. unfold bind at 1. now rewrite IH.
      * exists (inr (d :: ds)). intros w. cbn [mapM]. unfold bind at 1.
        unfold lift at 1. rewrite E. unfold bind at 1. now rewrite IH.
Qed.

End OrderFacts.

(** ** Inserts, step by step *)

Module StepFacts.
Import Invariants Routes MoreFacts OrderFacts.

(** Every date [strptime] returns passed the range check of [date]. *)
Lemma strptime_valid (s : string) (d : date) :
  strptime_date s = inr d -> valid_date d = true.
Proof.
  unfold strptime_date.
  destruct (re_match s) as [[[[y m] dd] r]|]; [|discriminate].
  destruct (truthy r); [discriminate|].
  destruct (valid_ymd y m dd) eqn:E; [|discriminate].
  intros H. inversion H; subst. exact E.
Qed.

(** The two outcomes of the form handler. *)
Lemma add_crate_step (data : gmap string string) (w : World) :
  (valid_form data = true
   /\ exists n w1,
        crate_of_form data w = (inr n, w1)
        /\ table w1 = table w /\ clock w1 = clock w
        /\ add_crate data w
           = (mkFormResponse (CrateAdded, success) ep_dashboard,
              mkWorld (table w ++ [stored n (next_id (table w)) (clock w (ticks w1))])
                (clock w) (S (ticks w1))))
  \/ (valid_form data = false
      /\ exists e, add_crate data w
                   = (mkFormResponse (FailedToAdd e, danger) ep_add_crate, w)).
Proof.
  destruct (crate_of_form data w) as [[e|n] w1] eqn:E.
  - right. split; [now apply crate_of_form_inl in E|].
    exists e. now apply add_crate_inl with w1.
  - left. split; [now apply crate_of_form_inr_valid in E|].
    exists n, w1. pose proof (crate_of_form_table _ _ _ _ E) as [Ht Hc].
    split; [reflexivity|]. split; [exact Ht|]. split; [exact Hc|].
    rewrite (add_crate_inr _ _ _ _ E). now rewrite Ht, Hc.
Qed.

(** A payload that builds a crate has a weight and a date that read. *)
Lemma crate_of_payload_inr_valid (p : Payload) (a b c : string)
  (w w' : World) (n : NewCrate) :
  crate_of_payload p a b c w = (inr n, w') ->
  match supplied_weight p with
  | Some v => bool_decide (is_Some (weight_number v))
  | None => true
  end
  && holds (or_none (j_date_received p))
       (fun s => match strptime_date s with inr _ => true | inl _ => false end)
  = true.
Proof.
  unfold crate_of_payload, bind, float_json, float_str, strptime, utc_today,
    utcnow, ret, raise.
  unfold supplied_weight.
  destruct (j_weight p) as [[sw|z|x]|]; cbn [jweight_truthy weight_number];
    [ destruct (truthy sw) eqn:Hsw; [destruct (PyFloat.float_of_string sw) eqn:Ew|]
    | destruct (z =? 0) eqn:Hz; cbn [negb];
      [|destruct (PyFloat.float_of_int z) eqn:Ew]
    | destruct (PyFloat.truthy x) eqn:Hx
    | ].
  all: cbn [weight_number]; rewrite ?Ew.
  all: (destruct (j_date_received p) as [sd|];
        [destruct (truthy sd) eqn:Hsd; [destruct (strptime_date sd) eqn:Ed|]|]).
  all: cbn [or_none holds]; rewrite ?Hsd; cbn [holds]; rewrite ?Ed.
  all: intros H; inversion H; subst; clear H.
  all: reflexivity.
Qed.

(** The three outcomes of the POST branch of the API. *)
Lemma api_post_step (p : Payload) (w : World) :
  (opt_truthy (j_puc p) && opt_truthy (j_farm_name p) && opt_truthy (j_commodity p)
   = false
   /\ api_crates_post p w = (inr (mkApiResponse (ErrorBody required_message) 400), w))
  \/ (opt_truthy (j_puc p) && opt_truthy (j_farm_name p)
      && opt_truthy (j_commodity p) = true
      /\ valid_payload p = false
      /\ exists e, api_crates_post p w = (inl e, w))
  \/ (valid_payload p = true
      /\ exists n w1,
           crate_of_payload p (n_puc n) (n_farm_name n) (n_commodity n) w = (inr n, w1)
           /\ truthy (n_puc n) = true /\ truthy (n_farm_name n) = true
           /\ truthy (n_commodity n) = true
           /\ table w1 = table w /\ clock w1 = clock w
           /\ api_crates_post p w
              = (inr (mkApiResponse
                        (CrateBody
                           (map (fun f => (f, field_value
                                                (stored n (next_id (table w))
                                                   (clock w (ticks w1)))
                                                (clock w (ticks w1)) f))
                              model_fields)) 201),
                 mkWorld (table w ++ [stored n (next_id (table w)) (clock w (ticks w1))])
                   (clock w) (S (ticks w1)))).
Proof.
  destruct (api_post_cases p w)
    as [[E Hreq] | [(e & E & Hbad) | (n & w1 & c & Hp & Hf & Hc & Tp & Tf & Tc & E & -> & Hpost)]].
  - left. now split.
  - right. left.
    destruct (opt_truthy (j_puc p) && opt_truthy (j_farm_name p)
              && opt_truthy (j_commodity p)) eqn:Hreq.
    + split; [reflexivity|]. split; [exact Hbad|]. now exists e.
    + rewrite (api_post_required p w Hreq) in E. discriminate.
  - right. right.
    pose proof (crate_of_payload_inr_valid _ _ _ _ _ _ _ E) as Hv.
    pose proof (crate_of_payload_inr _ _ _ _ _ _ _ E)
      as (_ & _ & _ & _ & _ & _ & _ & _ & _ & H10).
    assert (Hw : table w1 = table w /\ clock w1 = clock w).
    { destruct (or_none (j_date_received p)); destruct H10 as [_ ->]; now split. }
    destruct Hw as [Ht Hck].
    split.
    + unfold valid_payload. unfold opt_truthy. rewrite Hp, Hf, Hc, Tp, Tf, Tc.
      exact Hv.
    + exists n, w1. repeat (split; [assumption|]).
      rewrite Hpost. now rewrite Ht, Hck.
Qed.

(** *** The table under an insert *)

Lemma find_app_found {A : Type} (f : A -> bool) (l l' : list A) (x : A) :
  List.find f l = Some x -> List.find f (l ++ l') = Some x.
Proof.
  induction l as [|a l IH]; simpl; [discriminate|].
  destruct (f a); [trivial | exact IH].
Qed.

Lemma next_id_positive (rows : list Crate) : 1 <= next_id rows.
Proof.
  unfold next_id. induction rows as [|r rows IH]; simpl; lia.
Qed.

Lemma NoDup_snoc {A : Type} (l : list A) (x : A) :
  List.NoDup l -> ~ In x l -> List.NoDup (l ++ [x]).
Proof.
  induction l as [|a l IH]; simpl; intros Hnd Hx.
  - constructor; [intros [] | constructor].
  - apply NoDup_cons_iff in Hnd as [Ha Hnd]. constructor.
    + rewrite in_app_iff. intros [H|[E|[]]]; [now apply Ha|].
      apply Hx. now left.
    + apply IH; [exact Hnd|]. intros H. apply Hx. now right.
Qed.

Lemma ids_ok_append (rows : list Crate) (c : Crate) :
  ids_ok rows -> id c = next_id rows -> ids_ok (rows ++ [c]).
Proof.
  intros [Hnd Hpos] Hid. split.
  - rewrite map_app. simpl. apply NoDup_snoc; [exact Hnd|].
    intros Hx. apply in_map_iff in Hx as (r & Hr & Hin).
    apply next_id_above in Hin. lia.
  - apply Forall_app. split; [exact Hpos|].
    constructor; [|constructor]. rewrite Hid. apply next_id_positive.
Qed.

(** The row with a given id, in a table of distinct ids. *)
Lemma find_by_id (rows : list Crate) (c : Crate) :
  List.NoDup (map id rows) -> In c rows ->
  List.find (fun r => id r =? id c) rows = Some c.
Proof.
  induction rows as [|r rows IH]; simpl; intros Hnd Hin; [contradiction|].
  apply NoDup_cons_iff in Hnd as [Hr Hnd].
  destruct (Z.eqb_spec (id r) (id c)) as [E|Hne].
  - destruct Hin as [->|Hin]; [reflexivity|].
    exfalso. apply Hr. rewrite E. now apply in_map.
  - destruct Hin as [->|Hin]; [contradiction|]. now apply IH.
Qed.

End StepFacts.

(* ===================================================================== *)
(** * Further properties, by handler *)
(* ===================================================================== *)

Import Invariants Routes MoreFacts OrderFacts StepFacts.

(** ** [dashboard] *)

Lemma like_matches_narrow (key v : string) (args : gmap string string) (c : Crate) :
  like_matches (<[key := v]> args) c = true ->
  like_matches (delete key args) c = true.
Proof.
  unfold like_matches. rewrite !supplied_insert, !supplied_delete.
  destruct (decide (key = "run")), (decide (key = "puc")),
    (decide (key = "commodity")), (decide (key = "farm"));
    cbn [holds]; rewrite !andb_true_iff; intuition.
Qed.

(** X2.  Adding a filter never adds a row: what the dashboard lists with a
    parameter set is listed without that parameter too, and the count
    does not grow. *)
Theorem dashboard_filter_narrows (key v : string) (args : gmap string string)
  (w : World) :
  (forall c, In c (crates (dashboard (<[key := v]> args) w))
             -> In c (crates (dashboard (delete key args) w)))
  /\ (count (totals (dashboard (<[key := v]> args) w))
      <= count (totals (dashboard (delete key args) w)))%nat.
Proof.
  split.
  - intros c Hc.
    apply (Permutation_in c (dashboard_like_perm _ w)) in Hc.
    apply (Permutation_in c (Permutation_sym (dashboard_like_perm _ w))).
    apply List.filter_In in Hc as [Hin Hm]. apply List.filter_In.
    split; [exact Hin | now apply like_matches_narrow with v].
  - rewrite !dashboard_totals. cbn [count].
    rewrite !(Permutation_length (dashboard_like_perm _ w)).
    apply filter_incl_length. intros c. apply like_matches_narrow.
Qed.

(** The filter [commodity=apple] added to no filter at all, on
    commodities Apple, APPLES and pear. *)
Lemma dashboard_filter_narrows_witness :
  (count (totals (dashboard (<["commodity" := "apple"]> ∅) fruit_world))
   <= count (totals (dashboard (delete "commodity" ∅) fruit_world)))%nat
  /\ map id (crates (dashboard (<["commodity" := "apple"]> ∅) fruit_world))
     = [2; 1].
Proof.
  split; [|reflexivity].
  exact (proj2 (dashboard_filter_narrows "commodity" "apple" ∅ fruit_world)).
Defined.

Lemma like_matches_lower (key v : string) (args : gmap string string) (c : Crate) :
  key = "puc" \/ key = "commodity" \/ key = "farm" ->
  like_matches (<[key := lower v]> args) c = like_matches (<[key := v]> args) c.
Proof.
  unfold like_matches. rewrite !supplied_insert.
  intros [-> | [-> | ->]]; repeat case_decide; try discriminate;
    try congruence;
    cbn [or_none]; rewrite truthy_lower; destruct (truthy v); cbn [holds];
    rewrite ?ilike_lower_pattern; reflexivity.
Qed.

Lemma same_ascii_text_lower (s t : string) :
  same_ascii_text s t = true -> lower s = lower t.
Proof.
  revert t; induction s as [|a s IH]; intros [|b t]; simpl; try discriminate;
    [reflexivity|].
  intros H. apply andb_prop in H as [Hab Hst].
  rewrite same_ascii_letter_lower in Hab. apply Ascii.eqb_eq in Hab.
  now rewrite Hab, (IH t Hst).
Qed.

Lemma like_matches_same_text (key v v' : string) (args : gmap string string)
  (c : Crate) :
  key = "puc" \/ key = "commodity" \/ key = "farm" ->
  same_ascii_text v v' = true ->
  like_matches (<[key := v]> args) c = like_matches (<[key := v']> args) c.
Proof.
  intros Hkey Hsame. apply same_ascii_text_lower in Hsame.
  rewrite <- (like_matches_lower key v) by exact Hkey.
  rewrite <- (like_matches_lower key v') by exact Hkey.
  now rewrite Hsame.
Qed.

(** X3.  The case of the letters A to Z in the text of the [puc],
    [commodity] and [farm] filters does not matter: two filter texts that
    differ in the case of such letters only give the same list and the
    same totals.  The case of other letters does matter: the capital E
    with an acute accent lists the commodity that starts with it, the
    small one does not. *)
Theorem dashboard_filter_case (key v v' : string) (args : gmap string string)
  (w : World) :
  key = "puc" \/ key = "commodity" \/ key = "farm" ->
  same_ascii_text v v' = true ->
  (crates (dashboard (<[key := v]> args) w)
   = crates (dashboard (<[key := v']> args) w)
   /\ totals (dashboard (<[key := v]> args) w)
      = totals (dashboard (<[key := v']> args) w))
  /\ map id (crates (dashboard (<["commodity" := String capital_e_acute ""]> ∅)
                       accent_world)) = [1]
  /\ crates (dashboard (<["commodity" := String small_e_acute ""]> ∅) accent_world)
     = [].
Proof.
  intros Hkey Hsame. split; [|split; reflexivity].
  apply dashboard_ext. intros c. now apply like_matches_same_text.
Qed.

(** The filters [APPLE] and [apple] on commodities Apple, APPLES and
    pear. *)
Lemma dashboard_filter_case_witness :
  same_ascii_text "APPLE" "apple" = true
  /\ crates (dashboard (<["commodity" := "APPLE"]> ∅) fruit_world)
     = crates (dashboard (<["commodity" := "apple"]> ∅) fruit_world)
  /\ map id (crates (dashboard (<["commodity" := "APPLE"]> ∅) fruit_world))
     = [2; 1].
Proof.
  split; [reflexivity|]. split; [|reflexivity].
  destruct (dashboard_filter_case "commodity" "APPLE" "apple" ∅ fruit_world)
    as [[H _] _]; [right; left; reflexivity | reflexivity | exact H].
Defined.







(** X6.  In a table of distinct ids the page of the dashboard and the
    listing of the API do not depend on the order in which the table
    stores its rows. *)
Theorem listing_ignores_storage_order (args : gmap string string) (w1 w2 : World) :
  Permutation (table w1) (table w2) ->
  List.NoDup (map id (table w1)) ->
  crates (dashboard args w1) = crates (dashboard args w2)
  /\ totals (dashboard args w1) = totals (dashboard args w2)
  /\ fst (api_crates_get w1) = fst (api_crates_get w2).
Proof.
  intros HP Hnd.
  assert (E : crates (dashboard args w1) = crates (dashboard args w2)).
  { rewrite !dashboard_sorted_filter.
    apply (sort_by_id_last [desc date_received date_compare] _ _ (table w1)).
    - constructor; [apply desc_ok; exact date_compare_ok | constructor].
    - exact Hnd.
    - intros c Hc. now apply List.filter_In in Hc.
    - now apply filter_perm. }
  split; [exact E|]. split; [rewrite !dashboard_totals; now rewrite E|].
  unfold api_crates_get, all. cbn [ordering criteria order_by].
  rewrite !filter_no_criteria.
  assert (Hs : sort_by (lex [desc id Z.compare]) (table w1)
               = sort_by (lex [desc id Z.compare]) (table w2)).
  { apply (sort_by_id_last [] _ _ (table w1)); trivial. }
  rewrite Hs.
  destruct (mapM_to_dict_world
              (sort_by (lex [desc id Z.compare]) (table w2))) as [r Hr].
  unfold bind. rewrite !Hr. destruct r; reflexivity.
Qed.

(** The three crates, stored in two orders. *)
Lemma listing_ignores_storage_order_witness :
  Permutation (table three_crates)
    (table (mkWorld (rev (table three_crates)) (fun _ => noon) 0))
  /\ List.NoDup (map id (table three_crates))
  /\ crates (dashboard ∅ three_crates)
     = crates (dashboard ∅ (mkWorld (rev (table three_crates)) (fun _ => noon) 0)).
Proof.
  assert (HP : Permutation (table three_crates)
                 (table (mkWorld (rev (table three_crates)) (fun _ => noon) 0))).
  { apply Permutation_rev. }
  assert (Hnd : List.NoDup (map id (table three_crates))).
  { repeat constructor; simpl; intuition discriminate. }
  split; [exact HP|]. split; [exact Hnd|].
  exact (proj1 (listing_ignores_storage_order ∅ three_crates _ HP Hnd)).
Defined.

(** ** [add_crate] and [api_crates], POST *)

(** X7.  POST /add does all or nothing, and which one is decided by the
    form alone: a valid form commits exactly one new row, with the next
    id and a creation time, and answers with the success notice and the
    redirect to the dashboard; any other form leaves the world as it was
    and answers with the failure notice and the redirect to the form. *)
Theorem add_crate_all_or_nothing (data : gmap string string) (w : World) :
  (valid_form data = true
   /\ exists c w',
        add_crate data w
        = (mkFormResponse (CrateAdded, success) ep_dashboard, w')
        /\ table w' = table w ++ [c] /\ clock w' = clock w
        /\ id c = next_id (table w) /\ is_Some (created_at c))
  \/ (valid_form data = false
      /\ exists e,
           add_crate data w
           = (mkFormResponse (FailedToAdd e, danger) ep_add_crate, w)).
Proof.
  destruct (add_crate_step data w)
    as [(Hv & n & w1 & _ & _ & _ & E) | (Hv & e & E)].
  - left. split; [exact Hv|]. eexists. eexists. split; [exact E|].
    repeat split. now eexists.
  - right. split; [exact Hv|]. now exists e.
Qed.


(** X9.  The notice of POST /add names the first thing that went wrong,
    in the order the fields are read: [puc], [farm_name], [commodity],
    then the weight, then the date. *)
Theorem add_crate_error_order (data : gmap string string) (w : World) :
  (data !! "puc" = None ->
   add_crate data w
   = (mkFormResponse (FailedToAdd (BadRequestKeyError "puc"), danger)
        ep_add_crate, w))
  /\ (is_Some (data !! "puc") -> data !! "farm_name" = None ->
      add_crate data w
      = (mkFormResponse (FailedToAdd (BadRequestKeyError "farm_name"), danger)
           ep_add_crate, w))
  /\ (is_Some (data !! "puc") -> is_Some (data !! "farm_name") ->
      data !! "commodity" = None ->
      add_crate data w
      = (mkFormResponse (FailedToAdd (BadRequestKeyError "commodity"), danger)
           ep_add_crate, w))
  /\ (forall s,
        is_Some (data !! "puc") -> is_Some (data !! "farm_name") ->
        is_Some (data !! "commodity") ->
        data !! "weight" = Some s -> truthy s = true ->
        PyFloat.float_of_string s = None ->
        add_crate data w
        = (mkFormResponse (FailedToAdd (ValueError_float s), danger)
             ep_add_crate, w))
  /\ (forall s why,
        is_Some (data !! "puc") -> is_Some (data !! "farm_name") ->
        is_Some (data !! "commodity") ->
        holds (or_none (data !! "weight"))
          (fun s => bool_decide (is_Some (PyFloat.float_of_string s))) = true ->
        data !! "date_received" = Some s -> truthy s = true ->
        strptime_date s = inl why ->
        add_crate data w
        = (mkFormResponse (FailedToAdd (ValueError_strptime s why), danger)
             ep_add_crate, w)).
Proof.
  unfold add_crate, crate_of_form, bind, getitem, float_str, strptime, ret,
    raise, opt_truthy.
  split; [|split; [|split; [|split]]].
  - intros ->. reflexivity.
  - intros [a ->] ->. reflexivity.
  - intros [a ->] [b ->] ->. reflexivity.
  - intros s [a ->] [b ->] [c ->] -> -> ->. reflexivity.
  - intros s why [a ->] [b ->] [c ->] Hw -> -> ->.
    destruct (data !! "weight") as [sw|]; [|reflexivity].
    cbn [or_none] in Hw. destruct (truthy sw); [|reflexivity].
    cbn [holds] in Hw.
    destruct (PyFloat.float_of_string sw); [reflexivity|discriminate].
Qed.

(** Forms without [puc], without [farm_name], without [commodity], with
    the weight [abc], and with the date [17/05/2024]. *)
Lemma add_crate_error_order_witness :
  fst (add_crate no_puc_form empty_world)
  = mkFormResponse (FailedToAdd (BadRequestKeyError "puc"), danger) ep_add_crate
  /\ fst (add_crate no_farm_form empty_world)
     = mkFormResponse (FailedToAdd (BadRequestKeyError "farm_name"), danger)
         ep_add_crate
  /\ fst (add_crate no_commodity_form empty_world)
     = mkFormResponse (FailedToAdd (BadRequestKeyError "commodity"), danger)
         ep_add_crate
  /\ fst (add_crate bad_weight_form empty_world)
     = mkFormResponse (FailedToAdd (ValueError_float "abc"), danger) ep_add_crate
  /\ fst (add_crate bad_date_form empty_world)
     = mkFormResponse
         (FailedToAdd (ValueError_strptime "17/05/2024" NoFormatMatch), danger)
         ep_add_crate.
Proof.
  split; [|split; [|split; [|split]]].
  - destruct (add_crate_error_order no_puc_form empty_world) as (H & _).
    rewrite H; reflexivity.
  - destruct (add_crate_error_order no_farm_form empty_world) as (_ & H & _).
    rewrite H; [reflexivity | now eexists | reflexivity].
  - destruct (add_crate_error_order no_commodity_form empty_world)
      as (_ & _ & H & _).
    rewrite H; [reflexivity | now eexists | now eexists | reflexivity].
  - destruct (add_crate_error_order bad_weight_form empty_world)
      as (_ & _ & _ & H & _).
    rewrite (H "abc"); try reflexivity; now eexists.
  - destruct (add_crate_error_order bad_date_form empty_world)
      as (_ & _ & _ & _ & H).
    rewrite (H "17/05/2024" NoFormatMatch); try reflexivity; now eexists.
Defined.

(** ** The table under inserts *)

(** What an insert does to the table: nothing, or one row at the end. *)
Lemma add_crate_table (data : gmap string string) (w : World) :
  snd (add_crate data w) = w
  \/ exists n w1,
       crate_of_form data w = (inr n, w1)
       /\ snd (add_crate data w)
          = mkWorld (table w ++ [stored n (next_id (table w)) (clock w (ticks w1))])
              (clock w) (S (ticks w1)).
Proof.
  destruct (add_crate_step data w)
    as [(_ & n & w1 & E & _ & _ & H) | (_ & e & H)]; rewrite H; simpl.
  - right. now exists n, w1.
  - now left.
Qed.

Lemma api_post_table (p : Payload) (w : World) :
  snd (api_crates_post p w) = w
  \/ exists n w1,
       crate_of_payload p (n_puc n) (n_farm_name n) (n_commodity n) w = (inr n, w1)
       /\ truthy (n_puc n) = true /\ truthy (n_farm_name n) = true
       /\ truthy (n_commodity n) = true
       /\ snd (api_crates_post p w)
          = mkWorld (table w ++ [stored n (next_id (table w)) (clock w (ticks w1))])
              (clock w) (S (ticks w1)).
Proof.
  destruct (api_post_step p w)
    as [[_ H] | [(_ & _ & e & H) | (_ & n & w1 & E & Tp & Tf & Tc & _ & _ & H)]];
    rewrite H; simpl.
  - now left.
  - now left.
  - right. now exists n, w1.
Qed.

(** X10.  An insert never disturbs the rows that are there: a record that
    /crate/<id> showed before POST /add or POST /api/crates, it shows
    after, whatever the insert did. *)
Theorem insert_keeps_rows (w : World) (i : Z) (c : Crate) :
  crate_detail i w = (inr c, w) ->
  (forall data,
     crate_detail i (snd (add_crate data w)) = (inr c, snd (add_crate data w)))
  /\ (forall p,
        crate_detail i (snd (api_crates_post p w))
        = (inr c, snd (api_crates_post p w))).
Proof.
  unfold crate_detail, get_or_404.
  destruct (List.find (fun r => id r =? i) (table w)) as [c'|] eqn:E;
    [|destruct (fits_int64 i); discriminate].
  intros H. inversion H; subst c'; clear H.
  split.
  - intros data. destruct (add_crate_table data w) as [-> | (n & w1 & _ & ->)].
    + now rewrite E.
    + cbn [table]. now rewrite (find_app_found _ _ _ _ E).
  - intros p.
    destruct (api_post_table p w) as [-> | (n & w1 & _ & _ & _ & _ & ->)].
    + now rewrite E.
    + cbn [table]. now rewrite (find_app_found _ _ _ _ E).
Qed.

(** Record 2 of the three crates, before and after an insert. *)
Lemma insert_keeps_rows_witness :
  crate_detail 2 three_crates = (inr (crate_on 2 (mkdate 2024 1 2)), three_crates)
  /\ fst (crate_detail 2 (snd (add_crate required_only three_crates)))
     = inr (crate_on 2 (mkdate 2024 1 2))
  /\ fst (crate_detail 2 (snd (api_crates_post required_payload three_crates)))
     = inr (crate_on 2 (mkdate 2024 1 2)).
Proof.
  assert (H : crate_detail 2 three_crates
              = (inr (crate_on 2 (mkdate 2024 1 2)), three_crates))
    by reflexivity.
  destruct (insert_keeps_rows three_crates 2 _ H) as [Hf Ha].
  split; [exact H|]. split.
  - now rewrite (Hf required_only).
  - now rewrite (Ha required_payload).
Defined.

(** X11.  Inserts keep the ids distinct and positive: on a table where no
    two rows share an id and every id is at least 1, the table after
    POST /add, and after POST /api/crates, is such a table again. *)
Theorem insert_keeps_ids_ok (w : World) :
  ids_ok (table w) ->
  (forall data, ids_ok (table (snd (add_crate data w))))
  /\ (forall p, ids_ok (table (snd (api_crates_post p w)))).
Proof.
  intros Hok. split.
  - intros data. destruct (add_crate_table data w) as [-> | (n & w1 & _ & ->)];
      [exact Hok|].
    cbn [table]. now apply ids_ok_append.
  - intros p.
    destruct (api_post_table p w) as [-> | (n & w1 & _ & _ & _ & _ & ->)];
      [exact Hok|].
    cbn [table]. now apply ids_ok_append.
Qed.

(** Two inserts into the empty table. *)
Lemma insert_keeps_ids_ok_witness :
  ids_ok (table empty_world)
  /\ ids_ok (table (snd (api_crates_post required_payload
                           (snd (add_crate required_only empty_world))))).
Proof.
  assert (H : ids_ok (table empty_world)).
  { split; constructor. }
  split; [exact H|].
  apply insert_keeps_ids_ok.
  now apply (insert_keeps_ids_ok empty_world).
Defined.

(** ** [crate_detail] *)

(** X12.  In a table of distinct ids every stored record is found under
    its own id. *)
Theorem crate_detail_finds_stored (w : World) (c : Crate) :
  List.NoDup (map id (table w)) -> In c (table w) ->
  crate_detail (id c) w = (inr c, w).
Proof.
  intros Hnd Hin. unfold crate_detail, get_or_404.
  now rewrite (find_by_id _ _ Hnd Hin).
Qed.

(** The crate with id 2 among the three crates. *)
Lemma crate_detail_finds_stored_witness :
  List.NoDup (map id (table three_crates))
  /\ In (crate_on 2 (mkdate 2024 1 2)) (table three_crates)
  /\ crate_detail 2 three_crates
     = (inr (crate_on 2 (mkdate 2024 1 2)), three_crates).
Proof.
  assert (Hnd : List.NoDup (map id (table three_crates))).
  { repeat constructor; simpl; intuition discriminate. }
  assert (Hin : In (crate_on 2 (mkdate 2024 1 2)) (table three_crates)).
  { right. now left. }
  split; [exact Hnd|]. split; [exact Hin|].
  exact (crate_detail_finds_stored three_crates _ Hnd Hin).
Defined.

(** ** Invariants the API keeps *)

(** X13.  The API never stores an empty required field: on a table whose
    rows all have a non-empty [puc], [farm_name] and [commodity], the
    table after POST /api/crates is such a table again. *)
Theorem api_post_keeps_required (p : Payload) (w : World) :
  required_ok (table w) -> required_ok (table (snd (api_crates_post p w))).
Proof.
  intros Hok.
  destruct (api_post_table p w) as [-> | (n & w1 & _ & Tp & Tf & Tc & ->)];
    [exact Hok|].
  cbn [table]. apply Forall_app. split; [exact Hok|].
  constructor; [|constructor]. cbn. auto.
Qed.

(** An insert into the empty table. *)
Lemma api_post_keeps_required_witness :
  required_ok (table empty_world)
  /\ required_ok (table (snd (api_crates_post required_payload empty_world))).
Proof.
  assert (H : required_ok (table empty_world)) by constructor.
  split; [exact H|]. now apply api_post_keeps_required.
Defined.

Lemma new_date_valid_form (data : gmap string string) (w w1 : World) (n : NewCrate) :
  clock_ok w -> crate_of_form data w = (inr n, w1) ->
  valid_date (n_date_received n) = true.
Proof.
  intros Hck E. apply crate_of_form_inr in E.
  destruct E as (_ & _ & _ & _ & _ & _ & _ & _ & _ & E).
  destruct (or_none (data !! "date_received")) as [s|]; destruct E as [E _].
  - now apply strptime_valid with s.
  - rewrite E. apply Hck.
Qed.

Lemma new_date_valid_payload (p : Payload) (a b c : string) (w w1 : World)
  (n : NewCrate) :
  clock_ok w -> crate_of_payload p a b c w = (inr n, w1) ->
  valid_date (n_date_received n) = true.
Proof.
  intros Hck E. apply crate_of_payload_inr in E.
  destruct E as (_ & _ & _ & _ & _ & _ & _ & _ & _ & E).
  destruct (or_none (j_date_received p)) as [s|]; destruct E as [E _].
  - now apply strptime_valid with s.
  - rewrite E. apply Hck.
Qed.

(** X14.  Every date an insert stores is a day of the calendar: if the
    clock shows such days and the rows are dated with such days, so are
    the rows after POST /add and after POST /api/crates. *)
Theorem insert_keeps_dates_valid (w : World) :
  clock_ok w -> dates_ok (table w) ->
  (forall data, dates_ok (table (snd (add_crate data w))))
  /\ (forall p, dates_ok (table (snd (api_crates_post p w)))).
Proof.
  intros Hck Hok. split.
  - intros data. destruct (add_crate_table data w) as [-> | (n & w1 & E & ->)];
      [exact Hok|].
    cbn [table]. apply Forall_app. split; [exact Hok|].
    constructor; [|constructor]. cbn. now apply new_date_valid_form with data w w1.
  - intros p.
    destruct (api_post_table p w) as [-> | (n & w1 & E & _ & _ & _ & ->)];
      [exact Hok|].
    cbn [table]. apply Forall_app. split; [exact Hok|].
    constructor; [|constructor]. cbn.
    now apply new_date_valid_payload
      with p (n_puc n) (n_farm_name n) (n_commodity n) w w1.
Qed.

(** An insert into the empty table, the clock at noon of 2024-05-17. *)
Lemma insert_keeps_dates_valid_witness :
  clock_ok empty_world /\ dates_ok (table empty_world)
  /\ dates_ok (table (snd (add_crate required_only empty_world)))
  /\ dates_ok (table (snd (api_crates_post required_payload empty_world))).
Proof.
  assert (Hck : clock_ok empty_world) by (intros n; reflexivity).
  assert (Hok : dates_ok (table empty_world)) by constructor.
  destruct (insert_keeps_dates_valid empty_world Hck Hok) as [Hf Ha].
  split; [exact Hck|]. split; [exact Hok|]. split; [apply Hf | apply Ha].
Defined.

(** ** Handlers one after the other *)

(** A row whose id is above all others sorts first by id descending. *)
Lemma sort_newest_first (rows : list Crate) (c : Crate) :
  (forall r, In r rows -> id r < id c) ->
  sort_by (lex [desc id Z.compare]) (rows ++ [c])
  = c :: sort_by (lex [desc id Z.compare]) rows.
Proof.
  induction rows as [|a rows IH]; intros H; [reflexivity|].
  cbn [app sort_by]. rewrite IH by (intros r Hr; apply H; now right).
  cbn [insert_sorted]. unfold leb_of at 1. cbn [lex]. unfold desc at 1.
  assert (Ha : id a < id c) by (apply H; now left).
  apply Z.compare_gt_iff in Ha. now rewrite Ha.
Qed.

(** X15.  A record created through the API heads the listing: after a
    valid POST /api/crates on a table whose rows carry their creation
    time, GET /api/crates answers 200 with the object the POST returned
    first, followed by one object for each row that was there before. *)
Theorem api_post_then_get (p : Payload) (w : World) :
  stamped (table w) -> valid_payload p = true ->
  exists d ds w',
    api_crates POST p w = (inr (mkApiResponse (CrateBody d) 201), w')
    /\ api_crates GET p w' = (inr (mkApiResponse (ListBody (d :: ds)) 200), w')
    /\ length ds = length (table w).
Proof.
  intros Hst Hv. cbn [api_crates].
  destruct (api_post_step p w)
    as [[Hreq _] | [(_ & Hbad & _) | (_ & n & w1 & _ & _ & _ & _ & _ & _ & E)]].
  - unfold valid_payload in Hv. rewrite Hreq in Hv. discriminate.
  - congruence.
  - set (c := stored n (next_id (table w)) (clock w (ticks w1))) in *.
    set (w' := mkWorld (table w ++ [c]) (clock w) (S (ticks w1))) in *.
    set (old := sort_by (lex [desc id Z.compare]) (table w)).
    assert (Hold : stamped old).
    { unfold stamped. eapply Permutation_Forall; [|exact Hst].
      symmetry. apply sort_by_perm. }
    destruct (mapM_to_dict old w' Hold) as (ds & Hds & Hall).
    eexists. exists ds, w'. split; [exact E|]. split.
    + unfold api_crates_get, all. cbn [ordering criteria order_by].
      rewrite filter_no_criteria. cbn [table w'].
      rewrite sort_newest_first
        by (intros r Hr; apply next_id_above in Hr; exact Hr).
      fold old. unfold bind at 1. cbn [mapM]. unfold bind at 1.
      unfold lift at 1.
      rewrite (to_dict_stamped c (clock w (ticks w1)) eq_refl).
      unfold bind at 1. fold w'. rewrite Hds. reflexivity.
    + apply Forall2_length in Hall. rewrite <- Hall.
      apply Permutation_length. apply sort_by_perm.
Qed.

(** The required fields alone, posted to the table of the three crates. *)
Lemma api_post_then_get_witness :
  stamped (table three_crates) /\ valid_payload required_payload = true
  /\ exists d ds w',
       api_crates POST required_payload three_crates
       = (inr (mkApiResponse (CrateBody d) 201), w')
       /\ api_crates GET required_payload w'
          = (inr (mkApiResponse (ListBody (d :: ds)) 200), w')
       /\ length ds = 3%nat.
Proof.
  assert (H : stamped (table three_crates)).
  { repeat constructor; now exists noon. }
  split; [exact H|]. split; [reflexivity|].
  exact (api_post_then_get required_payload three_crates H eq_refl).
Defined.

Lemma like_matches_empty (c : Crate) : like_matches ∅ c = true.
Proof. reflexivity. Qed.

Lemma filter_all {A : Type} (f : A -> bool) (l : list A) :
  (forall a, f a = true) -> List.filter f l = l.
Proof.
  intros H. induction l as [|a l IH]; simpl; [reflexivity|].
  now rewrite H, IH.
Qed.

(** X16.  Without filters the dashboard lists the whole table, and a
    record added by a valid POST /add is on the next unfiltered page,
    whose count is one more. *)
Theorem add_crate_then_dashboard (data : gmap string string) (w : World) :
  Permutation (crates (dashboard ∅ w)) (table w)
  /\ count (totals (dashboard ∅ w)) = length (table w)
  /\ (valid_form data = true ->
      exists c,
        table (snd (add_crate data w)) = table w ++ [c]
        /\ In c (crates (dashboard ∅ (snd (add_crate data w))))
        /\ count (totals (dashboard ∅ (snd (add_crate data w))))
           = S (length (table w))).
Proof.
  assert (Hall : forall w0, Permutation (crates (dashboard ∅ w0)) (table w0)).
  { intros w0. rewrite dashboard_like_perm.
    now rewrite (filter_all _ _ like_matches_empty). }
  split; [apply Hall|]. split.
  - rewrite dashboard_totals. cbn [count]. apply Permutation_length, Hall.
  - intros Hv.
    destruct (add_crate_step data w)
      as [(_ & n & w1 & _ & _ & _ & E) | (Hbad & _)]; [|congruence].
    rewrite E. cbn [snd].
    eexists. split; [reflexivity|]. split.
    + apply (Permutation_in _ (Permutation_sym (Hall _))). cbn [table].
      apply in_or_app. right. now left.
    + rewrite dashboard_totals. cbn [count].
      rewrite (Permutation_length (Hall _)). cbn [table].
      rewrite length_app. simpl. lia.
Qed.

(** The required fields alone, added to the three crates. *)
Lemma add_crate_then_dashboard_witness :
  valid_form required_only = true
  /\ count (totals (dashboard ∅ (snd (add_crate required_only three_crates))))
     = 4%nat.
Proof.
  split; [reflexivity|].
  destruct (add_crate_then_dashboard required_only three_crates) as (_ & _ & H).
  destruct (H eq_refl) as (c & _ & _ & Hc). exact Hc.
Defined.

(** ** Edges of the insert *)

(** X17.  A weight of zero is stored by the form and dropped by the API:
    a valid payload whose weight is falsy (the number 0, 0.0, or the
    empty string) is stored without weight, while a valid form whose
    weight reads [0] is stored with the weight 0.0. *)
Theorem zero_weight_form_and_api (w : World) :
  (forall p,
     valid_payload p = true -> jweight_truthy (j_weight p) = false ->
     exists c, table (snd (api_crates_post p w)) = table w ++ [c]
               /\ weight c = None)
  /\ (forall data,
        valid_form data = true -> data !! "weight" = Some "0" ->
        exists c, table (snd (add_crate data w)) = table w ++ [c]
                  /\ weight c = Some (S754_zero false)).
Proof.
  split.
  - intros p Hv Hw.
    destruct (api_post_step p w)
      as [[Hreq _] | [(_ & Hbad & _) | (_ & n & w1 & E & _ & _ & _ & _ & _ & H)]].
    + unfold valid_payload in Hv. rewrite Hreq in Hv. discriminate.
    + congruence.
    + rewrite H. cbn [snd table]. eexists. split; [reflexivity|].
      cbn [weight stored]. apply crate_of_payload_inr in E.
      destruct E as (_ & _ & _ & _ & _ & _ & _ & _ & -> & _).
      unfold supplied_weight.
      destruct (j_weight p) as [v|]; [|reflexivity]. now rewrite Hw.
  - intros data Hv Hw.
    destruct (add_crate_step data w)
      as [(_ & n & w1 & E & _ & _ & H) | (Hbad & _)]; [|congruence].
    rewrite H. cbn [snd table]. eexists. split; [reflexivity|].
    cbn [weight stored]. apply crate_of_form_inr in E.
    destruct E as (_ & _ & _ & _ & _ & _ & _ & _ & -> & _).
    rewrite Hw. reflexivity.
Qed.

(** The weight 0 as a JSON number and as the form text [0]. *)
Lemma zero_weight_form_and_api_witness :
  (valid_payload zero_weight_payload = true
   /\ jweight_truthy (j_weight zero_weight_payload) = false
   /\ map weight (table (snd (api_crates_post zero_weight_payload empty_world)))
      = [None])
  /\ (valid_form zero_weight_form = true
      /\ zero_weight_form !! "weight" = Some "0"
      /\ map weight (table (snd (add_crate zero_weight_form empty_world)))
         = [Some (S754_zero false)]).
Proof.
  destruct (zero_weight_form_and_api empty_world) as [Ha Hf].
  split.
  - split; [reflexivity|]. split; [reflexivity|].
    destruct (Ha zero_weight_payload eq_refl eq_refl) as (c & -> & Hc).
    simpl. now rewrite Hc.
  - split; [reflexivity|]. split; [reflexivity|].
    destruct (Hf zero_weight_form eq_refl eq_refl) as (c & -> & Hc).
    simpl. now rewrite Hc.
Defined.

(** X18.  A valid POST /add reads the clock once when the form brings a
    date, for [created_at]; without a date it reads it twice, first for
    [date_received] and then for [created_at], so the two come from
    different readings. *)
Theorem add_crate_clock_readings (data : gmap string string) (w : World) :
  valid_form data = true ->
  exists c,
    table (snd (add_crate data w)) = table w ++ [c]
    /\ match or_none (data !! "date_received") with
       | Some s =>
           strptime_date s = inr (date_received c)
           /\ created_at c = Some (clock w (ticks w))
           /\ ticks (snd (add_crate data w)) = S (ticks w)
       | None =>
           date_received c = dt_date (clock w (ticks w))
           /\ created_at c = Some (clock w (S (ticks w)))
           /\ ticks (snd (add_crate data w)) = S (S (ticks w))
       end.
Proof.
  intros Hv.
  destruct (add_crate_step data w)
    as [(_ & n & w1 & E & _ & _ & H) | (Hbad & _)]; [|congruence].
  rewrite H. cbn [snd table ticks]. eexists. split; [reflexivity|].
  cbn [date_received created_at stored].
  apply crate_of_form_inr in E.
  destruct E as (_ & _ & _ & _ & _ & _ & _ & _ & _ & E).
  destruct (or_none (data !! "date_received")) as [s|]; destruct E as [E ->];
    repeat split; assumption || reflexivity.
Qed.

(** The required fields alone: no date, two readings. *)
Lemma add_crate_clock_readings_witness :
  valid_form required_only = true
  /\ ticks (snd (add_crate required_only empty_world)) = 2%nat.
Proof.
  split; [reflexivity|].
  destruct (add_crate_clock_readings required_only empty_world eq_refl)
    as (c & _ & H).
  change (or_none (required_only !! "date_received")) with (@None string) in H.
  now destruct H as (_ & _ & H).
Defined.

(** ** The form and its default date *)

Lemma date_isoformat_truthy (d : date) : truthy (date_isoformat d) = true.
Proof. unfold date_isoformat, zfill4. app_step. reflexivity. Qed.

(** X19.  The date GET /add puts in the form is the day of the clock, and
    it survives the round trip: when that day is a day of the calendar, a
    valid form posted with the date as it was prefilled is stored under
    that day. *)
Theorem add_crate_today_round_trip (w : World) :
  valid_date (dt_date (clock w (ticks w))) = true ->
  exists today w1,
    add_crate_view GET ∅ w = (inr (RenderAdd today), w1)
    /\ table w1 = table w
    /\ today = date_isoformat (dt_date (clock w (ticks w)))
    /\ forall data,
         valid_form data = true -> data !! "date_received" = Some today ->
         exists c,
           add_crate_view POST data w1
           = (inr (AfterPost (mkFormResponse (CrateAdded, success) ep_dashboard)),
              snd (add_crate data w1))
           /\ table (snd (add_crate data w1)) = table w ++ [c]
           /\ date_received c = dt_date (clock w (ticks w)).
Proof.
  intros Hd. eexists. eexists.
  split; [reflexivity|]. split; [reflexivity|]. split; [reflexivity|].
  intros data Hv Hdate.
  match goal with |- context [add_crate data ?x] => set (w1 := x) end.
  destruct (add_crate_step data w1)
    as [(_ & n & w2 & E & _ & _ & H) | (Hbad & _)]; [|congruence].
  cbn [add_crate_view]. rewrite H. cbn [snd table].
  eexists. split; [reflexivity|]. split; [reflexivity|].
  cbn [date_received stored].
  apply crate_of_form_inr in E.
  destruct E as (_ & _ & _ & _ & _ & _ & _ & _ & _ & E).
  rewrite Hdate in E. rewrite (or_none_keep _ (date_isoformat_truthy _)) in E.
  destruct E as [E _]. rewrite (strptime_isoformat _ Hd) in E.
  now inversion E.
Qed.

(** The form fetched and posted back on 2024-05-17. *)
Lemma add_crate_today_round_trip_witness :
  valid_date (dt_date (clock empty_world (ticks empty_world))) = true
  /\ exists today w1,
       add_crate_view GET ∅ empty_world = (inr (RenderAdd today), w1)
       /\ today = "2024-05-17"
       /\ map date_received
            (table (snd (add_crate (<["date_received" := today]> required_only) w1)))
          = [mkdate 2024 5 17].
Proof.
  split; [reflexivity|].
  destruct (add_crate_today_round_trip empty_world eq_refl)
    as (today & w1 & H1 & _ & H3 & H4).
  exists today, w1. split; [exact H1|]. split; [rewrite H3; reflexivity|].
  assert (Hv : valid_form (<["date_received" := today]> required_only) = true)
    by (rewrite H3; reflexivity).
  destruct (H4 _ Hv (lookup_insert_eq _ _ _)) as (c & _ & -> & Hc).
  simpl. now rewrite Hc.
Defined.

(** ** [export_csv] and [to_dict] *)

Lemma escape_no_line_feed (s : string) :
  has_line_feed (escape_newlines s) = false.
Proof.
  induction s as [|c s IH]; [reflexivity|].
  cbn [escape_newlines]. destruct (Ascii.eqb c (ascii_of_nat 10)) eqn:E.
  - cbn [has_line_feed]. rewrite IH. reflexivity.
  - cbn [has_line_feed]. now rewrite E, IH.
Qed.

Lemma escape_app (s t : string) :
  escape_newlines (s +:+ t) = escape_newlines s +:+ escape_newlines t.
Proof.
  induction s as [|c s IH]; app_step; [reflexivity|].
  cbn [escape_newlines]. rewrite IH.
  destruct (Ascii.eqb c (ascii_of_nat 10)); app_step; reflexivity.
Qed.

(** X20.  Every row of the export, the header included, has eleven cells,
    and the last cell of a record's row holds no line feed, whatever the
    notes of the record are. *)
Theorem export_csv_row_shape (float_repr : PyFloat.float -> string) (w : World) :
  (forall row, In row (export_csv float_repr w) -> length row = 11%nat)
  /\ (forall row, In row (tl (export_csv float_repr w)) ->
      has_line_feed (nth 10 row EmptyString) = false).
Proof.
  unfold export_csv. split.
  - intros row [<-|Hin]; [reflexivity|].
    apply in_map_iff in Hin as (c & <- & _).
    rewrite writerow_expected. reflexivity.
  - cbn [tl]. intros row Hin.
    apply in_map_iff in Hin as (c & <- & _).
    rewrite writerow_expected. cbn [expected_row nth].
    apply escape_no_line_feed.
Qed.

(** The export of the record whose note has two lines; it has no
    weight, so no float is written. *)
Lemma export_csv_row_shape_witness :
  In (expected_row (fun _ => EmptyString)
        (note_with 1 ("line1" +:+ newline +:+ "line2")))
    (tl (export_csv (fun _ => EmptyString)
           (mkWorld [note_with 1 ("line1" +:+ newline +:+ "line2")]
              (fun _ => noon) 0)))
  /\ has_line_feed
       (nth 10 (expected_row (fun _ => EmptyString)
                  (note_with 1 ("line1" +:+ newline +:+ "line2")))
          EmptyString) = false.
Proof.
  assert (H : In (expected_row (fun _ => EmptyString)
                    (note_with 1 ("line1" +:+ newline +:+ "line2")))
                (tl (export_csv (fun _ => EmptyString)
                       (mkWorld [note_with 1 ("line1" +:+ newline +:+ "line2")]
                          (fun _ => noon) 0)))).
  { left. reflexivity. }
  split; [exact H|].
  exact (proj2 (export_csv_row_shape (fun _ => EmptyString) _) _ H).
Defined.

(** X21.  The export does not tell a line feed in the notes from a
    backslash followed by the letter n: two records whose notes differ in
    just that have the same notes cell. *)
Theorem export_notes_ambiguous (c1 c2 : Crate) (s t : string) :
  inspector_notes c1 = Some (s +:+ newline +:+ t) ->
  inspector_notes c2 = Some (s +:+ backslash_n +:+ t) ->
  inspector_notes c1 <> inspector_notes c2
  /\ notes_cell c1 = notes_cell c2.
Proof.
  intros H1 H2. split.
  - rewrite H1, H2. intros E. inversion E as [E']. clear - E'.
    induction s as [|a s IH]; app_step.
    + unfold newline, backslash_n in E'. app_step. discriminate.
    + apply IH. now inversion E'.
  - rewrite !notes_cell_escaped, H1, H2. cbn [cell_of].
    rewrite !escape_app. reflexivity.
Qed.

(** The notes line1, line feed, line2 and line1, backslash, n, line2. *)
Lemma export_notes_ambiguous_witness :
  inspector_notes (note_with 1 ("line1" +:+ newline +:+ "line2"))
  <> inspector_notes (note_with 2 ("line1" +:+ backslash_n +:+ "line2"))
  /\ notes_cell (note_with 1 ("line1" +:+ newline +:+ "line2"))
     = notes_cell (note_with 2 ("line1" +:+ backslash_n +:+ "line2")).
Proof.
  apply (export_notes_ambiguous _ _ "line1" "line2"); reflexivity.
Defined.

Lemma to_dict_error (c : Crate) (e : exn) : to_dict c = inl e -> e = AttributeError.
Proof. unfold to_dict. destruct (created_at c); congruence. Qed.

Lemma mapM_to_dict_fails (l : list Crate) (w : World) :
  Exists (fun c => created_at c = None) l ->
  mapM (fun c => lift (to_dict c)) l w = (inl AttributeError, w).
Proof.
  induction l as [|c l IH]; intros H; [inversion H|].
  cbn [mapM]. unfold bind at 1. unfold lift at 1.
  destruct (to_dict c) as [e|d] eqn:E.
  - now rewrite (to_dict_error _ _ E).
  - unfold bind at 1. rewrite IH; [reflexivity|].
    inversion H as [? ? Hc|? ? Hl]; subst; [|exact Hl].
    unfold to_dict in E. rewrite Hc in E. discriminate.
Qed.

(** X22.  One row without creation time breaks the whole listing:
    GET /api/crates raises [AttributeError] and returns no record, since
    [to_dict] calls [isoformat] on [created_at] without a guard. *)
Theorem api_get_needs_created_at (p : Payload) (w : World) :
  (exists c, In c (table w) /\ created_at c = None) ->
  api_crates GET p w = (inl AttributeError, w).
Proof.
  intros (c & Hin & Hc). cbn [api_crates]. unfold api_crates_get, bind.
  rewrite mapM_to_dict_fails; [reflexivity|].
  apply List.Exists_exists. exists c. split; [|exact Hc].
  eapply Permutation_in; [symmetry; apply all_perm|].
  cbn [criteria order_by]. now rewrite filter_no_criteria.
Qed.

(** A table of two rows, the second without creation time. *)
Lemma api_get_needs_created_at_witness :
  (exists c, In c (table one_unstamped) /\ created_at c = None)
  /\ api_crates GET required_payload one_unstamped
     = (inl AttributeError, one_unstamped).
Proof.
  assert (H : exists c, In c (table one_unstamped) /\ created_at c = None).
  { eexists. split; [right; left; reflexivity | reflexivity]. }
  split; [exact H | exact (api_get_needs_created_at _ one_unstamped H)].
Defined.

(** ** The order of the checks of the API *)

(** X23.  Once the required fields are there, POST /api/crates reads the
    weight before the date: a weight text that is not a number raises the
    [ValueError] of [float], an integer weight too large for a float
    raises [OverflowError], and only with a weight that reads does a bad
    date raise the [ValueError] of [strptime]; in each case nothing is
    stored. *)
Theorem api_post_error_order (p : Payload) (w : World) :
  opt_truthy (j_puc p) && opt_truthy (j_farm_name p) && opt_truthy (j_commodity p)
  = true ->
  (forall s,
     j_weight p = Some (JStr s) -> truthy s = true ->
     PyFloat.float_of_string s = None ->
     api_crates POST p w = (inl (ValueError_float s), w))
  /\ (forall z,
        j_weight p = Some (JInt z) -> z <> 0 ->
        PyFloat.float_of_int z = None ->
        api_crates POST p w = (inl OverflowError, w))
  /\ (forall s why,
        match supplied_weight p with
        | Some v => bool_decide (is_Some (weight_number v))
        | None => true
        end = true ->
        j_date_received p = Some s -> truthy s = true ->
        strptime_date s = inl why ->
        api_crates POST p w = (inl (ValueError_strptime s why), w)).
Proof.
  intros Hreq. rewrite !or_none_truthy in Hreq.
  cbn [api_crates]. unfold api_crates_post.
  destruct (or_none (j_puc p)) as [a|]; [|discriminate].
  destruct (or_none (j_farm_name p)) as [b|]; [|discriminate].
  destruct (or_none (j_commodity p)) as [c|]; [|discriminate].
  unfold bind at 1.
  unfold crate_of_payload, bind, float_json, float_str, strptime, ret, raise.
  split; [|split].
  - intros s -> Hs Hf. cbn [jweight_truthy]. rewrite Hs, Hf. reflexivity.
  - intros z -> Hz Hf. cbn [jweight_truthy].
    apply Z.eqb_neq in Hz. rewrite Hz, Hf. reflexivity.
  - intros s why Hw -> Hs Hd. unfold supplied_weight in Hw.
    destruct (j_weight p) as [v|]; [|now rewrite Hs, Hd].
    destruct (jweight_truthy (Some v)); [|now rewrite Hs, Hd].
    destruct v as [sw|z|x]; cbn [weight_number] in Hw.
    + destruct (PyFloat.float_of_string sw); [|discriminate].
      now rewrite Hs, Hd.
    + destruct (PyFloat.float_of_int z); [|discriminate].
      now rewrite Hs, Hd.
    + now rewrite Hs, Hd.
Qed.

(** The weights [abc] and 10^400, and the date [17/05/2024]. *)
Lemma api_post_error_order_witness :
  api_crates POST bad_weight_payload empty_world
  = (inl (ValueError_float "abc"), empty_world)
  /\ api_crates POST huge_weight_payload empty_world
     = (inl OverflowError, empty_world)
  /\ api_crates POST bad_date_payload empty_world
     = (inl (ValueError_strptime "17/05/2024" NoFormatMatch), empty_world).
Proof.
  split; [|split].
  - destruct (api_post_error_order bad_weight_payload empty_world eq_refl)
      as (H & _).
    apply (H "abc"); reflexivity.
  - destruct (api_post_error_order huge_weight_payload empty_world eq_refl)
      as (_ & H & _).
    apply (H (10 ^ 400)); [reflexivity | discriminate | now vm_compute].
  - destruct (api_post_error_order bad_date_payload empty_world eq_refl)
      as (_ & _ & H).
    apply (H "17/05/2024" NoFormatMatch); reflexivity.
Defined.
